(** * Zoho CRM to Airtable sync: type mapping, record conversion,
      schema reconciliation and batch loading

    A shallow embedding of [sync_zoho_to_airtable.py].  Python values are
    the values that [response.json()] produces; dictionaries keep their
    insertion order and are association lists; exceptions are an explicit
    result type; the two REST services are a world that is threaded through
    every call.

    Modelling boundary.  A Python [str] is a [string] of 8-bit characters,
    and the character classes used by [str.lower], [int] and [repr] are
    those of ASCII.  Binary floating point is not modelled: the float type
    and the three built-ins that touch it are the fields of [float_model]. *)

From Stdlib Require Import String Ascii List ZArith Bool Lia DecimalString.
Import ListNotations.
Local Open Scope string_scope.

(* ================================================================= *)
(** ** Exceptions *)

Inductive exn : Type :=
| AttributeError
| TypeError
| KeyError
| ValueError.

Inductive result (A : Type) : Type :=
| Ok (a : A)
| Raise (e : exn).

Arguments Ok {A} a.
Arguments Raise {A} e.

Definition bind {A B : Type} (r : result A) (k : A -> result B) : result B :=
  match r with
  | Ok a => k a
  | Raise e => Raise e
  end.

Notation "x <- r ;; k" := (bind r (fun x => k))
  (at level 61, r at next level, right associativity).

Definition returns {A : Type} (r : result A) : Prop := exists a, r = Ok a.

Definition raises {A : Type} (r : result A) : Prop := exists e, r = Raise e.

(** [[f(x) for x in l]]: evaluation stops at the first exception. *)
Fixpoint mapM {A B : Type} (f : A -> result B) (l : list A) : result (list B) :=
  match l with
  | [] => Ok []
  | x :: r => y <- f x ;; ys <- mapM f r ;; Ok (y :: ys)
  end.

(* ================================================================= *)
(** ** Built-in string operations *)

Module Py.

Definition is_upper (c : ascii) : bool :=
  (65 <=? nat_of_ascii c)%nat && (nat_of_ascii c <=? 90)%nat.

Definition lower_char (c : ascii) : ascii :=
  if is_upper c then ascii_of_nat (nat_of_ascii c + 32) else c.

(** [s.lower()] *)
Fixpoint lower (s : string) : string :=
  match s with
  | EmptyString => EmptyString
  | String c r => String (lower_char c) (lower r)
  end.

(** [c in s] for a one-character [c] *)
Fixpoint contains_char (c : ascii) (s : string) : bool :=
  match s with
  | EmptyString => false
  | String d r => Ascii.eqb c d || contains_char c r
  end.

(** [s.startswith(c)] for a one-character [c] *)
Definition startswith (c : ascii) (s : string) : bool :=
  match s with
  | EmptyString => false
  | String d _ => Ascii.eqb c d
  end.

(** [s.lstrip(c)]: every leading [c] is removed. *)
Fixpoint lstrip (c : ascii) (s : string) : string :=
  match s with
  | EmptyString => EmptyString
  | String d r => if Ascii.eqb c d then lstrip c r else s
  end.

(** [sep.join(l)] on a list of strings *)
Fixpoint join (sep : string) (l : list string) : string :=
  match l with
  | [] => ""
  | [x] => x
  | x :: r => x ++ sep ++ join sep r
  end.

(** [x in l] for strings *)
Definition mem (x : string) (l : list string) : bool :=
  existsb (String.eqb x) l.

(** *** [int(s)] in base 10 *)

Definition is_space (c : ascii) : bool :=
  let n := nat_of_ascii c in
  ((9 <=? n)%nat && (n <=? 13)%nat) || (n =? 32)%nat.

Definition is_digit (c : ascii) : bool :=
  (48 <=? nat_of_ascii c)%nat && (nat_of_ascii c <=? 57)%nat.

Definition digit_val (c : ascii) : Z := Z.of_nat (nat_of_ascii c - 48).

Fixpoint skip_spaces (s : string) : string :=
  match s with
  | String c r => if is_space c then skip_spaces r else s
  | EmptyString => EmptyString
  end.

Fixpoint all_spaces (s : string) : bool :=
  match s with
  | EmptyString => true
  | String c r => is_space c && all_spaces r
  end.

(** Digits after the first one: an underscore must stand between two
    digits; trailing white space ends the literal. *)
Fixpoint int_digits (acc : Z) (s : string) : option Z :=
  match s with
  | EmptyString => Some acc
  | String c r =>
      if is_digit c then int_digits (10 * acc + digit_val c) r
      else if Ascii.eqb c "_" then
        match r with
        | String d r' =>
            if is_digit d then int_digits (10 * acc + digit_val d) r' else None
        | EmptyString => None
        end
      else if all_spaces s then Some acc
      else None
  end.

Definition int_unsigned (s : string) : option Z :=
  match s with
  | String c r => if is_digit c then int_digits (digit_val c) r else None
  | EmptyString => None
  end.

(** [int(s)]; [None] stands for [ValueError].  The interpreter's limit on
    the number of digits is not modelled. *)
Definition int_of_str (s : string) : option Z :=
  match skip_spaces s with
  | String "-" r => option_map Z.opp (int_unsigned r)
  | String "+" r => int_unsigned r
  | t => int_unsigned t
  end.

(** [str(z)] *)
Definition str_of_int (z : Z) : string := NilZero.string_of_int (Z.to_int z).

(** *** [repr(s)] *)

Definition hex_digit (n : nat) : ascii :=
  if (n <? 10)%nat then ascii_of_nat (48 + n) else ascii_of_nat (87 + n).

Definition escape_char (q c : ascii) : string :=
  let n := nat_of_ascii c in
  if Ascii.eqb c "\" then "\\"
  else if Ascii.eqb c q then String "\" (String q "")
  else if (n =? 9)%nat then "\t"
  else if (n =? 10)%nat then "\n"
  else if (n =? 13)%nat then "\r"
  else if (n <? 32)%nat || (n =? 127)%nat then
    String "\" (String "x" (String (hex_digit (n / 16)) (String (hex_digit (n mod 16)) "")))
  else String c "".

Fixpoint escape (q : ascii) (s : string) : string :=
  match s with
  | EmptyString => EmptyString
  | String c r => escape_char q c ++ escape q r
  end.

Definition dquote : ascii := ascii_of_nat 34.

Definition repr_str (s : string) : string :=
  let q : ascii :=
    if contains_char "'" s && negb (contains_char dquote s) then dquote else "'"%char in
  String q (escape q s ++ String q "").

End Py.

(* ================================================================= *)
(** ** Values *)

(** The Python float type with the built-ins applied to it: [float(s)] on
    a string ([None] for [ValueError]), [str(f)] and [bool(f)]. *)
Record float_model : Type := {
  pyfloat : Type;
  float_of_str : string -> option pyfloat;
  str_of_float : pyfloat -> string;
  float_truthy : pyfloat -> bool
}.

(** An instance for closed examples: a float is the exact value
    [m * 10^e] of a finite decimal literal (sign, digits, fraction,
    exponent).  Rounding to binary64, infinities, NaN and digit
    separators in the mantissa are left out. *)
Module ExactDecimal.

Fixpoint digits (m e : Z) (frac : bool) (n : nat) (s : string) : Z * Z * nat * string :=
  match s with
  | String c r =>
      if Py.is_digit c
      then digits (10 * m + Py.digit_val c) (if frac then e - 1 else e) frac (S n) r
      else (m, e, n, s)
  | EmptyString => (m, e, n, s)
  end.

Definition exponent (s : string) : option Z :=
  match s with
  | EmptyString => Some 0%Z
  | String c r =>
      if Ascii.eqb (Py.lower_char c) "e" then
        match r with
        | String "-" r' => option_map Z.opp (Py.int_unsigned r')
        | String "+" r' => Py.int_unsigned r'
        | _ => Py.int_unsigned r
        end
      else if Py.all_spaces s then Some 0%Z else None
  end.

Definition unsigned (s : string) : option (Z * Z) :=
  let '(m, _, n1, s1) := digits 0 0 false 0 s in
  let '(m, e, n2, s2) :=
    match s1 with
    | String "." r => digits m 0 true 0 r
    | _ => (m, 0%Z, 0%nat, s1)
    end in
  match (n1 + n2)%nat with
  | O => None
  | S _ => option_map (fun x => (m, (e + x)%Z)) (exponent s2)
  end.

Definition parse (s : string) : option (Z * Z) :=
  match Py.skip_spaces s with
  | String "-" r => option_map (fun me => (Z.opp (fst me), snd me)) (unsigned r)
  | String "+" r => unsigned r
  | t => unsigned t
  end.

Fixpoint zeros (n : nat) : string :=
  match n with
  | O => ""
  | S k => String "0" (zeros k)
  end.

Fixpoint strip_zeros (m : Z) (e : Z) (fuel : nat) : Z * Z :=
  match fuel with
  | O => (m, e)
  | S k =>
      if (e <? 0)%Z && (m mod 10 =? 0)%Z && negb (m =? 0)%Z
      then strip_zeros (m / 10) (e + 1) k else (m, e)
  end.

(** Positional notation with at least one digit after the point; the
    exponent notation [repr] switches to for large and small magnitudes
    is left out. *)
Definition show (me : Z * Z) : string :=
  let '(m, e) :=
    if (fst me =? 0)%Z then (0%Z, 0%Z)
    else strip_zeros (fst me) (snd me) (Z.to_nat (- snd me)) in
  let sign := if (m <? 0)%Z then "-" else "" in
  let ds := Py.str_of_int (Z.abs m) in
  if (0 <=? e)%Z then sign ++ ds ++ zeros (Z.to_nat e) ++ ".0"
  else
    let k := Z.to_nat (- e) in
    let ds := zeros (S k - String.length ds) ++ ds in
    let n := (String.length ds - k)%nat in
    sign ++ substring 0 n ds ++ "." ++ substring n k ds.

Definition model : float_model := {|
  pyfloat := Z * Z;
  float_of_str := parse;
  str_of_float := show;
  float_truthy := fun me => negb (fst me =? 0)%Z
|}.

End ExactDecimal.

Set Warnings "-register-all".

Section Values.

Context {fm : float_model}.

(** What [json.loads] builds. *)
Inductive pyval : Type :=
| VNone
| VBool (b : bool)
| VInt (z : Z)
| VFloat (f : pyfloat fm)
| VStr (s : string)
| VList (l : list pyval)
| VDict (d : list (string * pyval)).

(** An insertion-ordered [dict] with string keys. *)
Definition dict : Type := list (string * pyval).

(** [k in d] *)
Fixpoint dict_mem {A : Type} (k : string) (d : list (string * A)) : bool :=
  match d with
  | [] => false
  | (k', _) :: r => String.eqb k k' || dict_mem k r
  end.

(** [d.get(k)] as an option *)
Fixpoint dict_find {A : Type} (k : string) (d : list (string * A)) : option A :=
  match d with
  | [] => None
  | (k', v) :: r => if String.eqb k k' then Some v else dict_find k r
  end.

(** [d.get(k, dflt)] *)
Definition dict_get {A : Type} (k : string) (d : list (string * A)) (dflt : A) : A :=
  match dict_find k d with
  | Some v => v
  | None => dflt
  end.

(** [d[k]] *)
Definition dict_item {A : Type} (k : string) (d : list (string * A)) : result A :=
  match dict_find k d with
  | Some v => Ok v
  | None => Raise KeyError
  end.

(** [d[k] = v]: an existing key keeps its position, a new key goes last. *)
Fixpoint dict_set {A : Type} (k : string) (v : A) (d : list (string * A)) : list (string * A) :=
  match d with
  | [] => [(k, v)]
  | (k', v') :: r =>
      if String.eqb k k' then (k, v) :: r else (k', v') :: dict_set k v r
  end.

Definition dict_keys {A : Type} (d : list (string * A)) : list string := map fst d.

(** [bool(v)] *)
Definition truthy (v : pyval) : bool :=
  match v with
  | VNone => false
  | VBool b => b
  | VInt z => negb (z =? 0)%Z
  | VFloat f => float_truthy fm f
  | VStr s => negb (String.eqb s "")
  | VList l => match l with [] => false | _ => true end
  | VDict d => match d with [] => false | _ => true end
  end.

(** [a or b] *)
Definition py_or (a b : pyval) : pyval := if truthy a then a else b.

(** [repr(v)] *)
Fixpoint py_repr (v : pyval) : string :=
  match v with
  | VNone => "None"
  | VBool true => "True"
  | VBool false => "False"
  | VInt z => Py.str_of_int z
  | VFloat f => str_of_float fm f
  | VStr s => Py.repr_str s
  | VList l => "[" ++ Py.join ", " (map py_repr l) ++ "]"
  | VDict d =>
      "{" ++ Py.join ", "
               (map (fun kv => let '(k, x) := kv in
                               Py.repr_str k ++ ": " ++ py_repr x) d) ++ "}"
  end.

(** [str(v)] *)
Definition py_str (v : pyval) : string :=
  match v with
  | VStr s => s
  | _ => py_repr v
  end.

Definition is_str (v : pyval) : bool :=
  match v with VStr _ => true | _ => false end.

(** [v == s] for a string literal [s] *)
Definition str_eq (v : pyval) (s : string) : bool :=
  match v with
  | VStr t => String.eqb t s
  | _ => false
  end.

(** [v in l] for a list [l] of string literals *)
Definition in_strs (v : pyval) (l : list string) : bool := existsb (str_eq v) l.

(** [v.lower()] *)
Definition py_lower (v : pyval) : result string :=
  match v with
  | VStr s => Ok (Py.lower s)
  | _ => Raise AttributeError
  end.

Fixpoint chars (s : string) : list pyval :=
  match s with
  | EmptyString => []
  | String c r => VStr (String c "") :: chars r
  end.

(** [for item in v]: the items the loop visits. *)
Definition py_iter (v : pyval) : result (list pyval) :=
  match v with
  | VList l => Ok l
  | VStr s => Ok (chars s)
  | VDict d => Ok (map (fun kv => VStr (fst kv)) d)
  | _ => Raise TypeError
  end.

(** [sep.join(l)]: every item has to be a [str]. *)
Fixpoint py_join (sep : string) (l : list pyval) : result string :=
  match l with
  | [] => Ok ""
  | VStr x :: r =>
      match r with
      | [] => Ok x
      | _ => rest <- py_join sep r ;; Ok (x ++ sep ++ rest)
      end
  | _ :: _ => Raise TypeError
  end.

(* ================================================================= *)
(** ** Type Mapper: [AirtableClient.map_zoho_type_to_airtable] *)

Definition type_mapping : list (string * string) :=
  [ ("text", "singleLineText");
    ("textarea", "multilineText");
    ("email", "email");
    ("phone", "phoneNumber");
    ("website", "url");
    ("picklist", "singleSelect");
    ("multiselectpicklist", "multipleSelects");
    ("boolean", "singleLineText");
    ("integer", "number");
    ("bigint", "number");
    ("double", "number");
    ("currency", "currency");
    ("date", "date");
    ("datetime", "dateTime");
    ("lookup", "singleLineText");
    ("ownerlookup", "singleLineText");
    ("userlookup", "singleLineText");
    ("fileupload", "multilineText");
    ("profileimage", "multilineText") ].

(** One pass of the loop over [pick_list]: what it appends to [choices]. *)
Definition pick_list_item (item : pyval) : list pyval :=
  match item with
  | VDict d =>
      let value := py_or (dict_get "display_value" d VNone)
                         (dict_get "actual_value" d VNone) in
      if truthy value then [VDict [("name", value)]] else []
  | VStr _ => [VDict [("name", item)]]
  | _ => []
  end.

(** The body shared, word for word, by the [singleSelect] and the
    [multipleSelects] branch: the value of [choices] at the end. *)
Definition select_choices (zoho_field : dict) : result (list pyval) :=
  choices <-
    (if dict_mem "pick_list_values" zoho_field then
       pick_list <- dict_item "pick_list_values" zoho_field ;;
       items <- py_iter pick_list ;;
       Ok (flat_map pick_list_item items)
     else Ok []) ;;
  Ok (match choices with
      | [] => [VDict [("name", VStr "None")]]
      | _ => choices
      end).

Definition iso_date_format : pyval :=
  VDict [("name", VStr "iso"); ("format", VStr "YYYY-MM-DD")].

Definition map_zoho_type_to_airtable (zoho_field : dict) : result dict :=
  let zoho_type := dict_get "data_type" zoho_field (VStr "text") in
  lowered <- py_lower zoho_type ;;
  let airtable_type := dict_get lowered type_mapping "singleLineText" in
  let field_config : dict := [("type", VStr airtable_type)] in
  if airtable_type =? "currency" then
    Ok (dict_set "options"
          (VDict [("precision", VInt 2); ("symbol", VStr "$")]) field_config)
  else if airtable_type =? "number" then
    lowered' <- py_lower zoho_type ;;
    Ok (dict_set "options"
          (VDict [("precision",
                   VInt (if Py.mem lowered' ["integer"; "bigint"] then 0 else 2))])
          field_config)
  else if airtable_type =? "date" then
    Ok (dict_set "options" (VDict [("dateFormat", iso_date_format)]) field_config)
  else if airtable_type =? "dateTime" then
    Ok (dict_set "options"
          (VDict [("dateFormat", iso_date_format);
                  ("timeFormat", VDict [("name", VStr "24hour"); ("format", VStr "HH:mm")]);
                  ("timeZone", VStr "utc")])
          field_config)
  else if airtable_type =? "singleSelect" then
    choices <- select_choices zoho_field ;;
    Ok (dict_set "options" (VDict [("choices", VList choices)]) field_config)
  else if airtable_type =? "multipleSelects" then
    choices <- select_choices zoho_field ;;
    Ok (dict_set "options" (VDict [("choices", VList choices)]) field_config)
  else Ok field_config.

(* ================================================================= *)
(** ** Value Converter: [convert_zoho_to_airtable] *)

Definition field_blacklists : list (string * list string) :=
  [ ("Users", ["offset"; "time_zone"; "Microsoft"; "country_locale"]) ].

(** [v.get('name', str(v))] *)
Definition name_or_str (v : pyval) : result pyval :=
  match v with
  | VDict d => Ok (dict_get "name" d (VStr (py_str v)))
  | _ => Raise AttributeError
  end.

(** The [if isinstance ...] chain of the loop body: [Ok (Some x)] when
    [fields[clean_key] = x] is executed, [Ok None] when the field is left
    alone ([continue] or [pass]). *)
Definition convert_value (expected_type value : pyval) : result (option pyval) :=
  match value with
  | VBool b => Ok (Some (VStr (if b then "Yes" else "No")))
  | VDict d =>
      if dict_mem "name" d then
        x <- dict_item "name" d ;; Ok (Some x)
      else if dict_mem "id" d && negb (dict_mem "name" d) then
        Ok (Some (VStr (py_str (dict_get "id" d (VStr "")))))
      else Ok (Some (VStr (py_str value)))
  | VList l =>
      match l with
      | [] => Ok None
      | VDict _ :: _ =>
          names <- mapM name_or_str l ;;
          joined <- py_join ", " names ;;
          Ok (Some (VStr joined))
      | _ :: _ =>
          joined <- py_join ", " (map (fun v => VStr (py_str v)) l) ;;
          Ok (Some (VStr joined))
      end
  | VInt _ | VFloat _ =>
      if in_strs expected_type ["number"; "currency"] then Ok (Some value)
      else if str_eq expected_type "singleLineText" then
        Ok (Some (VStr (py_str value)))
      else Ok (Some value)
  | VStr s =>
      if in_strs expected_type ["number"; "currency"] then
        if Py.contains_char "." s || Py.contains_char "e" (Py.lower s) then
          match float_of_str fm s with
          | Some f => Ok (Some (VFloat f))
          | None => Ok None
          end
        else
          match Py.int_of_str s with
          | Some z => Ok (Some (VInt z))
          | None => Ok None
          end
      else Ok (Some value)
  | _ => Ok (Some (VStr (py_str value)))
  end.

(** One pass of [for key, value in record.items()]. *)
Definition convert_field (field_type_map : list (string * dict))
    (blacklisted_fields : list string) (fields : dict) (kv : string * pyval)
  : result dict :=
  let '(key, value) := kv in
  if Py.mem key blacklisted_fields then Ok fields
  else
    match value with
    | VNone => Ok fields
    | _ =>
        let clean_key := if Py.startswith "$" key then Py.lstrip "$" key else key in
        let field_config := dict_get clean_key field_type_map [] in
        let expected_type := dict_get "type" field_config (VStr "singleLineText") in
        r <- convert_value expected_type value ;;
        match r with
        | Some x => Ok (dict_set clean_key x fields)
        | None => Ok fields
        end
    end.

Fixpoint convert_fields (field_type_map : list (string * dict))
    (blacklisted_fields : list string) (fields : dict) (items : dict)
  : result dict :=
  match items with
  | [] => Ok fields
  | kv :: rest =>
      fields' <- convert_field field_type_map blacklisted_fields fields kv ;;
      convert_fields field_type_map blacklisted_fields fields' rest
  end.

Definition convert_record (field_type_map : list (string * dict))
    (blacklisted_fields : list string) (record : dict) : result pyval :=
  fields <- convert_fields field_type_map blacklisted_fields [] record ;;
  Ok (VDict [("fields", VDict fields)]).

Definition convert_zoho_to_airtable (zoho_records : list dict)
    (field_type_map : option (list (string * dict)))
    (module_name : option string) : result (list pyval) :=
  let field_type_map :=
    match field_type_map with Some m => m | None => [] end in
  let blacklisted_fields :=
    match module_name with
    | Some m => dict_get m field_blacklists []
    | None => []
    end in
  mapM (convert_record field_type_map blacklisted_fields) zoho_records.

(* ================================================================= *)
(** ** The two services *)

(** A table of the Airtable base, as [get_base_schema] reports it. *)
Record table : Type := {
  table_name : string;
  table_fields : list string
}.

(** Requests sent and the two banner lines of the orchestrator. *)
Inductive event : Type :=
| GetSchema
| PostTable (name : string)
| PostField (tbl name : string) (config : dict)
| GetFields (module : string)
| GetRecords (module : string)
| DeleteAll (tbl : string)
| BatchCreate (tbl : string) (batch_data : list dict)
| Syncing (module : string)
| Skipping (module : string).

(** The base schema and the events so far, newest first. *)
Record world : Type := {
  schema : list table;
  trace : list event
}.

Inductive post_status : Type :=
| Created
| DuplicateOrEmptyFieldName
| Rejected.

(** What the services answer; each answer may depend on the whole
    history.  [zoho_fields] is [get_module_fields] (the empty list on any
    failure), [zoho_records] is [get_all_records]. *)
Record services : Type := {
  schema_readable : world -> bool;
  accepts_table : world -> string -> bool;
  field_response : world -> string -> string -> dict -> post_status;
  batch_response : world -> string -> list dict -> result (list pyval);
  zoho_fields : world -> string -> list dict;
  zoho_records : world -> string -> list dict
}.

Variable sv : services.

Definition log (e : event) (w : world) : world :=
  {| schema := schema w; trace := e :: trace w |}.

Fixpoint find_table (name : string) (tables : list table) : option table :=
  match tables with
  | [] => None
  | t :: r => if table_name t =? name then Some t else find_table name r
  end.

(** The server adds a field to the first table of that name. *)
Fixpoint add_field (tbl field : string) (tables : list table) : list table :=
  match tables with
  | [] => []
  | t :: r =>
      if table_name t =? tbl
      then {| table_name := table_name t;
              table_fields := table_fields t ++ [field] |} :: r
      else t :: add_field tbl field r
  end.

(** ** Airtable client *)

Definition get_base_schema (w : world) : world * list table :=
  (log GetSchema w, if schema_readable sv w then schema w else []).

Definition get_existing_fields (w : world) (tbl : string) : world * list string :=
  let '(w1, tables) := get_base_schema w in
  match find_table tbl tables with
  | Some t => (w1, table_fields t)
  | None => (w1, [])
  end.

Definition table_exists (w : world) (tbl : string) : world * bool :=
  let '(w1, tables) := get_base_schema w in
  (w1, Py.mem tbl (map table_name tables)).

Definition create_table (w : world) (tbl : string) : world * bool :=
  if accepts_table sv w tbl
  then ({| schema := schema w ++ [{| table_name := tbl; table_fields := ["Name"] |}];
           trace := PostTable tbl :: trace w |}, true)
  else (log (PostTable tbl) w, false).

Definition create_or_get_table (w : world) (tbl : string) : world :=
  let '(w1, present) := table_exists w tbl in
  if present then w1 else fst (create_table w1 tbl).

(** [{f.lower(): f for f in existing_fields}] *)
Definition lower_index (existing_fields : list string) : list (string * string) :=
  fold_left (fun m f => dict_set (Py.lower f) f m) existing_fields [].

Definition create_field_if_not_exists (w : world) (tbl field_name : string)
    (field_config : dict) : world * bool :=
  let w1 := log GetSchema w in
  if negb (schema_readable sv w) then (w1, false)
  else
    match find_table tbl (schema w) with
    | None => (w1, false)
    | Some t =>
        let existing_fields := table_fields t in
        let existing_field_names_lower := lower_index existing_fields in
        if Py.mem field_name existing_fields then (w1, true)
        else if dict_mem (Py.lower field_name) existing_field_names_lower then (w1, true)
        else
          let w2 := log (PostField tbl field_name field_config) w1 in
          match field_response sv w1 tbl field_name field_config with
          | Created =>
              ({| schema := add_field tbl field_name (schema w2);
                  trace := trace w2 |}, true)
          | DuplicateOrEmptyFieldName => (w2, true)
          | Rejected => (w2, false)
          end
    end.

(** The fields [ensure_fields_exist] decides to create. *)
Definition fields_to_create (existing_fields : list string)
    (field_definitions : list (string * dict)) : list (string * dict) :=
  let existing_fields_lower := lower_index existing_fields in
  filter (fun fd =>
            negb (Py.mem (fst fd) existing_fields)
            && negb (dict_mem (Py.lower (fst fd)) existing_fields_lower))
         field_definitions.

Fixpoint create_fields (w : world) (tbl : string) (todo : list (string * dict))
  : world * nat :=
  match todo with
  | [] => (w, 0%nat)
  | (field_name, field_config) :: rest =>
      let '(w1, ok) := create_field_if_not_exists w tbl field_name field_config in
      let '(w2, created_count) := create_fields w1 tbl rest in
      (w2, ((if ok then 1 else 0) + created_count)%nat)
  end.

Definition ensure_fields_exist (w : world) (tbl : string)
    (field_definitions : list (string * dict)) : world * bool :=
  let '(w1, existing_fields) := get_existing_fields w tbl in
  match fields_to_create existing_fields field_definitions with
  | [] => (w1, true)
  | todo => (fst (create_fields w1 tbl todo), true)
  end.

Definition clear_table (w : world) (tbl : string) : world :=
  log (DeleteAll tbl) (create_or_get_table w tbl).

Definition batch_size : nat := 10.

Fixpoint chunks_fuel {A : Type} (fuel n : nat) (l : list A) : list (list A) :=
  match fuel with
  | O => []
  | S k =>
      match l with
      | [] => []
      | _ => firstn n l :: chunks_fuel k n (skipn n l)
      end
  end.

(** [[l[i:i + n] for i in range(0, len(l), n)]] *)
Definition chunks {A : Type} (n : nat) (l : list A) : list (list A) :=
  chunks_fuel (length l) n l.

(** [record['fields'] if isinstance(record, dict) and 'fields' in record
    else record], followed by [.items()]. *)
Definition record_items (record : pyval) : result dict :=
  match record with
  | VDict d =>
      if dict_mem "fields" d then
        match dict_find "fields" d with
        | Some (VDict f) => Ok f
        | _ => Raise AttributeError
        end
      else Ok d
  | _ => Raise AttributeError
  end.

(** One pass of the inner loop: a key is mapped onto an existing field
    name, or skipped. *)
Definition map_field (existing_fields : list string)
    (field_mapping : list (string * string)) (mapped_fields : dict)
    (kv : string * pyval) : dict :=
  let '(key, value) := kv in
  if Py.mem key existing_fields then dict_set key value mapped_fields
  else
    match dict_find (Py.lower key) field_mapping with
    | Some actual => dict_set actual value mapped_fields
    | None => mapped_fields
    end.

(** [mapped_fields] when the inner loop ends. *)
Definition map_fields (existing_fields : list string)
    (field_mapping : list (string * string)) (record_fields : dict) : dict :=
  fold_left (map_field existing_fields field_mapping) record_fields [].

Fixpoint build_batch_data (existing_fields : list string)
    (field_mapping : list (string * string)) (batch : list pyval)
  : result (list dict) :=
  match batch with
  | [] => Ok []
  | record :: rest =>
      record_fields <- record_items record ;;
      let mapped_fields := map_fields existing_fields field_mapping record_fields in
      batch_data <- build_batch_data existing_fields field_mapping rest ;;
      Ok (match mapped_fields with
          | [] => batch_data
          | _ => mapped_fields :: batch_data
          end)
  end.

(** The loop over the batches.  An exception inside the [try] ends that
    batch only.  The bookkeeping of [id_mapping] is left out: it runs after
    [created_records] has been extended, under the same handler, and
    nothing reads it. *)
Fixpoint insert_batches (tbl : string) (existing_fields : list string)
    (field_mapping : list (string * string)) (batches : list (list pyval))
    (w : world) (created_records : list pyval) : world * list pyval :=
  match batches with
  | [] => (w, created_records)
  | batch :: rest =>
      match build_batch_data existing_fields field_mapping batch with
      | Raise _ =>
          insert_batches tbl existing_fields field_mapping rest w created_records
      | Ok [] =>
          insert_batches tbl existing_fields field_mapping rest w created_records
      | Ok batch_data =>
          let w1 := log (BatchCreate tbl batch_data) w in
          match batch_response sv w tbl batch_data with
          | Ok res =>
              insert_batches tbl existing_fields field_mapping rest w1
                (created_records ++ res)
          | Raise _ =>
              insert_batches tbl existing_fields field_mapping rest w1
                created_records
          end
      end
  end.

(** Every caller leaves [batch_size] at its default. *)
Definition batch_create_records (w : world) (tbl : string) (records : list pyval)
  : world * list pyval :=
  match records with
  | [] => (w, [])
  | _ =>
      let '(w1, existing_fields) := get_existing_fields w tbl in
      let field_mapping := lower_index existing_fields in
      let w2 := create_or_get_table w1 tbl in
      insert_batches tbl existing_fields field_mapping
        (chunks batch_size records) w2 []
  end.

(* ================================================================= *)
(** ** Sync orchestrator *)

(** One pass of the loop that fills [field_type_map]. *)
Definition add_field_type (field_type_map : list (string * dict))
    (zoho_field : dict) : result (list (string * dict)) :=
  match dict_get "api_name" zoho_field (VStr "") with
  | VStr field_name =>
      let clean_field_name :=
        if Py.startswith "$" field_name then Py.lstrip "$" field_name
        else field_name in
      if negb (clean_field_name =? "") then
        field_config <- map_zoho_type_to_airtable zoho_field ;;
        Ok (dict_set clean_field_name field_config field_type_map)
      else Ok field_type_map
  | _ => Raise AttributeError
  end.

Fixpoint build_field_type_map (field_type_map : list (string * dict))
    (zoho_fields : list dict) : result (list (string * dict)) :=
  match zoho_fields with
  | [] => Ok field_type_map
  | zoho_field :: rest =>
      m <- add_field_type field_type_map zoho_field ;;
      build_field_type_map m rest
  end.

(** How far [sync_module_recursive] got before the import. *)
Inductive prepared : Type :=
| NoTable
| NoRecords
| Ready (airtable_records : list pyval).

(** The body of the [try] up to the import.  [Raise] is an exception on
    its way to the handler. *)
Definition prepare (w : world) (module_name : string) (clear_existing : bool)
  : world * result prepared :=
  let '(w1, present) := table_exists w module_name in
  let '(w2, ok) := if present then (w1, true) else create_table w1 module_name in
  if negb ok then (w2, Ok NoTable)
  else
    let w3 := log (GetFields module_name) w2 in
    match build_field_type_map [] (zoho_fields sv w2 module_name) with
    | Raise e => (w3, Raise e)
    | Ok field_type_map =>
        let w4 := log (GetRecords module_name) w3 in
        match zoho_records sv w3 module_name with
        | [] => (w4, Ok NoRecords)
        | recs =>
            match convert_zoho_to_airtable recs (Some field_type_map)
                    (Some module_name) with
            | Raise e => (w4, Raise e)
            | Ok airtable_records =>
                let w5 :=
                  match field_type_map with
                  | [] => w4
                  | _ => fst (ensure_fields_exist w4 module_name field_type_map)
                  end in
                let w6 := if clear_existing then clear_table w5 module_name else w5 in
                (w6, Ok (Ready airtable_records))
            end
        end
    end.

(** Returns the world, the set [synced_modules] and the number of records
    synced. *)
Definition sync_module_recursive (w : world) (module_name : string)
    (clear_existing : bool) (synced_modules : list string)
  : world * list string * nat :=
  if Py.mem module_name synced_modules
  then (log (Skipping module_name) w, synced_modules, 0%nat)
  else
    match prepare (log (Syncing module_name) w) module_name clear_existing with
    | (w1, Raise _) => (w1, synced_modules, 0%nat)
    | (w1, Ok NoTable) => (w1, synced_modules, 0%nat)
    | (w1, Ok NoRecords) => (w1, module_name :: synced_modules, 0%nat)
    | (w1, Ok (Ready airtable_records)) =>
        let '(w2, created) := batch_create_records w1 module_name airtable_records in
        (w2, module_name :: synced_modules, length created)
    end.

Definition sync_module (w : world) (module_name : string) (clear_existing : bool)
  : world * nat :=
  let synced_modules : list string := [] in
  let '(w1, _, n) :=
    sync_module_recursive w module_name clear_existing synced_modules in
  (w1, n).

(** The loop of [main] over [modules_to_sync]. *)
Fixpoint main_sync (w : world) (modules_to_sync : list string) (clear : bool)
    (total_synced : nat) : world * nat :=
  match modules_to_sync with
  | [] => (w, total_synced)
  | module_name :: rest =>
      let '(w1, synced) := sync_module w module_name clear in
      main_sync w1 rest clear (total_synced + synced)
  end.

(* ================================================================= *)
(** ** The specification's side *)

(** The known-type table of section 4.1 without its two select rows:
    source types, destination type, options. *)
Definition known_types : list (list string * string * option pyval) :=
  [ (["text"; "lookup"; "ownerlookup"; "userlookup"; "boolean"],
     "singleLineText", None);
    (["textarea"; "fileupload"; "profileimage"], "multilineText", None);
    (["email"], "email", None);
    (["phone"], "phoneNumber", None);
    (["website"], "url", None);
    (["integer"; "bigint"], "number", Some (VDict [("precision", VInt 0)]));
    (["double"], "number", Some (VDict [("precision", VInt 2)]));
    (["currency"], "currency",
     Some (VDict [("precision", VInt 2); ("symbol", VStr "$")]));
    (["date"], "date",
     Some (VDict [("dateFormat",
                   VDict [("name", VStr "iso"); ("format", VStr "YYYY-MM-DD")])]));
    (["datetime"], "dateTime",
     Some (VDict [("dateFormat",
                   VDict [("name", VStr "iso"); ("format", VStr "YYYY-MM-DD")]);
                  ("timeFormat",
                   VDict [("name", VStr "24hour"); ("format", VStr "HH:mm")]);
                  ("timeZone", VStr "utc")])) ].

(** The two select rows. *)
Definition select_types : list (string * string) :=
  [ ("picklist", "singleSelect"); ("multiselectpicklist", "multipleSelects") ].


(** The row of a lower-cased source type, if any. *)
Fixpoint find_row (lowered : string)
    (rows : list (list string * string * option pyval))
  : option (string * option pyval) :=
  match rows with
  | [] => None
  | (names, ty, opts) :: rest =>
      if Py.mem lowered names then Some (ty, opts) else find_row lowered rest
  end.

(** A destination field spec as a dictionary. *)
Definition spec_config (ty : string) (opts : option pyval) : dict :=
  ("type", VStr ty) ::
  match opts with
  | Some o => [("options", o)]
  | None => []
  end.

(** The [data_type] of a field descriptor; a descriptor without the entry
    counts as ["text"], as in the source. *)
Definition data_type_of (zoho_field : dict) : option string :=
  match dict_find "data_type" zoho_field with
  | None => Some "text"
  | Some (VStr s) => Some s
  | Some _ => None
  end.

(** The choice values of a descriptor: a sequence, or not given. *)
Definition choice_values_of (zoho_field : dict) : option (list pyval) :=
  match dict_find "pick_list_values" zoho_field with
  | None => Some []
  | Some (VList l) => Some l
  | Some _ => None
  end.

(** The value one choice entry stands for: a bare string itself; an
    object its display value, else its underlying value, where an empty
    or null value counts as not given. *)
Definition choice_value (item : pyval) : option pyval :=
  match item with
  | VStr _ => Some item
  | VDict d =>
      match dict_find "display_value" d with
      | Some v => if truthy v then Some v else
          match dict_find "actual_value" d with
          | Some u => if truthy u then Some u else None
          | None => None
          end
      | None =>
          match dict_find "actual_value" d with
          | Some u => if truthy u then Some u else None
          | None => None
          end
      end
  | _ => None
  end.

Fixpoint choice_values (items : list pyval) : list pyval :=
  match items with
  | [] => []
  | item :: rest =>
      match choice_value item with
      | Some v => v :: choice_values rest
      | None => choice_values rest
      end
  end.

Definition named (v : pyval) : pyval := VDict [("name", v)].

(** The choices list as amended: source order, duplicates kept. *)
Definition choices_of (items : list pyval) : list pyval :=
  match choice_values items with
  | [] => [named (VStr "None")]
  | vs => map named vs
  end.

(** The key a source field is written under. *)
Definition clean_key (key : string) : string :=
  if Py.startswith "$" key then Py.lstrip "$" key else key.

(** The destination type the converter expects for a key. *)
Definition expected_type (field_type_map : list (string * dict)) (key : string)
  : pyval :=
  dict_get "type" (dict_get (clean_key key) field_type_map []) (VStr "singleLineText").


(** A table holds a field name when some field of that table equals it up
    to case. *)
Definition holds (fields : list string) (name : string) : bool :=
  Py.mem (Py.lower name) (map Py.lower fields).

Definition has_field (tables : list table) (tbl name : string) : bool :=
  match find_table tbl tables with
  | Some t => holds (table_fields t) name
  | None => false
  end.

(** A field name is settled when no request can be sent for it: its table
    holds it, or the table is not there. *)
Definition settled (tables : list table) (tbl name : string) : Prop :=
  match find_table tbl tables with
  | Some t => holds (table_fields t) name = true
  | None => True
  end.

Definition is_post_field (e : event) : bool :=
  match e with
  | PostField _ _ _ => true
  | _ => false
  end.

(** The field creation requests sent so far. *)
Definition field_posts (w : world) : list event :=
  filter is_post_field (trace w).

(** A destination-shaped scalar. *)
Definition is_scalar (v : pyval) : bool :=
  match v with
  | VStr _ | VInt _ | VFloat _ => true
  | _ => false
  end.

(** A relationship object whose name, if it has one, is a string. *)
Definition named_by_string (v : pyval) : bool :=
  match v with
  | VDict d => is_str (dict_get "name" d (VStr ""))
  | _ => false
  end.

(** The values the converter is written for: a relationship object is
    named by a string; a list that starts with a relationship object
    holds nothing but such objects. *)
Definition regular (v : pyval) : bool :=
  match v with
  | VDict _ => named_by_string v
  | VList l =>
      match l with
      | VDict _ :: _ => forallb named_by_string l
      | _ => true
      end
  | _ => true
  end.

Definition regular_record (record : dict) : Prop :=
  forall k v, In (k, v) record -> regular v = true.

Definition scalar_fields (fields : dict) : Prop :=
  forall k v, In (k, v) fields -> is_scalar v = true.

(** The shape in which the converter hands a record over. *)
Definition wrap (fields : dict) : pyval := VDict [("fields", VDict fields)].

Definition nonempty {A : Type} (l : list A) : bool :=
  match l with
  | [] => false
  | _ => true
  end.

(** A converted record keeps a field when one of its keys is mapped. *)
Definition keeps (existing_fields : list string)
    (field_mapping : list (string * string)) (record_fields : dict) : bool :=
  nonempty (map_fields existing_fields field_mapping record_fields).

(** The rows sent for a batch of converted records. *)
Fixpoint batch_rows (existing_fields : list string)
    (field_mapping : list (string * string)) (batch : list dict) : list dict :=
  match batch with
  | [] => []
  | record_fields :: rest =>
      if keeps existing_fields field_mapping record_fields
      then map_fields existing_fields field_mapping record_fields
             :: batch_rows existing_fields field_mapping rest
      else batch_rows existing_fields field_mapping rest
  end.

(** How often a module passed the recursion guard, had its records
    fetched, had a batch sent. *)
Definition is_syncing (module : string) (e : event) : bool :=
  match e with
  | Syncing m => m =? module
  | _ => false
  end.

Definition is_fetch (module : string) (e : event) : bool :=
  match e with
  | GetRecords m => m =? module
  | _ => false
  end.

Definition is_load (module : string) (e : event) : bool :=
  match e with
  | BatchCreate m _ => m =? module
  | _ => false
  end.

Definition count (p : event -> bool) (w : world) : nat :=
  length (filter p (trace w)).

(** The end-to-end scenario of section 8. *)
Definition accounts_fields : list dict :=
  [ [("api_name", VStr "Account_Name"); ("data_type", VStr "text")];
    [("api_name", VStr "Annual_Revenue"); ("data_type", VStr "currency")] ].

Definition acme : dict :=
  [ ("Account_Name", VStr "Acme");
    ("Annual_Revenue", VStr "1000000");
    ("$locked_for_me", VBool true) ].


End Values.

Arguments pyval : clear implicits.
Arguments dict : clear implicits.
Arguments event : clear implicits.
Arguments world : clear implicits.
Arguments services : clear implicits.
Arguments prepared : clear implicits.

(* ================================================================= *)
(** ** A concrete environment for closed examples *)

Module Demo.

Definition fm : float_model := ExactDecimal.model.

Definition inserted (row : dict fm) : pyval fm :=
  VDict [("id", VStr "rec"); ("fields", VDict row)].

(** Deals: a name and a stage taken from a closed list of one choice. *)
Definition deals_fields : list (dict fm) :=
  [ [("api_name", VStr "Deal_Name"); ("data_type", VStr "text")];
    [("api_name", VStr "Stage"); ("data_type", VStr "picklist");
     ("pick_list_values", VList [VStr "Open"])] ].

Definition deal (stage : string) : dict fm :=
  [ ("Deal_Name", VStr "Deal"); ("Stage", VStr stage) ].

(** Twenty-five deals; the twelfth has a stage outside the list. *)
Definition deals : list (dict fm) :=
  repeat (deal "Open") 11 ++ [deal "Closed"] ++ repeat (deal "Open") 13.

(** A destination that can be read, accepts every table and field, and
    answers an insert with one row per record sent, unless a row of the
    batch is refused. *)
Definition destination (refused : dict fm -> bool) : services fm := {|
  schema_readable := fun _ => true;
  accepts_table := fun _ _ => true;
  field_response := fun _ _ _ _ => Created;
  batch_response := fun _ _ batch_data =>
    if existsb refused batch_data then Raise ValueError
    else Ok (map inserted batch_data);
  zoho_fields := fun _ module =>
    if module =? "Accounts" then accounts_fields
    else if module =? "Deals" then deals_fields else [];
  zoho_records := fun _ module =>
    if module =? "Accounts" then [acme]
    else if module =? "Deals" then deals else []
|}.

(** A row whose [Stage] is not the known choice is refused, as a closed
    select list does. *)
Definition bad_choice (row : dict fm) : bool :=
  match dict_find "Stage" row with
  | Some (VStr s) => negb (s =? "Open")
  | _ => false
  end.

Definition sv : services fm := destination bad_choice.

Definition empty_base : world fm := {| schema := []; trace := [] |}.

(** A base whose table has the primary field and two more. *)
Definition contacts_base : world fm :=
  {| schema := [ {| table_name := "Contacts";
                    table_fields := ["Name"; "email"; "Phone"] |} ];
     trace := [] |}.


Definition stage : dict fm :=
  [("api_name", VStr "Stage"); ("data_type", VStr "PickList");
   ("pick_list_values",
    VList [VDict [("display_value", VStr "Open"); ("actual_value", VStr "open")];
           VStr "Won";
           VDict [("display_value", VNone); ("actual_value", VStr "lost")];
           VDict [("id", VStr "9")];
           VStr "Won"])].

(** The sync of Deals, stage by stage. *)
Module DealsRun.

Definition good : pyval fm := wrap (deal "Open").
Definition bad : pyval fm := wrap (deal "Closed").

Definition before : list (list (pyval fm)) := [repeat good 10].
Definition failing : list (pyval fm) := good :: bad :: repeat good 8.
Definition after : list (list (pyval fm)) := [repeat good 5].

Definition w1 : world fm :=
  Eval vm_compute in
    fst (prepare sv (log (Syncing "Deals") empty_base) "Deals" false).

Definition records : list (pyval fm) :=
  Eval vm_compute in
    match snd (prepare sv (log (Syncing "Deals") empty_base) "Deals" false) with
    | Ok (Ready r) => r
    | _ => []
    end.

Definition w2 : world fm :=
  Eval vm_compute in fst (get_existing_fields sv w1 "Deals").

Definition existing_fields : list string :=
  Eval vm_compute in snd (get_existing_fields sv w1 "Deals").

Definition w4 : world fm :=
  Eval vm_compute in
    fst (insert_batches sv "Deals" existing_fields (lower_index existing_fields)
           before (create_or_get_table sv w2 "Deals") []).


Definition batch_data : list (dict fm) :=
  Eval vm_compute in
    match build_batch_data existing_fields (lower_index existing_fields) failing with
    | Ok d => d
    | Raise _ => []
    end.

Definition w5 : world fm :=
  Eval vm_compute in
    fst (insert_batches sv "Deals" existing_fields (lower_index existing_fields)
           after (log (BatchCreate "Deals" batch_data) w4) []).


End DealsRun.

End Demo.

(* ================================================================= *)
(** ** More of the script *)

(** *** [str.strip] and [str.split] *)

Module PyText.

Definition is_space (c : ascii) : bool :=
  let n := nat_of_ascii c in
  ((9 <=? n)%nat && (n <=? 13)%nat) || ((28 <=? n)%nat && (n <=? 32)%nat).

Fixpoint lstrip (s : string) : string :=
  match s with
  | String c r => if is_space c then lstrip r else s
  | EmptyString => EmptyString
  end.

Fixpoint rstrip (s : string) : string :=
  match s with
  | EmptyString => EmptyString
  | String c r =>
      match rstrip r with
      | EmptyString => if is_space c then EmptyString else String c EmptyString
      | t => String c t
      end
  end.

(** [s.strip()] *)
Definition strip (s : string) : string := rstrip (lstrip s).

(** [s.split(c)] for a one-character separator *)
Fixpoint split (c : ascii) (s : string) : list string :=
  match s with
  | EmptyString => [EmptyString]
  | String d r =>
      if Ascii.eqb c d then EmptyString :: split c r
      else
        match split c r with
        | x :: xs => String d x :: xs
        | [] => [String d EmptyString]
        end
  end.

End PyText.

Section Script.

Context {fm : float_model}.

(** [v.get(k, dflt)] and [v[k]] on a value of any shape *)
Definition py_get (v : pyval fm) (k : string) (dflt : pyval fm) : result (pyval fm) :=
  match v with
  | VDict d => Ok (dict_get k d dflt)
  | _ => Raise AttributeError
  end.

Definition py_item (v : pyval fm) (k : string) : result (pyval fm) :=
  match v with
  | VDict d => dict_item k d
  | _ => Raise TypeError
  end.

(** [[x for x in l if p(x)]] *)
Fixpoint filterM {A : Type} (p : A -> result bool) (l : list A) : result (list A) :=
  match l with
  | [] => Ok []
  | x :: r =>
      keep <- p x ;;
      rest <- filterM p r ;;
      Ok (if keep then x :: rest else rest)
  end.

(** *** Zoho client *)

(** What a request comes back with: the decoded body, the [HTTPError] of
    [raise_for_status], or any other exception. *)
Inductive reply (A : Type) : Type :=
| Reply (a : A)
| HTTPError
| Failed (e : exn).

Arguments Reply {A} a.
Arguments HTTPError {A}.
Arguments Failed {A} e.

Definition lift {A : Type} (r : result A) : reply A :=
  match r with
  | Ok a => Reply a
  | Raise e => Failed e
  end.

(** The answers of the three record endpoints, by request. *)
Record zoho : Type := {
  list_page : string -> nat -> reply (pyval fm);
  record_detail : string -> pyval fm -> reply (pyval fm);
  users_page : reply (pyval fm)
}.

Variable z : zoho.

(** The loop of [get_records] over [record_ids]. *)
Fixpoint fetch_details (module_name : string) (record_ids : list (pyval fm))
    (full_records : list (pyval fm)) : reply (list (pyval fm)) :=
  match record_ids with
  | [] => Reply full_records
  | record_id :: rest =>
      match record_detail z module_name record_id with
      | Reply detail_data =>
          match py_get detail_data "data" VNone with
          | Raise e => Failed e
          | Ok found =>
              if truthy found then
                match (rows <- py_item detail_data "data" ;; py_iter rows) with
                | Ok rows =>
                    fetch_details module_name rest (app full_records rows)
                | Raise e => Failed e
                end
              else fetch_details module_name rest full_records
          end
      | HTTPError => HTTPError
      | Failed e => Failed e
      end
  end.

Definition get_records (module_name : string) (page : nat)
  : reply (list (pyval fm) * pyval fm) :=
  match list_page z module_name page with
  | Reply data =>
      match (rows <- py_get data "data" (VList []) ;;
             rows <- py_iter rows ;;
             mapM (fun r => py_item r "id") rows) with
      | Raise e => Failed e
      | Ok record_ids =>
          match record_ids with
          | [] =>
              match py_get data "info" (VDict []) with
              | Ok info => Reply ([], info)
              | Raise e => Failed e
              end
          | _ =>
              match fetch_details module_name record_ids [] with
              | Reply full_records =>
                  match py_get data "info" (VDict []) with
                  | Ok info => Reply (full_records, info)
                  | Raise e => Failed e
                  end
              | HTTPError => HTTPError
              | Failed e => Failed e
              end
          end
      end
  | HTTPError => HTTPError
  | Failed e => Failed e
  end.

Definition has_len (v : pyval fm) : bool :=
  match v with
  | VList _ | VStr _ | VDict _ => true
  | _ => false
  end.

Definition get_users : reply (pyval fm) :=
  match users_page z with
  | Reply data =>
      match py_get data "users" (VList []) with
      | Ok users => if has_len users then Reply users else Failed TypeError
      | Raise e => Failed e
      end
  | HTTPError => Reply (VList [])
  | Failed e => Failed e
  end.

(** The [while more_records] loop; [None] when the fuel runs out. *)
Fixpoint fetch_pages (module_name : string) (fuel page : nat)
    (all_records : list (pyval fm)) : option (list (pyval fm)) :=
  match fuel with
  | O => None
  | S k =>
      match get_records module_name page with
      | Reply (records, info) =>
          match records with
          | [] => Some all_records
          | _ =>
              let all_records := app all_records records in
              match py_get info "more_records" (VBool false) with
              | Ok more_records =>
                  if truthy more_records
                  then fetch_pages module_name k (S page) all_records
                  else Some all_records
              | Raise _ => Some all_records
              end
          end
      | HTTPError => Some all_records
      | Failed _ => Some all_records
      end
  end.

Definition get_all_records (module_name : string) (fuel : nat)
  : option (reply (pyval fm)) :=
  if module_name =? "Users" then Some get_users
  else option_map (fun l => Reply (VList l)) (fetch_pages module_name fuel 1 []).

(** The records a page delivers, and whether the loop goes on after it. *)
Definition page_records (module_name : string) (page : nat) : list (pyval fm) :=
  match get_records module_name page with
  | Reply (records, _) => records
  | _ => []
  end.

Definition continues (module_name : string) (page : nat) : bool :=
  match get_records module_name page with
  | Reply (_ :: _, VDict info) => truthy (dict_get "more_records" info (VBool false))
  | _ => false
  end.

(** *** [get_modules] and the selection in [main] *)

Definition get_modules (response : reply (pyval fm)) : reply (list (pyval fm)) :=
  match response with
  | Reply data =>
      match py_get data "modules" VNone with
      | Ok found =>
          if truthy found then
            lift (modules <- py_item data "modules" ;;
                  modules <- py_iter modules ;;
                  filterM (fun m => s <- py_get m "api_supported" VNone ;;
                                    Ok (truthy s)) modules)
          else Reply []
      | Raise e => Failed e
      end
  | HTTPError => HTTPError
  | Failed e => Failed e
  end.

(** How [main] leaves the selection: by [sys.exit], or with
    [modules_to_sync]. *)
Inductive selection : Type :=
| Exit (code : nat)
| Selected (modules_to_sync : list (pyval fm)).

(** One pass of the loop over the typed indices. *)
Definition select_index (modules : list (pyval fm))
    (modules_to_sync : list (pyval fm)) (idx : string) : result (list (pyval fm)) :=
  match Py.int_of_str (PyText.strip idx) with
  | Some n =>
      let i := (n - 1)%Z in
      if (0 <=? i)%Z && (i <? Z.of_nat (length modules))%Z then
        match nth_error modules (Z.to_nat i) with
        | Some m =>
            name <- py_item m "api_name" ;;
            Ok (app modules_to_sync [name])
        | None => Ok modules_to_sync
        end
      else Ok modules_to_sync
  | None => Ok modules_to_sync
  end.

Fixpoint select_indices (modules : list (pyval fm))
    (modules_to_sync : list (pyval fm)) (indices : list string)
  : result (list (pyval fm)) :=
  match indices with
  | [] => Ok modules_to_sync
  | idx :: rest =>
      l <- select_index modules modules_to_sync idx ;;
      select_indices modules l rest
  end.

(** [main] from [get_modules] to the test of [modules_to_sync]; [choice]
    and [line] are what [input] returns. *)
Definition main_select (response : reply (pyval fm)) (choice line : string)
  : selection :=
  match get_modules response with
  | Reply modules =>
      match modules with
      | [] => Exit 1
      | _ =>
          match mapM (fun m => _ <- py_item m "api_name" ;;
                               py_item m "plural_label") modules with
          | Raise _ => Exit 1
          | Ok _ =>
              let choice := PyText.strip choice in
              let picked :=
                if choice =? "1" then mapM (fun m => py_item m "api_name") modules
                else if choice =? "2" then
                  select_indices modules [] (PyText.split "," (PyText.strip line))
                else Ok [] in
              match picked with
              | Raise _ => Exit 1
              | Ok [] => Exit 0
              | Ok modules_to_sync => Selected modules_to_sync
              end
          end
      end
  | HTTPError => Exit 1
  | Failed _ => Exit 1
  end.

(** *** The bookkeeping of [id_mapping] in [batch_create_records] *)

Definition hashable (v : pyval fm) : bool :=
  match v with
  | VList _ | VDict _ => false
  | _ => true
  end.

(** The loop over [enumerate(result)] of one batch: the assignments
    [id_mapping[table_name][zoho_id] = airtable_record['id']] made, in
    order; an exception ends the loop. *)
Fixpoint store_ids (zoho_records : list (dict fm)) (batch_start idx : nat)
    (res : list (pyval fm)) (assigned : list (pyval fm * pyval fm))
  : list (pyval fm * pyval fm) :=
  match res with
  | [] => assigned
  | airtable_record :: rest =>
      match nth_error zoho_records (batch_start + idx) with
      | Some zoho_record =>
          let zoho_id := dict_get "id" zoho_record VNone in
          if truthy zoho_id then
            match py_item airtable_record "id" with
            | Ok airtable_id =>
                if hashable zoho_id then
                  store_ids zoho_records batch_start (S idx) rest
                    (app assigned [(zoho_id, airtable_id)])
                else assigned
            | Raise _ => assigned
            end
          else store_ids zoho_records batch_start (S idx) rest assigned
      | None => store_ids zoho_records batch_start (S idx) rest assigned
      end
  end.

(** *** Notions used to state properties *)

(** The record ids a list response names, as [get_records] reads them. *)
Definition page_ids (data : pyval fm) : result (list (pyval fm)) :=
  rows <- py_get data "data" (VList []) ;;
  rows <- py_iter rows ;;
  mapM (fun r => py_item r "id") rows.

(** [zoho_record.get('id')] and the id of a created row. *)
Definition zoho_id (zoho_record : dict fm) : pyval fm :=
  dict_get "id" zoho_record VNone.

Definition airtable_id (airtable_record : pyval fm) : pyval fm :=
  match airtable_record with
  | VDict d => dict_get "id" d VNone
  | _ => VNone
  end.

(** A Zoho record with an id that can be a key: a non-empty string. *)
Definition has_string_id (zoho_record : dict fm) : Prop :=
  exists s, dict_find "id" zoho_record = Some (VStr s) /\ s <> "".

(** A created row with an id. *)
Definition has_id (airtable_record : pyval fm) : Prop :=
  exists d a, airtable_record = VDict d /\ dict_find "id" d = Some a.

(** The field loop looks at the type map through [expected_type] only. *)
Definition convert_field_with (expected : pyval fm) (bl : list string)
    (fields : dict fm) (key : string) (value : pyval fm) : result (dict fm) :=
  if Py.mem key bl then Ok fields
  else
    match value with
    | VNone => Ok fields
    | _ =>
        r <- convert_value expected value ;;
        match r with
        | Some x => Ok (dict_set (clean_key key) x fields)
        | None => Ok fields
        end
    end.

(** The choice values of a descriptor can be looped over. *)
Definition choices_iterable (zoho_field : dict fm) : bool :=
  match dict_find "pick_list_values" zoho_field with
  | Some v =>
      match v with
      | VList _ | VStr _ | VDict _ => true
      | _ => false
      end
  | None => true
  end.

Definition is_none (v : pyval fm) : bool :=
  match v with
  | VNone => true
  | _ => false
  end.

(** The entries of a record the converter looks at. *)
Definition kept (blacklisted_fields : list string) (kv : string * pyval fm) : bool :=
  negb (Py.mem (fst kv) blacklisted_fields) && negb (is_none (snd kv)).

(** Values converted without a look at the type map. *)
Definition structured (v : pyval fm) : bool :=
  match v with
  | VInt _ | VFloat _ | VStr _ => false
  | _ => true
  end.

(** The destination types the mapper knows. *)
Definition destination_types : list string :=
  [ "singleLineText"; "multilineText"; "email"; "phoneNumber"; "url";
    "singleSelect"; "multipleSelects"; "number"; "currency"; "date"; "dateTime" ].

(** What a [for] loop accepts. *)
Definition iterable (v : pyval fm) : bool :=
  match v with
  | VList _ | VStr _ | VDict _ => true
  | _ => false
  end.

(** A choice: [{name: v}] with [v] a string or a non-empty value. *)
Definition is_choice (c : pyval fm) : Prop :=
  exists v, c = named v /\ (is_str v = true \/ truthy v = true).

(** Requests that change the destination's fields or records. *)
Definition is_write (e : event fm) : bool :=
  match e with
  | PostField _ _ _ | DeleteAll _ | BatchCreate _ _ => true
  | _ => false
  end.

(** Requests to the source. *)
Definition is_zoho_request (e : event fm) : bool :=
  match e with
  | GetFields _ | GetRecords _ => true
  | _ => false
  end.

(** The batches sent to a table so far, in the order they were sent. *)
Fixpoint batches_in (tbl : string) (events : list (event fm)) : list (list (dict fm)) :=
  match events with
  | [] => []
  | BatchCreate t batch_data :: rest =>
      if t =? tbl then batch_data :: batches_in tbl rest else batches_in tbl rest
  | _ :: rest => batches_in tbl rest
  end.

Definition batches_sent (tbl : string) (w : world fm) : list (list (dict fm)) :=
  rev (batches_in tbl (trace w)).

(** The field names a creation request was sent for, newest first. *)
Fixpoint posted_in (tbl : string) (events : list (event fm)) : list string :=
  match events with
  | [] => []
  | PostField t name _ :: rest =>
      if t =? tbl then name :: posted_in tbl rest else posted_in tbl rest
  | _ :: rest => posted_in tbl rest
  end.

Definition posted (tbl : string) (w : world fm) : list string :=
  posted_in tbl (trace w).

(** A batch of one to ten rows. *)
Definition well_sized (batch_data : list (dict fm)) : Prop :=
  (1 <= length batch_data <= batch_size)%nat.

(** The name under which a module was listed. *)
Definition api_name_of (m : pyval fm) : pyval fm :=
  match m with
  | VDict d => dict_get "api_name" d VNone
  | _ => VNone
  end.

(** What one typed entry selects, as the prompt puts it: the module with
    that number in the list shown, which is numbered from 1; nothing when
    the entry is no whole number, or no number of the list. *)
Definition selected_by (modules : list (pyval fm)) (idx : string)
  : list (pyval fm) :=
  match Py.int_of_str (PyText.strip idx) with
  | Some n =>
      if (1 <=? n)%Z && (n <=? Z.of_nat (length modules))%Z then
        match nth_error modules (Z.to_nat n - 1) with
        | Some m => [api_name_of m]
        | None => []
        end
      else []
  | None => []
  end.

(** The lines the orchestrator prints when it takes a module up or skips
    it, oldest first. *)
Definition is_banner (e : event fm) : bool :=
  match e with
  | Syncing _ | Skipping _ => true
  | _ => false
  end.

Definition banners (w : world fm) : list (event fm) :=
  rev (filter is_banner (trace w)).

End Script.

Arguments reply : clear implicits.
Arguments Reply {A} a.
Arguments HTTPError {A}.
Arguments Failed {A} e.
Arguments zoho : clear implicits.
Arguments selection : clear implicits.

(** *** More concrete environments *)

Module Scenes.

Definition fm : float_model := ExactDecimal.model.

(** A source with fixed descriptors and records for every module, and a
    destination that can be read, accepts fields and rows, and accepts
    tables or not. *)
Definition services_of (fields records : list (dict fm)) (tables : bool)
  : services fm := {|
  schema_readable := fun _ => true;
  accepts_table := fun _ _ => tables;
  field_response := fun _ _ _ _ => Created;
  batch_response := fun _ _ batch_data => Ok (map Demo.inserted batch_data);
  zoho_fields := fun _ _ => fields;
  zoho_records := fun _ _ => records
|}.

Definition owner : pyval fm := VDict [("name", VStr "Ann"); ("id", VStr "5")].

(** A record of the kind the converter is written for. *)
Definition lead : dict fm :=
  [ ("id", VStr "101");
    ("Owner", owner);
    ("Tags", VList [VDict [("name", VStr "A")]; VDict [("name", VStr "B")]]);
    ("$approved", VBool true);
    ("Score", VInt 7);
    ("Fax", VNone) ].

(** A record with a list that mixes an object and a string. *)
Definition mixed : dict fm :=
  [ ("Tag", VList [VDict [("name", VStr "A")]; VStr "B"]) ].

(** A descriptor whose [data_type] is null. *)
Definition untyped : dict fm :=
  [ ("api_name", VStr "Broken"); ("data_type", VNone) ].

Definition stage_field : dict fm :=
  [ ("api_name", VStr "Stage"); ("data_type", VStr "picklist");
    ("pick_list_values", VList [VStr "Open"; VStr "Won"]) ].

(** Two descriptors whose names differ by case once the dollar sign is
    gone. *)
Definition state_fields : list (string * dict fm) :=
  [ ("State", [("type", VStr "singleLineText")]);
    ("state", [("type", VStr "singleLineText")]);
    ("Name", [("type", VStr "singleLineText")]) ].

Definition leads_base : world fm :=
  {| schema := [ {| table_name := "Leads"; table_fields := ["Name"] |} ];
     trace := [] |}.

(** Two pages of records, then nothing. *)
Definition listed (ids : list string) (more : bool) : pyval fm :=
  VDict [ ("data", VList (map (fun i => VDict [("id", VStr i)]) ids));
          ("info", VDict [("more_records", VBool more)]) ].

Definition detail_of (id : pyval fm) : pyval fm :=
  VDict [("data", VList [VDict [("id", id); ("Company", VStr "Acme")]])].

Definition source (broken : string) : zoho fm := {|
  list_page := fun _ page =>
    match page with
    | 1%nat => Reply (listed ["1"; "2"] true)
    | 2%nat => Reply (listed ["3"] false)
    | _ => HTTPError
    end;
  record_detail := fun _ id =>
    if str_eq id broken then HTTPError else Reply (detail_of id);
  users_page := HTTPError
|}.

(** The module list the source answers with. *)
Definition module_entry (name : string) (supported : bool) : pyval fm :=
  VDict [ ("api_name", VStr name); ("plural_label", VStr name);
          ("api_supported", VBool supported) ].

Definition module_list : reply (pyval fm) :=
  Reply (VDict [("modules",
                 VList [ module_entry "Leads" true;
                         module_entry "Visits" false;
                         module_entry "Accounts" true ])]).

Definition row (id : string) : pyval fm :=
  VDict [("id", VStr id); ("fields", VDict [])].

Definition sources : list (dict fm) :=
  [ [("id", VStr "z1"); ("zzz", VInt 1)];
    [("id", VStr "z2"); ("Name", VStr "Acme")];
    [("id", VStr "z3"); ("Name", VStr "Bolt")] ].

End Scenes.

(* ================================================================= *)
(** * Properties *)

Local Open Scope list_scope.

Section Properties.

Context {fm : float_model}.

#[local] Abbreviation pyval := (pyval fm).
#[local] Abbreviation dict := (dict fm).

(** ** Dictionaries *)

Lemma dict_find_not_in {A : Type} (k : string) (d : list (string * A)) :
  ~ In k (map fst d) -> dict_find k d = None.
Proof.
  induction d as [|[k' v] d IH]; simpl; intros H; [reflexivity|].
  destruct (String.eqb_spec k k') as [->|Hne].
  - exfalso. apply H. now left.
  - apply IH. intros Hin. apply H. now right.
Qed.

Lemma dict_mem_find {A : Type} (k : string) (d : list (string * A)) :
  dict_mem k d = match dict_find k d with Some _ => true | None => false end.
Proof.
  induction d as [|[k' v] d IH]; simpl; [reflexivity|].
  destruct (String.eqb k k'); simpl; [reflexivity|exact IH].
Qed.

(** ** Type Mapper *)

Lemma data_type_lowered (zoho_field : dict) (s : string) :
  data_type_of zoho_field = Some s ->
  dict_get "data_type" zoho_field (VStr "text") = VStr s.
Proof.
  unfold data_type_of, dict_get.
  destruct (dict_find "data_type" zoho_field) as [[]|]; intros H;
    try discriminate; now inversion H.
Qed.

Lemma pick_list_item_choice (item : pyval) :
  pick_list_item item =
  match choice_value item with
  | Some v => [named v]
  | None => []
  end.
Proof.
  destruct item as [| | | | s | l | d]; try reflexivity.
  unfold pick_list_item, choice_value, py_or, dict_get.
  destruct (dict_find "display_value" d) as [v|].
  - destruct (truthy v) eqn:Hv.
    + now rewrite Hv.
    + destruct (dict_find "actual_value" d) as [u|]; simpl.
      * destruct (truthy u); reflexivity.
      * reflexivity.
  - simpl. destruct (dict_find "actual_value" d) as [u|]; simpl.
    + destruct (truthy u); reflexivity.
    + reflexivity.
Qed.

Lemma flat_map_pick_list (items : list pyval) :
  flat_map pick_list_item items = map named (choice_values items).
Proof.
  induction items as [|item rest IH]; simpl; [reflexivity|].
  rewrite pick_list_item_choice, IH.
  destruct (choice_value item); reflexivity.
Qed.

Lemma select_choices_spec (zoho_field : dict) (items : list pyval) :
  choice_values_of zoho_field = Some items ->
  select_choices zoho_field = Ok (choices_of items).
Proof.
  unfold choice_values_of, select_choices, dict_item, choices_of.
  rewrite dict_mem_find.
  destruct (dict_find "pick_list_values" zoho_field) as [[]|]; intros H;
    try discriminate; inversion H; subst; simpl.
  - rewrite flat_map_pick_list.
    destruct (choice_values items); reflexivity.
  - reflexivity.
Qed.


Lemma dict_find_In {A : Type} (k : string) (d : list (string * A)) (v : A) :
  dict_find k d = Some v -> In (k, v) d.
Proof.
  induction d as [|[k' v'] d IH]; simpl; [discriminate|].
  destruct (String.eqb_spec k k') as [->|Hne]; intros H.
  - inversion H. now left.
  - right. now apply IH.
Qed.

Ltac each_row H :=
  simpl in H;
  repeat (destruct H as [H|H]; [inversion H; subst|]);
  try contradiction.

Ltac split_on l H :=
  repeat match type of H with
         | context [String.eqb l ?k] =>
             let E := fresh "E" in
             destruct (String.eqb l k) eqn:E; [discriminate H|]
         end.

Lemma unknown_type_no_row (l : string) :
  dict_find l type_mapping = None ->
  find_row l (@known_types fm) = None /\ dict_find l select_types = None.
Proof.
  intros H. unfold type_mapping in H. simpl in H. split_on l H.
  split; simpl; unfold Py.mem; simpl;
    repeat match goal with E : String.eqb l _ = false |- _ => rewrite E; clear E end;
    reflexivity.
Qed.

(** The mapper is the table lookup on the lower-cased [data_type]. *)
Lemma map_zoho_type_lowered (zoho_field : dict) (s : string) :
  data_type_of zoho_field = Some s ->
  map_zoho_type_to_airtable zoho_field =
  match find_row (Py.lower s) known_types with
  | Some (ty, opts) => Ok (spec_config ty opts)
  | None =>
      match dict_find (Py.lower s) select_types with
      | Some ty =>
          choices <- select_choices zoho_field ;;
          Ok (spec_config ty (Some (VDict [("choices", VList choices)])))
      | None => Ok [("type", VStr "singleLineText")]
      end
  end.
Proof.
  intros H. unfold map_zoho_type_to_airtable.
  rewrite (data_type_lowered _ _ H). cbn [py_lower bind].
  generalize (Py.lower s) as l. intros l.
  unfold dict_get.
  destruct (dict_find l type_mapping) as [ty|] eqn:E.
  - apply dict_find_In in E. each_row E; reflexivity.
  - destruct (unknown_type_no_row l E) as [-> ->]. reflexivity.
Qed.



Lemma select_row_not_known (l ty : string) :
  In (l, ty) select_types -> find_row l (@known_types fm) = None.
Proof.
  intros H. each_row H; reflexivity.
Qed.

Lemma select_row_found (l ty : string) :
  In (l, ty) select_types -> dict_find l select_types = Some ty.
Proof.
  intros H. each_row H; reflexivity.
Qed.


(** C2, as amended.  For a picklist or multiselectpicklist descriptor the
    choices are the descriptor's choice values in source order, duplicates
    kept: a bare string stands for itself, an object for its display value
    or else its underlying value, other entries are skipped; when nothing
    results the list is [[{name: "None"}]]. *)
Theorem picklist_choices_in_source_order
    (zoho_field : dict) (s ty : string) (items : list pyval) :
  data_type_of zoho_field = Some s ->
  In (Py.lower s, ty) select_types ->
  choice_values_of zoho_field = Some items ->
  map_zoho_type_to_airtable zoho_field =
  Ok [("type", VStr ty);
      ("options", VDict [("choices", VList (choices_of items))])].
Proof.
  intros Hty Hsel Hch.
  rewrite (map_zoho_type_lowered _ _ Hty).
  rewrite (select_row_not_known _ _ Hsel), (select_row_found _ _ Hsel).
  rewrite (select_choices_spec _ _ Hch). reflexivity.
Qed.

(** ** Value Converter *)


(** C8.  The end-to-end scenario: the type map built from the two field
    descriptors, then the conversion of the one record. *)
Theorem accounts_end_to_end :
  (field_type_map <- build_field_type_map (fm := fm) [] accounts_fields ;;
   convert_zoho_to_airtable [acme] (Some field_type_map) (Some "Accounts")) =
  Ok [VDict [("fields",
              VDict [("Account_Name", VStr "Acme");
                     ("Annual_Revenue", VInt 1000000);
                     ("locked_for_me", VStr "Yes")])]].
Proof. reflexivity. Qed.

(** *** Records the converter is written for *)

Lemma is_str_get_default (k a b : string) (d : dict) :
  is_str (dict_get k d (VStr a)) = is_str (dict_get k d (VStr b)).
Proof.
  unfold dict_get. destruct (dict_find k d); reflexivity.
Qed.

Lemma mapM_names (l : list pyval) :
  forallb named_by_string l = true ->
  exists names, mapM name_or_str l = Ok names /\ forallb is_str names = true.
Proof.
  induction l as [|v l IH]; simpl; intros H.
  - now exists [].
  - apply andb_prop in H. destruct H as [Hv Hl].
    destruct (IH Hl) as [names [Hnames Hstr]].
    destruct v as [| | | | | |d]; try discriminate.
    cbn [mapM name_or_str bind]. rewrite Hnames. cbn [bind].
    eexists. split; [reflexivity|].
    cbn [forallb named_by_string] in *.
    now rewrite (is_str_get_default "name" _ "" d), Hv, Hstr.
Qed.

Lemma py_join_strs (sep : string) (l : list pyval) :
  forallb is_str l = true -> returns (py_join sep l).
Proof.
  induction l as [|v l IH]; simpl; intros H.
  - now exists "".
  - apply andb_prop in H. destruct H as [Hv Hl].
    destruct v; try discriminate.
    destruct (IH Hl) as [rest Hrest]. destruct l as [|v' l'].
    + now eexists.
    + rewrite Hrest. now eexists.
Qed.

Lemma py_join_str_forms (sep : string) (l : list pyval) :
  returns (py_join sep (map (fun v : pyval => @VStr fm (py_str v)) l)).
Proof.
  apply py_join_strs. induction l; simpl; auto.
Qed.

Ltac stored :=
  eexists; split; [reflexivity|];
  let x := fresh "x" in
  let Hx := fresh "Hx" in
  intros x Hx; try discriminate Hx; inversion Hx; subst; try reflexivity.

Lemma convert_value_regular (expected value : pyval) :
  regular value = true ->
  exists r, convert_value expected value = Ok r /\
            forall x, r = Some x -> is_scalar x = true.
Proof.
  intros Hreg. destruct value as [| b | z | f | s | l | d]; unfold convert_value.
  - stored.
  - stored.
  - destruct (in_strs expected ["number"; "currency"]);
      [|destruct (str_eq expected "singleLineText")]; stored.
  - destruct (in_strs expected ["number"; "currency"]);
      [|destruct (str_eq expected "singleLineText")]; stored.
  - destruct (in_strs expected ["number"; "currency"]); [|stored].
    destruct (Py.contains_char "." s || Py.contains_char "e" (Py.lower s)).
    + destruct (float_of_str fm s); stored.
    + destruct (Py.int_of_str s); stored.
  - destruct l as [|v l]; [stored|].
    assert (forall l0 : list pyval,
               exists r : option pyval,
                 (joined <- py_join ", " (map (fun v : pyval => @VStr fm (py_str v)) l0) ;;
                  Ok (Some (VStr joined))) = Ok r /\
                 forall x, r = Some x -> is_scalar x = true) as Hscalars.
    { intros l0. destruct (py_join_str_forms ", " l0) as [j Hj].
      rewrite Hj. cbn [bind]. stored. }
    destruct v as [| | | | | |d]; try apply Hscalars.
    destruct (mapM_names (VDict d :: l) Hreg) as [names [Hnames Hstr]].
    rewrite Hnames. cbn [bind].
    destruct (py_join_strs ", " names Hstr) as [j Hj]. rewrite Hj.
    cbn [bind]. stored.
  - cbn [regular named_by_string] in Hreg. unfold dict_get in Hreg.
    unfold dict_item. rewrite !dict_mem_find.
    destruct (dict_find "name" d) as [n|].
    + cbn [bind]. stored. now destruct x.
    + destruct (dict_find "id" d); cbn [andb negb]; stored.
Qed.

Lemma In_dict_set {A : Type} (k k' : string) (v a : A) (d : list (string * A)) :
  In (k, a) (dict_set k' v d) -> (k, a) = (k', v) \/ In (k, a) d.
Proof.
  induction d as [|[k0 v0] d IH]; simpl.
  - intros [H|[]]. left. now symmetry.
  - destruct (String.eqb k' k0); simpl.
    + intros [H|H]; [left; now symmetry|right; now right].
    + intros [H|H]; [right; now left|].
      destruct (IH H) as [H1|H1]; [now left|right; now right].
Qed.

Lemma convert_fields_regular (field_type_map : list (string * dict))
    (blacklisted_fields : list string) (items fields : dict) :
  regular_record items -> scalar_fields fields ->
  exists out, convert_fields field_type_map blacklisted_fields fields items = Ok out
              /\ scalar_fields out.
Proof.
  revert fields. induction items as [|[key value] items IH]; intros fields Hreg Hsc.
  - now exists fields.
  - assert (regular_record items) as Hrest.
    { intros k v Hin. apply (Hreg k v). now right. }
    cbn [convert_fields convert_field].
    destruct (Py.mem key blacklisted_fields); [now apply IH|].
    destruct (convert_value_regular
                (dict_get "type"
                   (dict_get (if Py.startswith "$" key then Py.lstrip "$" key else key)
                      field_type_map [])
                   (VStr "singleLineText"))
                value (Hreg key value (or_introl eq_refl)))
      as [r [Hr Hscalar]].
    destruct value; try (now apply IH); cbn [bind]; rewrite Hr; cbn [bind];
      (destruct r as [x|]; [|now apply IH]);
      (apply IH; [exact Hrest|]);
      intros k v Hin; (destruct (In_dict_set _ _ _ _ _ Hin) as [Heq|Hold];
                        [inversion Heq; subst; now apply Hscalar|now apply (Hsc k v)]).
Qed.

(** X1.  On records the converter is written for it returns, one
    converted record per source record, each holding strings and numbers
    only. *)
Lemma convert_regular_records (zoho_records : list dict)
    (field_type_map : option (list (string * dict))) (module_name : option string) :
  (forall record, In record zoho_records -> regular_record record) ->
  exists out,
    convert_zoho_to_airtable zoho_records field_type_map module_name = Ok out /\
    length out = length zoho_records /\
    forall r, In r out -> exists fields, r = wrap fields /\ scalar_fields fields.
Proof.
  unfold convert_zoho_to_airtable.
  generalize (match field_type_map with Some m => m | None => [] end) as ftm.
  generalize (match module_name with
              | Some m => dict_get m field_blacklists []
              | None => []
              end) as bl.
  intros bl ftm. induction zoho_records as [|record rest IH]; intros Hreg.
  - exists []. repeat split. intros r [].
  - destruct IH as [out [Hout [Hlen Hall]]].
    { intros r Hr. apply Hreg. now right. }
    destruct (convert_fields_regular ftm bl record [] (Hreg record (or_introl eq_refl)))
      as [fields [Hfields Hsc]]; [intros k v []|].
    cbn [mapM]. unfold convert_record at 1. rewrite Hfields. cbn [bind].
    rewrite Hout. cbn [bind]. eexists. split; [reflexivity|]. split.
    + simpl. now rewrite Hlen.
    + intros r [<-|Hr]; [now exists fields|now apply Hall].
Qed.

(** A null value leaves [fields] as it is. *)
Lemma null_is_skipped (field_type_map : list (string * dict))
    (blacklisted_fields : list string) (fields : dict) (key : string) :
  convert_field field_type_map blacklisted_fields fields (key, VNone) = Ok fields.
Proof.
  unfold convert_field. destruct (Py.mem key blacklisted_fields); reflexivity.
Qed.

(** C1.  The converter raises: on a list whose first element is an object
    and a later one is not, and on a list of objects one of whose names
    is null. *)
Theorem convert_raises :
  convert_zoho_to_airtable (fm := fm)
    [[("Tag", VList [VDict [("name", VStr "A")]; VStr "B"])]] None None
  = Raise AttributeError
  /\ convert_zoho_to_airtable (fm := fm)
       [[("Contacts", VList [VDict [("name", VNone); ("id", VStr "7")]])]]
       None None
     = Raise TypeError.
Proof. split; reflexivity. Qed.

(** C4.  A value that is neither a string nor a number survives: the name
    of a relationship object is stored as it is, null or structured. *)
Theorem name_is_stored_unconverted :
  convert_zoho_to_airtable (fm := fm)
    [[("Owner", VDict [("name", VNone); ("id", VStr "42")])]] None None
  = Ok [VDict [("fields", VDict [("Owner", VNone)])]]
  /\ is_scalar (@VNone fm) = false
  /\ convert_zoho_to_airtable (fm := fm)
       [[("Layout", VDict [("name", VList [VStr "Standard"])])]] None None
     = Ok [VDict [("fields", VDict [("Layout", VList [VStr "Standard"])])]]
  /\ is_scalar (@VList fm [VStr "Standard"]) = false.
Proof. repeat split; reflexivity. Qed.

(** ** Schema Reconciler *)

Variable sv : services fm.

Lemma dict_mem_set {A : Type} (k k' : string) (v : A) (d : list (string * A)) :
  dict_mem k (dict_set k' v d) = String.eqb k k' || dict_mem k d.
Proof.
  induction d as [|[k0 v0] d IH]; simpl.
  - reflexivity.
  - destruct (String.eqb_spec k' k0) as [->|Hne]; simpl.
    + destruct (String.eqb k k0); reflexivity.
    + rewrite IH. destruct (String.eqb k k'), (String.eqb k k0); reflexivity.
Qed.

Lemma dict_mem_fold_lower (k : string) (l : list string) (acc : list (string * string)) :
  dict_mem k (fold_left (fun m f => dict_set (Py.lower f) f m) l acc) =
  Py.mem k (map Py.lower l) || dict_mem k acc.
Proof.
  revert acc. induction l as [|f l IH]; intros acc; simpl; [reflexivity|].
  rewrite IH, dict_mem_set. unfold Py.mem. simpl.
  destruct (String.eqb k (Py.lower f)), (existsb (String.eqb k) (map Py.lower l));
    reflexivity.
Qed.

Lemma dict_mem_lower_index (k : string) (l : list string) :
  dict_mem k (lower_index l) = Py.mem k (map Py.lower l).
Proof.
  unfold lower_index. rewrite dict_mem_fold_lower. simpl. apply orb_false_r.
Qed.

Lemma mem_lower (name : string) (l : list string) :
  Py.mem name l = true -> Py.mem (Py.lower name) (map Py.lower l) = true.
Proof.
  unfold Py.mem. rewrite !existsb_exists. intros [x [Hin Heq]].
  apply String.eqb_eq in Heq. subst x.
  exists (Py.lower name). split; [now apply in_map|apply String.eqb_refl].
Qed.

(** The test of the reconciler is the case-insensitive one. *)
Lemma already_there (name : string) (existing_fields : list string) :
  Py.mem name existing_fields
  || dict_mem (Py.lower name) (lower_index existing_fields)
  = holds existing_fields name.
Proof.
  rewrite dict_mem_lower_index. unfold holds.
  destruct (Py.mem name existing_fields) eqn:E; [|reflexivity].
  now rewrite (mem_lower _ _ E).
Qed.

Lemma create_field_settled (w : world fm) (tbl name : string) (config : dict) :
  settled (schema w) tbl name ->
  let w' := fst (create_field_if_not_exists sv w tbl name config) in
  schema w' = schema w /\ field_posts w' = field_posts w.
Proof.
  unfold settled, create_field_if_not_exists. intros H.
  destruct (schema_readable sv w); simpl; [|now split].
  destruct (find_table tbl (schema w)) as [t|]; [|now split].
  pose proof (already_there name (table_fields t)) as Ha. rewrite H in Ha.
  destruct (Py.mem name (table_fields t)); [now split|].
  simpl in Ha. rewrite Ha. now split.
Qed.

Lemma create_fields_settled (todo : list (string * dict)) (w : world fm) (tbl : string) :
  (forall name, In name (map fst todo) -> settled (schema w) tbl name) ->
  let w' := fst (create_fields sv w tbl todo) in
  schema w' = schema w /\ field_posts w' = field_posts w.
Proof.
  revert w. induction todo as [|[name config] todo IH]; intros w H; simpl.
  - now split.
  - pose proof (create_field_settled w tbl name config (H name (or_introl eq_refl)))
      as [Hs Hp].
    destruct (create_field_if_not_exists sv w tbl name config) as [w1 ok].
    simpl in Hs, Hp.
    assert (forall n, In n (map fst todo) -> settled (schema w1) tbl n) as H1.
    { intros n Hn. rewrite Hs. apply H. now right. }
    specialize (IH w1 H1).
    destruct (create_fields sv w1 tbl todo) as [w2 c]. simpl in *.
    destruct IH as [IHs IHp]. split; congruence.
Qed.

Lemma has_field_settled (tables : list table) (tbl name : string) :
  has_field tables tbl name = true -> settled tables tbl name.
Proof.
  unfold has_field, settled. destruct (find_table tbl tables); [auto|discriminate].
Qed.

Lemma fields_to_create_none (existing_fields : list string)
    (field_definitions : list (string * dict)) :
  (forall name, In name (map fst field_definitions) ->
                holds existing_fields name = true) ->
  fields_to_create existing_fields field_definitions = [].
Proof.
  intros H. unfold fields_to_create.
  induction field_definitions as [|[name config] defs IH]; simpl; [reflexivity|].
  rewrite <- negb_orb, already_there, (H name (or_introl eq_refl)). simpl.
  apply IH. intros n Hn. apply H. now right.
Qed.

Lemma fields_to_create_incl (existing_fields : list string)
    (field_definitions : list (string * dict)) (name : string) :
  In name (map fst (fields_to_create existing_fields field_definitions)) ->
  In name (map fst field_definitions).
Proof.
  unfold fields_to_create. rewrite !in_map_iff.
  intros [x [Hx Hin]]. apply filter_In in Hin. exists x. tauto.
Qed.

Lemma ensure_fields_exist_settled
    (w : world fm) (tbl : string) (field_definitions : list (string * dict)) :
  (forall name, In name (map fst field_definitions) ->
                settled (schema w) tbl name) ->
  let w' := fst (ensure_fields_exist sv w tbl field_definitions) in
  schema w' = schema w /\ field_posts w' = field_posts w.
Proof.
  intros Hset. unfold ensure_fields_exist, get_existing_fields, get_base_schema.
  set (w1 := log GetSchema w).
  destruct (find_table tbl (if schema_readable sv w then schema w else []))
    as [t|] eqn:Et.
  - destruct (fields_to_create (table_fields t) field_definitions) as [|fd todo] eqn:Ef;
      [now split|].
    rewrite <- Ef.
    apply (create_fields_settled _ w1 tbl).
    intros n Hn. apply Hset. eapply fields_to_create_incl. exact Hn.
  - destruct (fields_to_create [] field_definitions) as [|fd todo] eqn:Ef;
      [now split|].
    rewrite <- Ef.
    apply (create_fields_settled _ w1 tbl).
    intros n Hn. apply Hset. eapply fields_to_create_incl. exact Hn.
Qed.

(** C6.  Reconciling against a table that already holds every desired
    field name, where a name that differs from an existing one only by
    case counts as held, creates nothing: no creation request is sent and
    the schema stays as it is.  A second run after a run that brought the
    table to that state is such a run. *)
Theorem ensure_fields_exist_creates_nothing
    (w : world fm) (tbl : string) (field_definitions : list (string * dict)) :
  (forall name, In name (map fst field_definitions) ->
                has_field (schema w) tbl name = true) ->
  let w' := fst (ensure_fields_exist sv w tbl field_definitions) in
  schema w' = schema w /\ field_posts w' = field_posts w.
Proof.
  intros H. apply ensure_fields_exist_settled.
  intros n Hn. apply has_field_settled. now apply H.
Qed.

(** *** The second of two runs *)

Lemma find_table_add_field (tbl field : string) (tables : list table) :
  find_table tbl (add_field tbl field tables) =
  option_map (fun t => {| table_name := table_name t;
                          table_fields := table_fields t ++ [field] |})
             (find_table tbl tables).
Proof.
  induction tables as [|t r IH]; simpl; [reflexivity|].
  destruct (table_name t =? tbl) eqn:E; simpl; rewrite E; [reflexivity|exact IH].
Qed.

Lemma holds_app (fields : list string) (field name : string) :
  holds (fields ++ [field]) name =
  holds fields name || String.eqb (Py.lower name) (Py.lower field).
Proof.
  unfold holds, Py.mem. rewrite map_app, existsb_app. simpl.
  now rewrite orb_false_r.
Qed.

Lemma settled_add_field (tables : list table) (tbl field name : string) :
  settled tables tbl name -> settled (add_field tbl field tables) tbl name.
Proof.
  unfold settled. rewrite find_table_add_field.
  destruct (find_table tbl tables); simpl; [|auto].
  intros H. rewrite holds_app, H. reflexivity.
Qed.

Lemma settled_added (tables : list table) (tbl field : string) :
  settled (add_field tbl field tables) tbl field.
Proof.
  unfold settled. rewrite find_table_add_field.
  destruct (find_table tbl tables); simpl; [|auto].
  rewrite holds_app, String.eqb_refl. apply orb_true_r.
Qed.

Section Accepting.

(** A destination that can be read and accepts every new field. *)
Hypothesis readable : forall w, schema_readable sv w = true.
Hypothesis accepted : forall w tbl name config,
    field_response sv w tbl name config = Created.

Lemma create_field_reconciles (w : world fm) (tbl name : string) (config : dict) :
  let w' := fst (create_field_if_not_exists sv w tbl name config) in
  (forall n, settled (schema w) tbl n -> settled (schema w') tbl n) /\
  settled (schema w') tbl name.
Proof.
  unfold create_field_if_not_exists. rewrite readable. simpl.
  destruct (find_table tbl (schema w)) as [t|] eqn:Et.
  - pose proof (already_there name (table_fields t)) as Ha.
    destruct (Py.mem name (table_fields t)) eqn:Em; simpl in *.
    + split; [auto|]. unfold settled. now rewrite Et.
    + destruct (dict_mem (Py.lower name) (lower_index (table_fields t))) eqn:El.
      * simpl. split; [auto|]. unfold settled. now rewrite Et.
      * rewrite accepted. simpl. split.
        -- intros n. apply settled_add_field.
        -- apply settled_added.
  - simpl. split; [auto|]. unfold settled. now rewrite Et.
Qed.

Lemma create_fields_reconciles (todo : list (string * dict)) (w : world fm)
    (tbl : string) :
  let w' := fst (create_fields sv w tbl todo) in
  (forall n, settled (schema w) tbl n -> settled (schema w') tbl n) /\
  (forall n, In n (map fst todo) -> settled (schema w') tbl n).
Proof.
  revert w. induction todo as [|[name config] todo IH]; intros w; simpl.
  - split; [auto|contradiction].
  - pose proof (create_field_reconciles w tbl name config) as [Hmono Hname].
    destruct (create_field_if_not_exists sv w tbl name config) as [w1 ok].
    specialize (IH w1).
    destruct (create_fields sv w1 tbl todo) as [w2 c]. simpl in *.
    destruct IH as [IHmono IHin]. split.
    + auto.
    + intros n [<-|Hn]; auto.
Qed.

Lemma held_or_to_create (existing_fields : list string)
    (field_definitions : list (string * dict)) (name : string) :
  In name (map fst field_definitions) ->
  holds existing_fields name = true \/
  In name (map fst (fields_to_create existing_fields field_definitions)).
Proof.
  intros Hin. destruct (holds existing_fields name) eqn:E; [now left|right].
  apply in_map_iff in Hin. destruct Hin as [[n c] [Hn Hin]]. simpl in Hn. subst n.
  apply in_map_iff. exists (name, c). split; [reflexivity|].
  unfold fields_to_create. apply filter_In. split; [exact Hin|]. simpl.
  now rewrite <- negb_orb, already_there, E.
Qed.

(** One run leaves every desired field name settled. *)
Lemma ensure_fields_exist_reconciles
    (w : world fm) (tbl : string) (field_definitions : list (string * dict)) :
  let w' := fst (ensure_fields_exist sv w tbl field_definitions) in
  forall name, In name (map fst field_definitions) ->
               settled (schema w') tbl name.
Proof.
  unfold ensure_fields_exist, get_existing_fields, get_base_schema.
  rewrite readable. set (w1 := log GetSchema w).
  intros name Hin.
  destruct (find_table tbl (schema w)) as [t|] eqn:Et.
  - pose proof (create_fields_reconciles
                  (fields_to_create (table_fields t) field_definitions) w1 tbl)
      as [Hmono Htodo].
    assert (settled (schema
              (fst (create_fields sv w1 tbl
                      (fields_to_create (table_fields t) field_definitions))))
              tbl name) as Hgoal.
    { destruct (held_or_to_create (table_fields t) _ _ Hin) as [Hheld|Hnew].
      - apply Hmono. unfold settled. simpl. now rewrite Et.
      - now apply Htodo. }
    destruct (fields_to_create (table_fields t) field_definitions); exact Hgoal.
  - pose proof (create_fields_reconciles
                  (fields_to_create [] field_definitions) w1 tbl)
      as [Hmono _].
    assert (settled (schema
              (fst (create_fields sv w1 tbl
                      (fields_to_create [] field_definitions))))
              tbl name) as Hgoal.
    { apply Hmono. unfold settled. simpl. now rewrite Et. }
    destruct (fields_to_create [] field_definitions); exact Hgoal.
Qed.

(** Run twice, the reconciler creates nothing the second time. *)
Lemma ensure_fields_exist_twice
    (w : world fm) (tbl : string) (field_definitions : list (string * dict)) :
  let w1 := fst (ensure_fields_exist sv w tbl field_definitions) in
  let w2 := fst (ensure_fields_exist sv w1 tbl field_definitions) in
  schema w2 = schema w1 /\ field_posts w2 = field_posts w1.
Proof.
  intros w1 w2. apply ensure_fields_exist_settled.
  apply ensure_fields_exist_reconciles.
Qed.

End Accepting.

(** ** Batch loading *)




(** *** Mapping keys onto existing fields *)

Lemma mem_In (x : string) (l : list string) : Py.mem x l = true -> In x l.
Proof.
  unfold Py.mem. rewrite existsb_exists. intros [y [Hin Heq]].
  apply String.eqb_eq in Heq. now subst.
Qed.

Lemma lower_index_sound (ef : list string) (k actual : string) :
  dict_find k (lower_index ef) = Some actual ->
  In actual ef /\ Py.lower actual = k.
Proof.
  intros H. apply dict_find_In in H. revert H. unfold lower_index.
  assert (forall (l : list string) (acc : list (string * string)),
             (forall k a, In (k, a) acc -> In a ef /\ Py.lower a = k) ->
             (forall f, In f l -> In f ef) ->
             forall k a,
               In (k, a) (fold_left (fun m f => dict_set (Py.lower f) f m) l acc) ->
               In a ef /\ Py.lower a = k) as Hgen.
  { induction l as [|f l IH]; intros acc Hacc Hl k0 a0; simpl; [apply Hacc|].
    apply IH.
    - intros k1 a1 Hin. destruct (In_dict_set _ _ _ _ _ Hin) as [Heq|Hold].
      + inversion Heq; subst. split; [apply Hl; now left|reflexivity].
      + now apply Hacc.
    - intros f0 Hf0. apply Hl. now right. }
  apply (Hgen ef []); [intros ? ? []|auto].
Qed.

Lemma map_fields_snoc (ef : list string) (fmap : list (string * string))
    (record_fields : dict) (kv : string * pyval) :
  map_fields ef fmap (record_fields ++ [kv]) =
  map_field ef fmap (map_fields ef fmap record_fields) kv.
Proof.
  unfold map_fields. now rewrite fold_left_app.
Qed.

Lemma map_fields_keys (ef : list string) (record_fields : dict) (k : string) :
  In k (dict_keys (map_fields ef (lower_index ef) record_fields)) -> In k ef.
Proof.
  unfold map_fields.
  assert (forall (l acc : dict),
             (forall k, In k (dict_keys acc) -> In k ef) ->
             forall k, In k (dict_keys (fold_left (map_field ef (lower_index ef)) l acc)) ->
                       In k ef) as Hgen.
  { induction l as [|[key value] l IH]; intros acc Hacc k0; simpl; [apply Hacc|].
    apply IH. intros k1. unfold dict_keys.
    assert (forall name, In name ef ->
                         In k1 (map fst (dict_set name value acc)) -> In k1 ef) as Hset.
    { intros name Hname Hin. apply in_map_iff in Hin.
      destruct Hin as [[k2 v2] [Hk2 Hin]]. simpl in Hk2. subst k2.
      destruct (In_dict_set _ _ _ _ _ Hin) as [Heq|Hold].
      - inversion Heq; now subst.
      - apply Hacc. unfold dict_keys. apply in_map_iff. now exists (k1, v2). }
    destruct (Py.mem key ef) eqn:Em.
    - apply Hset. now apply mem_In.
    - destruct (dict_find (Py.lower key) (lower_index ef)) as [actual|] eqn:Ef.
      + apply Hset. now apply (lower_index_sound _ _ _ Ef).
      + apply Hacc. }
  intros H. apply (Hgen record_fields [] (fun _ F => match F with end) k).
  exact H.
Qed.

Lemma unmatched_key_is_dropped (ef : list string) (record_fields : dict)
    (key : string) (value : pyval) :
  holds ef key = false ->
  map_fields ef (lower_index ef) (record_fields ++ [(key, value)]) =
  map_fields ef (lower_index ef) record_fields.
Proof.
  intros H. rewrite map_fields_snoc. unfold map_field.
  pose proof (already_there key ef) as Ha. rewrite H in Ha.
  apply orb_false_iff in Ha. destruct Ha as [Hm Hl].
  rewrite Hm. rewrite dict_mem_find in Hl.
  destruct (dict_find (Py.lower key) (lower_index ef)); [discriminate|reflexivity].
Qed.

Lemma matched_key_is_renamed (ef : list string) (record_fields : dict)
    (key : string) (value : pyval) :
  holds ef key = true ->
  exists actual,
    In actual ef /\ Py.lower actual = Py.lower key /\
    map_fields ef (lower_index ef) (record_fields ++ [(key, value)]) =
    dict_set actual value (map_fields ef (lower_index ef) record_fields).
Proof.
  intros H. rewrite map_fields_snoc. unfold map_field.
  pose proof (already_there key ef) as Ha. rewrite H in Ha.
  destruct (Py.mem key ef) eqn:Em.
  - exists key. split; [now apply mem_In|]. split; reflexivity.
  - simpl in Ha. rewrite dict_mem_find in Ha.
    destruct (dict_find (Py.lower key) (lower_index ef)) as [actual|] eqn:Ef;
      [|discriminate].
    exists actual. destruct (lower_index_sound _ _ _ Ef) as [Hin Hlow].
    split; [exact Hin|]. split; [exact Hlow|reflexivity].
Qed.

(** *** Records left out of a batch *)

Lemma build_batch_data_wrapped (ef : list string) (fmap : list (string * string))
    (batch : list dict) :
  build_batch_data ef fmap (map wrap batch) = Ok (batch_rows ef fmap batch).
Proof.
  induction batch as [|rf batch IH]; simpl; [reflexivity|].
  rewrite IH. cbn [bind]. unfold keeps.
  destruct (map_fields ef fmap rf); reflexivity.
Qed.

Lemma length_batch_rows (ef : list string) (fmap : list (string * string))
    (batch : list dict) :
  length (batch_rows ef fmap batch) = length (filter (keeps ef fmap) batch).
Proof.
  induction batch as [|rf batch IH]; simpl; [reflexivity|].
  destruct (keeps ef fmap rf); simpl; now rewrite IH.
Qed.

Lemma chunks_fuel_map {A B : Type} (f : A -> B) (fuel n : nat) (l : list A) :
  chunks_fuel fuel n (map f l) = map (map f) (chunks_fuel fuel n l).
Proof.
  revert l. induction fuel as [|k IH]; intros l; simpl; [reflexivity|].
  destruct l as [|x l]; [reflexivity|].
  cbn [map]. change (f x :: map f l) with (map f (x :: l)).
  now rewrite firstn_map, skipn_map, IH.
Qed.

Lemma chunks_map {A B : Type} (f : A -> B) (n : nat) (l : list A) :
  chunks n (map f l) = map (map f) (chunks n l).
Proof.
  unfold chunks. rewrite length_map. apply chunks_fuel_map.
Qed.

Lemma concat_chunks_fuel {A : Type} (fuel n : nat) (l : list A) :
  (0 < n)%nat -> (length l <= fuel)%nat -> concat (chunks_fuel fuel n l) = l.
Proof.
  intros Hn. revert l. induction fuel as [|k IH]; intros l Hl; simpl.
  - destruct l; [reflexivity|simpl in Hl; lia].
  - destruct l as [|x l]; [reflexivity|].
    cbn [concat]. rewrite IH.
    + apply firstn_skipn.
    + rewrite length_skipn. cbn [length] in *. lia.
Qed.

Lemma concat_chunks {A : Type} (n : nat) (l : list A) :
  (0 < n)%nat -> concat (chunks n l) = l.
Proof.
  intros Hn. apply concat_chunks_fuel; [exact Hn|apply le_n].
Qed.

Lemma filter_drops {A : Type} (p : A -> bool) (l : list A) (x : A) :
  In x l -> p x = false -> (length (filter p l) < length l)%nat.
Proof.
  induction l as [|y l IH]; simpl; [contradiction|].
  intros [->|Hin] Hp.
  - rewrite Hp. pose proof (filter_length_le p l). lia.
  - specialize (IH Hin Hp). destruct (p y); simpl; lia.
Qed.

Lemma insert_batches_count (tbl : string) (ef : list string)
    (fmap : list (string * string)) (batches : list (list dict))
    (w : world fm) (acc : list pyval) :
  (forall w' data, exists res,
      batch_response sv w' tbl data = Ok res /\ length res = length data) ->
  length (snd (insert_batches sv tbl ef fmap (map (map wrap) batches) w acc)) =
  (length acc + length (filter (keeps ef fmap) (concat batches)))%nat.
Proof.
  intros Hok. revert w acc.
  induction batches as [|batch rest IH]; intros w acc; simpl.
  - lia.
  - rewrite build_batch_data_wrapped, filter_app, length_app.
    rewrite <- (length_batch_rows ef fmap batch).
    destruct (batch_rows ef fmap batch) as [|row data].
    + rewrite IH. simpl. lia.
    + destruct (Hok w (row :: data)) as [res [Hres Hlen]].
      rewrite Hres, IH, length_app, Hlen. lia.
Qed.

(** *** What is sent *)

Lemma batch_rows_app (ef : list string) (fmap : list (string * string))
    (a b : list dict) :
  batch_rows ef fmap (a ++ b) = batch_rows ef fmap a ++ batch_rows ef fmap b.
Proof.
  induction a as [|rf a IH]; cbn [app batch_rows]; [reflexivity|].
  destruct (keeps ef fmap rf); cbn [app]; now rewrite IH.
Qed.

Lemma batch_rows_concat (ef : list string) (fmap : list (string * string))
    (batches : list (list dict)) :
  concat (filter nonempty (map (batch_rows ef fmap) batches)) =
  batch_rows ef fmap (concat batches).
Proof.
  induction batches as [|b batches IH]; cbn [map filter concat]; [reflexivity|].
  rewrite batch_rows_app, <- IH.
  destruct (batch_rows ef fmap b); reflexivity.
Qed.

Lemma batch_rows_length (ef : list string) (fmap : list (string * string))
    (batch : list dict) :
  (length (batch_rows ef fmap batch) <= length batch)%nat.
Proof.
  induction batch as [|rf batch IH]; cbn [batch_rows]; [simpl; lia|].
  destruct (keeps ef fmap rf); simpl; lia.
Qed.

Lemma chunks_fuel_sizes {A : Type} (fuel n : nat) (l : list A) :
  Forall (fun c => (length c <= n)%nat) (chunks_fuel fuel n l).
Proof.
  revert l. induction fuel as [|k IH]; intros l; cbn [chunks_fuel];
    [constructor|].
  destruct l as [|x l]; [constructor|].
  constructor; [|apply IH]. rewrite length_firstn. lia.
Qed.

Lemma batches_sent_log (tbl : string) (e : event fm) (w : world fm) :
  batches_sent tbl (log e w) =
  batches_sent tbl w ++
  match e with
  | BatchCreate t batch_data => if t =? tbl then [batch_data] else []
  | _ => []
  end.
Proof.
  unfold batches_sent, log. cbn [trace batches_in].
  destruct e; try (now rewrite app_nil_r).
  destruct (tbl0 =? tbl)%string; [reflexivity|now rewrite app_nil_r].
Qed.

Lemma insert_batches_sends (tbl : string) (ef : list string)
    (fmap : list (string * string)) (batches : list (list dict))
    (w : world fm) (acc : list pyval) :
  batches_sent tbl
    (fst (insert_batches sv tbl ef fmap (map (map wrap) batches) w acc)) =
  batches_sent tbl w ++ filter nonempty (map (batch_rows ef fmap) batches).
Proof.
  revert w acc. induction batches as [|b batches IH]; intros w acc;
    cbn [map insert_batches filter].
  - cbn [fst]. now rewrite app_nil_r.
  - rewrite build_batch_data_wrapped.
    destruct (batch_rows ef fmap b) as [|row data]; cbn [nonempty]; [apply IH|].
    destruct (batch_response sv w tbl (row :: data)); rewrite IH, batches_sent_log,
      String.eqb_refl, <- app_assoc; reflexivity.
Qed.

Lemma batches_sent_get_existing_fields (tbl t : string) (w : world fm) :
  batches_sent tbl (fst (get_existing_fields sv w t)) = batches_sent tbl w.
Proof.
  unfold get_existing_fields, get_base_schema.
  destruct (find_table t _); cbn [fst]; rewrite batches_sent_log;
    apply app_nil_r.
Qed.

Lemma batches_sent_create_or_get_table (tbl t : string) (w : world fm) :
  batches_sent tbl (create_or_get_table sv w t) = batches_sent tbl w.
Proof.
  unfold create_or_get_table, table_exists, get_base_schema, create_table.
  destruct (Py.mem t _); [rewrite batches_sent_log; apply app_nil_r|].
  destruct (accepts_table sv _ t); cbn [fst]; unfold batches_sent;
    reflexivity.
Qed.

(** What [batch_create_records] sends for converted records. *)
Lemma batch_create_records_sends (w : world fm) (tbl : string)
    (converted : list dict) :
  let ef := snd (get_existing_fields sv w tbl) in
  batches_sent tbl (fst (batch_create_records sv w tbl (map wrap converted))) =
  batches_sent tbl w ++
  filter nonempty
    (map (batch_rows ef (lower_index ef)) (chunks batch_size converted)).
Proof.
  intros ef. subst ef. unfold batch_create_records.
  destruct converted as [|rf rest]; [cbn; now rewrite app_nil_r|].
  change (map wrap (rf :: rest)) with (wrap rf :: map wrap rest) at 1.
  cbv iota.
  pose proof (batches_sent_get_existing_fields tbl tbl w) as H1.
  destruct (get_existing_fields sv w tbl) as [w1 ef]. cbn [fst snd] in *.
  change (wrap rf :: map wrap rest) with (map wrap (rf :: rest)).
  now rewrite chunks_map, insert_batches_sends, batches_sent_create_or_get_table, H1.
Qed.

Lemma batch_rows_filter (ef : list string) (fmap : list (string * string))
    (batch : list dict) :
  batch_rows ef fmap batch = filter nonempty (map (map_fields ef fmap) batch).
Proof.
  induction batch as [|rf batch IH]; cbn [batch_rows map filter]; [reflexivity|].
  unfold keeps. destruct (nonempty (map_fields ef fmap rf)); now rewrite IH.
Qed.

(** C10.  Before a batch is sent every key of a converted record is
    mapped onto the existing field names of the table, and the mapped
    records are what is sent: the rows of the batches sent, in order, are
    the mapped field sets of the converted records, those left with no
    field omitted.  The keys of a mapped record are existing field names;
    a key that matches no existing name, even up to case, is dropped; a
    key that matches one is sent under the existing name.  So with a
    destination that refuses nothing and answers one row per record sent,
    the number of rows created is the number of records that keep a field,
    which is less than the number of converted records as soon as one
    record keeps none. *)
Theorem unmatched_keys_and_empty_records_are_dropped
    (w w1 : world fm) (tbl : string) (converted : list dict)
    (existing_fields : list string) :
  get_existing_fields sv w tbl = (w1, existing_fields) ->
  (forall w' data, exists res,
      batch_response sv w' tbl data = Ok res /\ length res = length data) ->
  let field_mapping := lower_index existing_fields in
  let run := batch_create_records sv w tbl (map wrap converted) in
  let created := snd run in
  (exists new,
      batches_sent tbl (fst run) = batches_sent tbl w ++ new /\
      concat new =
      filter nonempty (map (map_fields existing_fields field_mapping) converted)) /\
  (forall (record_fields : dict) k,
      In k (dict_keys (map_fields existing_fields field_mapping record_fields)) ->
      In k existing_fields) /\
  (forall (record_fields : dict) key (value : pyval),
      holds existing_fields key = false ->
      map_fields existing_fields field_mapping (record_fields ++ [(key, value)]) =
      map_fields existing_fields field_mapping record_fields) /\
  (forall (record_fields : dict) key (value : pyval),
      holds existing_fields key = true ->
      exists actual,
        In actual existing_fields /\ Py.lower actual = Py.lower key /\
        map_fields existing_fields field_mapping (record_fields ++ [(key, value)]) =
        dict_set actual value
          (map_fields existing_fields field_mapping record_fields)) /\
  length created =
  length (filter (keeps existing_fields field_mapping) converted) /\
  ((exists rf : dict, In rf converted /\
               map_fields existing_fields field_mapping rf = []) ->
   (length created < length converted)%nat).
Proof.
  intros Hget Hok field_mapping run created.
  assert (length created =
          length (filter (keeps existing_fields field_mapping) converted))
    as Hcount.
  { subst created run. unfold batch_create_records.
    destruct converted as [|rf rest]; [reflexivity|].
    change (map wrap (rf :: rest)) with (wrap rf :: map wrap rest) at 1.
    cbv iota. rewrite Hget, chunks_map, insert_batches_count by exact Hok.
    rewrite concat_chunks by (unfold batch_size; lia). reflexivity. }
  split.
  { pose proof (batch_create_records_sends w tbl converted) as Hsent.
    rewrite Hget in Hsent. cbn [snd] in Hsent.
    eexists. split; [exact Hsent|].
    rewrite batch_rows_concat, concat_chunks by (unfold batch_size; lia).
    apply batch_rows_filter. }
  split; [intros rf k; apply map_fields_keys|].
  split; [intros rf key value; apply unmatched_key_is_dropped|].
  split; [intros rf key value; apply matched_key_is_renamed|].
  split; [exact Hcount|].
  intros [rf [Hin Hempty]]. rewrite Hcount.
  apply (filter_drops _ _ rf Hin). unfold keeps. now rewrite Hempty.
Qed.

(** ** Sync orchestrator *)

(** No client call prints the banner line of the orchestrator. *)

Lemma syncs_get_existing_fields (m : string) (w : world fm) (tbl : string) :
  count (is_syncing m) (fst (get_existing_fields sv w tbl)) = count (is_syncing m) w.
Proof.
  unfold get_existing_fields, get_base_schema.
  destruct (find_table tbl _); reflexivity.
Qed.

Lemma syncs_create_table (m : string) (w : world fm) (tbl : string) :
  count (is_syncing m) (fst (create_table sv w tbl)) = count (is_syncing m) w.
Proof.
  unfold create_table. destruct (accepts_table sv w tbl); reflexivity.
Qed.

Lemma syncs_create_or_get_table (m : string) (w : world fm) (tbl : string) :
  count (is_syncing m) (create_or_get_table sv w tbl) = count (is_syncing m) w.
Proof.
  unfold create_or_get_table, table_exists, get_base_schema.
  destruct (Py.mem tbl _); [reflexivity|].
  now rewrite syncs_create_table.
Qed.

Lemma syncs_create_field (m : string) (w : world fm) (tbl name : string)
    (config : dict) :
  count (is_syncing m) (fst (create_field_if_not_exists sv w tbl name config))
  = count (is_syncing m) w.
Proof.
  unfold create_field_if_not_exists.
  destruct (schema_readable sv w); [|reflexivity]. simpl.
  destruct (find_table tbl (schema w)) as [t|]; [|reflexivity].
  destruct (Py.mem name (table_fields t)); [reflexivity|].
  destruct (dict_mem _ _); [reflexivity|].
  destruct (field_response sv _ tbl name config); reflexivity.
Qed.

Lemma syncs_create_fields (m : string) (todo : list (string * dict))
    (w : world fm) (tbl : string) :
  count (is_syncing m) (fst (create_fields sv w tbl todo)) = count (is_syncing m) w.
Proof.
  revert w. induction todo as [|[name config] todo IH]; intros w; simpl;
    [reflexivity|].
  pose proof (syncs_create_field m w tbl name config) as H1.
  destruct (create_field_if_not_exists sv w tbl name config) as [w1 ok].
  specialize (IH w1). destruct (create_fields sv w1 tbl todo) as [w2 c].
  simpl in *. congruence.
Qed.

Lemma syncs_ensure_fields_exist (m : string) (w : world fm) (tbl : string)
    (field_definitions : list (string * dict)) :
  count (is_syncing m) (fst (ensure_fields_exist sv w tbl field_definitions))
  = count (is_syncing m) w.
Proof.
  unfold ensure_fields_exist.
  pose proof (syncs_get_existing_fields m w tbl) as H1.
  destruct (get_existing_fields sv w tbl) as [w1 ef]. simpl in H1.
  destruct (fields_to_create ef field_definitions) as [|fd todo]; [exact H1|].
  cbn [fst]. now rewrite syncs_create_fields.
Qed.

Lemma syncs_clear_table (m : string) (w : world fm) (tbl : string) :
  count (is_syncing m) (clear_table sv w tbl) = count (is_syncing m) w.
Proof.
  unfold clear_table. rewrite <- (syncs_create_or_get_table m w tbl). reflexivity.
Qed.

Lemma syncs_insert_batches (m tbl : string) (ef : list string)
    (fmap : list (string * string)) (batches : list (list pyval))
    (w : world fm) (acc : list pyval) :
  count (is_syncing m) (fst (insert_batches sv tbl ef fmap batches w acc))
  = count (is_syncing m) w.
Proof.
  revert w acc. induction batches as [|batch rest IH]; intros w acc; simpl;
    [reflexivity|].
  destruct (build_batch_data ef fmap batch) as [[|row data]|e]; try apply IH.
  destruct (batch_response sv w tbl (row :: data)); rewrite IH; reflexivity.
Qed.

Lemma syncs_batch_create_records (m : string) (w : world fm) (tbl : string)
    (records : list pyval) :
  count (is_syncing m) (fst (batch_create_records sv w tbl records))
  = count (is_syncing m) w.
Proof.
  unfold batch_create_records. destruct records as [|r rs]; [reflexivity|].
  pose proof (syncs_get_existing_fields m w tbl) as H1.
  destruct (get_existing_fields sv w tbl) as [w1 ef]. simpl in H1.
  now rewrite syncs_insert_batches, syncs_create_or_get_table.
Qed.

Lemma syncs_prepare (m : string) (w : world fm) (module : string) (clear : bool) :
  count (is_syncing m) (fst (prepare sv w module clear)) = count (is_syncing m) w.
Proof.
  unfold prepare, table_exists, get_base_schema.
  set (w1 := log GetSchema w).
  assert (count (is_syncing m) w1 = count (is_syncing m) w) as H1 by reflexivity.
  destruct (Py.mem module _).
  - cbn [negb].
    destruct (build_field_type_map [] _) as [ftm|e]; [|exact H1].
    destruct (zoho_records sv _ module) as [|r rs]; [exact H1|].
    destruct (convert_zoho_to_airtable _ _ _) as [recs|e]; [|exact H1].
    cbn [fst].
    assert (count (is_syncing m)
              (match ftm with
               | [] => log (GetRecords module) (log (GetFields module) w1)
               | _ :: _ =>
                   fst (ensure_fields_exist sv
                          (log (GetRecords module) (log (GetFields module) w1))
                          module ftm)
               end) = count (is_syncing m) w) as H5.
    { destruct ftm; [exact H1|]. rewrite syncs_ensure_fields_exist. exact H1. }
    destruct clear; [rewrite syncs_clear_table|]; exact H5.
  - pose proof (syncs_create_table m w1 module) as H2.
    destruct (create_table sv w1 module) as [w2 ok]. simpl in H2.
    destruct ok; cbn [negb]; [|cbn [fst]; congruence].
    assert (count (is_syncing m) w2 = count (is_syncing m) w) as H3 by congruence.
    destruct (build_field_type_map [] _) as [ftm|e]; [|exact H3].
    destruct (zoho_records sv _ module) as [|r rs]; [exact H3|].
    destruct (convert_zoho_to_airtable _ _ _) as [recs|e]; [|exact H3].
    cbn [fst].
    assert (count (is_syncing m)
              (match ftm with
               | [] => log (GetRecords module) (log (GetFields module) w2)
               | _ :: _ =>
                   fst (ensure_fields_exist sv
                          (log (GetRecords module) (log (GetFields module) w2))
                          module ftm)
               end) = count (is_syncing m) w) as H5.
    { destruct ftm; [exact H3|]. rewrite syncs_ensure_fields_exist. exact H3. }
    destruct clear; [rewrite syncs_clear_table|]; exact H5.
Qed.

Lemma syncs_sync_module (m : string) (w : world fm) (module : string)
    (clear : bool) :
  count (is_syncing m) (fst (sync_module sv w module clear))
  = ((if String.eqb module m then 1 else 0) + count (is_syncing m) w)%nat.
Proof.
  unfold sync_module, sync_module_recursive. cbn [Py.mem existsb].
  pose proof (syncs_prepare m (log (Syncing module) w) module clear) as H1.
  assert (count (is_syncing m) (log (Syncing module) w)
          = ((if String.eqb module m then 1 else 0) + count (is_syncing m) w)%nat)
    as H0.
  { unfold count, log. simpl. destruct (String.eqb module m); reflexivity. }
  destruct (prepare sv (log (Syncing module) w) module clear) as [w1 [[| |recs]|e]];
    simpl in H1; try (cbn [fst]; congruence).
  pose proof (syncs_batch_create_records m w1 module recs) as H2.
  destruct (batch_create_records sv w1 module recs) as [w2 created].
  simpl in *. congruence.
Qed.

(** C9, as amended.  The guard skips a module whose name is in the
    visited set it is given, without any request.  [main] gives every
    selected entry a visited set of its own, so every entry passes the
    guard: a module is taken up as often as it occurs in the selected
    list. *)
Theorem one_sync_per_selected_entry
    (w : world fm) (modules_to_sync synced_modules : list string)
    (clear : bool) (total : nat) (m : string) :
  Py.mem m synced_modules = true ->
  sync_module_recursive sv w m clear synced_modules
    = (log (Skipping m) w, synced_modules, 0%nat)
  /\ count (is_syncing m) (fst (main_sync sv w modules_to_sync clear total))
     = (count_occ string_dec modules_to_sync m + count (is_syncing m) w)%nat.
Proof.
  intros Hmem. split.
  - unfold sync_module_recursive. now rewrite Hmem.
  - clear Hmem. revert w total.
    induction modules_to_sync as [|module rest IH]; intros w total; simpl.
    + reflexivity.
    + pose proof (syncs_sync_module m w module clear) as H1.
      destruct (sync_module sv w module clear) as [w1 n]. simpl in H1.
      rewrite IH, H1.
      destruct (string_dec module m) as [->|Hne].
      * rewrite String.eqb_refl. lia.
      * apply String.eqb_neq in Hne. rewrite Hne. lia.
Qed.

End Properties.

(** C2: two equal choice values both reach the choices list. *)
Lemma duplicate_choices_are_kept :
  exists choices,
    map_zoho_type_to_airtable (fm := Demo.fm)
      [("api_name", VStr "Stage"); ("data_type", VStr "picklist");
       ("pick_list_values",
        VList [VDict [("display_value", VStr "Open"); ("actual_value", VStr "Open")];
               VDict [("display_value", VStr "Open"); ("actual_value", VStr "Open")]])]
    = Ok [("type", VStr "singleSelect");
          ("options", VDict [("choices", VList choices)])]
    /\ ~ NoDup choices.
Proof.
  eexists. split; [reflexivity|].
  intros H. inversion H as [|x l Hnotin _]. apply Hnotin. now left.
Qed.

(* ================================================================= *)
(** * Closed instances *)


(** C2, as amended, at a picklist with a repeated entry, an entry without
    display value and an entry without either value. *)
Lemma picklist_choices_in_source_order_witness :
  data_type_of Demo.stage = Some "PickList" /\
  In (Py.lower "PickList", "singleSelect") select_types /\
  map_zoho_type_to_airtable Demo.stage =
  Ok [("type", VStr "singleSelect");
      ("options",
       VDict [("choices",
               VList [VDict [("name", VStr "Open")]; VDict [("name", VStr "Won")];
                      VDict [("name", VStr "lost")]; VDict [("name", VStr "Won")]])])].
Proof.
  split; [reflexivity|]. split; [now left|].
  exact (picklist_choices_in_source_order Demo.stage "PickList" "singleSelect" _
           eq_refl (or_introl eq_refl) eq_refl).
Defined.


(** C6 at a table that has [email] when [Email] is desired. *)
Lemma ensure_fields_exist_creates_nothing_witness :
  let desired : list (string * dict Demo.fm) :=
    [("Email", [("type", VStr "email")]); ("Phone", [("type", VStr "phoneNumber")])] in
  let w' := fst (ensure_fields_exist Demo.sv Demo.contacts_base "Contacts" desired) in
  (forall name, In name (map fst desired) ->
                has_field (schema Demo.contacts_base) "Contacts" name = true) /\
  schema w' = schema Demo.contacts_base /\
  field_posts w' = field_posts Demo.contacts_base.
Proof.
  intros desired w'.
  assert (forall name, In name (map fst desired) ->
                       has_field (schema Demo.contacts_base) "Contacts" name = true)
    as H.
  { intros name [<-|[<-|[]]]; reflexivity. }
  split; [exact H|].
  exact (ensure_fields_exist_creates_nothing Demo.sv Demo.contacts_base
           "Contacts" desired H).
Defined.


Lemma nothing_refused (data : list (dict Demo.fm)) :
  existsb (fun _ => false) data = false.
Proof.
  induction data; simpl; auto.
Qed.

(** C10 at a table with the fields [Name] and [Account_Name]: of two
    converted records the second has no key the table knows; the one row
    sent holds [Account_Name] only, and one row is created though nothing
    is refused. *)
Lemma unmatched_keys_and_empty_records_are_dropped_witness :
  let sv := Demo.destination (fun _ => false) in
  let w : world Demo.fm :=
    {| schema := [ {| table_name := "Accounts";
                      table_fields := ["Name"; "Account_Name"] |} ];
       trace := [] |} in
  let converted : list (dict Demo.fm) :=
    [ [("account_name", VStr "Acme"); ("locked_for_me", VStr "Yes")];
      [("locked_for_me", VStr "No")] ] in
  let run := batch_create_records sv w "Accounts" (map wrap converted) in
  let created := snd run in
  get_existing_fields sv w "Accounts" = (log GetSchema w, ["Name"; "Account_Name"]) /\
  (forall w' data, exists res,
      batch_response sv w' "Accounts" data = Ok res /\ length res = length data) /\
  (exists new,
      batches_sent "Accounts" (fst run) = new /\
      concat new = [[("Account_Name", VStr "Acme")]]) /\
  length created = 1%nat /\
  (length created < length converted)%nat.
Proof.
  intros sv w converted run created.
  assert (forall w' data, exists res,
             batch_response sv w' "Accounts" data = Ok res /\
             length res = length data) as Hok.
  { intros w' data. exists (map Demo.inserted data). simpl.
    rewrite nothing_refused. split; [reflexivity|apply length_map]. }
  split; [reflexivity|]. split; [exact Hok|].
  destruct (unmatched_keys_and_empty_records_are_dropped sv w (log GetSchema w)
              "Accounts" converted ["Name"; "Account_Name"] eq_refl Hok)
    as [Hsent [_ [_ [_ [Hcount Hless]]]]].
  split; [exact Hsent|]. split.
  - exact Hcount.
  - apply Hless. exists [("locked_for_me", VStr "No")].
    split; [right; now left|reflexivity].
Defined.

(** C9, as amended, at the selection Accounts, Accounts. *)
Lemma one_sync_per_selected_entry_witness :
  Py.mem "Accounts" ["Accounts"] = true /\
  sync_module_recursive Demo.sv Demo.empty_base "Accounts" false ["Accounts"]
    = (log (Skipping "Accounts") Demo.empty_base, ["Accounts"], 0%nat) /\
  count (is_syncing "Accounts")
    (fst (main_sync Demo.sv Demo.empty_base ["Accounts"; "Accounts"] false 0))
  = 2%nat.
Proof.
  split; [reflexivity|].
  exact (one_sync_per_selected_entry Demo.sv Demo.empty_base
           ["Accounts"; "Accounts"] ["Accounts"] false 0 "Accounts" eq_refl).
Defined.

(** C9: a module selected twice has its records fetched twice and loaded
    twice. *)
Lemma repeated_selection_is_synced_twice :
  let run := main_sync Demo.sv Demo.empty_base ["Accounts"; "Accounts"] false 0 in
  ~ (count (is_fetch "Accounts") (fst run) <= 1)%nat /\
  ~ (count (is_load "Accounts") (fst run) <= 1)%nat /\
  snd run = 2%nat.
Proof.
  vm_compute. repeat split; lia.
Qed.

(* ================================================================= *)
(** * Further properties *)

Section Further.

Context {fm : float_model}.

#[local] Abbreviation pyval := (pyval fm).
#[local] Abbreviation dict := (dict fm).

(** ** Dictionaries: lookup after assignment *)

Lemma dict_find_set_same {A : Type} (k : string) (v : A) (d : list (string * A)) :
  dict_find k (dict_set k v d) = Some v.
Proof.
  induction d as [|[k0 v0] d IH]; simpl.
  - now rewrite String.eqb_refl.
  - destruct (String.eqb k k0) eqn:E; simpl.
    + now rewrite String.eqb_refl.
    + now rewrite E.
Qed.

Lemma dict_find_set_other {A : Type} (k k' : string) (v : A) (d : list (string * A)) :
  k <> k' -> dict_find k (dict_set k' v d) = dict_find k d.
Proof.
  intros Hne. apply String.eqb_neq in Hne.
  induction d as [|[k0 v0] d IH]; simpl.
  - now rewrite Hne.
  - destruct (String.eqb k' k0) eqn:E; simpl.
    + apply String.eqb_eq in E. subst k0. now rewrite Hne.
    + destruct (String.eqb k k0); [reflexivity|exact IH].
Qed.

Lemma dict_keys_set {A : Type} (k : string) (v : A) (d : list (string * A)) :
  dict_keys (dict_set k v d) =
  if dict_mem k d then dict_keys d else dict_keys d ++ [k].
Proof.
  unfold dict_keys. induction d as [|[k0 v0] d IH]; simpl; [reflexivity|].
  destruct (String.eqb_spec k k0) as [->|Hne]; simpl; [reflexivity|].
  rewrite IH. destruct (dict_mem k d); reflexivity.
Qed.

Lemma dict_mem_keys {A : Type} (k : string) (d : list (string * A)) :
  dict_mem k d = false -> ~ In k (dict_keys d).
Proof.
  unfold dict_keys. induction d as [|[k0 v0] d IH]; simpl; [tauto|].
  destruct (String.eqb_spec k k0) as [->|Hne]; simpl; [discriminate|].
  intros H [Heq|Hin]; [now apply Hne|now apply IH].
Qed.

Lemma dict_set_NoDup {A : Type} (k : string) (v : A) (d : list (string * A)) :
  NoDup (dict_keys d) -> NoDup (dict_keys (dict_set k v d)).
Proof.
  intros H. rewrite dict_keys_set. destruct (dict_mem k d) eqn:E; [exact H|].
  apply NoDup_app; [exact H|repeat constructor; tauto|].
  intros x Hx [<-|[]]. now apply (dict_mem_keys _ _ E).
Qed.

(** ** Value Converter *)

Lemma lstrip_no_prefix (c : ascii) (s : string) :
  Py.startswith c (Py.lstrip c s) = false.
Proof.
  induction s as [|d s IH]; simpl; [reflexivity|].
  destruct (Ascii.eqb c d) eqn:E; [exact IH|]. simpl. exact E.
Qed.

Lemma clean_key_no_prefix (key : string) :
  Py.startswith "$" (clean_key key) = false.
Proof.
  unfold clean_key. destruct (Py.startswith "$" key) eqn:E;
    [apply lstrip_no_prefix|exact E].
Qed.

(** What one pass of the loop does to [fields]. *)
Lemma convert_field_cases (ftm : list (string * dict)) (bl : list string)
    (fields out : dict) (key : string) (value : pyval) :
  convert_field ftm bl fields (key, value) = Ok out ->
  out = fields \/ exists x, out = dict_set (clean_key key) x fields.
Proof.
  unfold convert_field. destruct (Py.mem key bl); [intros H; inversion H; now left|].
  fold (clean_key key).
  destruct value;
    try (intros H; inversion H; now left);
    (destruct (convert_value _ _) as [[x|]|e]; cbn [bind]; intros H; inversion H;
     [right; now exists x|now left]).
Qed.

Lemma convert_fields_keys (ftm : list (string * dict)) (bl : list string)
    (items fields out : dict) :
  convert_fields ftm bl fields items = Ok out ->
  NoDup (dict_keys fields) ->
  (forall k, In k (dict_keys fields) -> Py.startswith "$" k = false) ->
  NoDup (dict_keys out) /\
  (forall k, In k (dict_keys out) -> Py.startswith "$" k = false).
Proof.
  revert fields.
  induction items as [|[key value] items IH]; intros fields; cbn [convert_fields].
  - intros H. inversion H. subst. auto.
  - destruct (convert_field ftm bl fields (key, value)) as [f1|e] eqn:E;
      cbn [bind]; [|discriminate].
    intros H Hnd Hkeys. apply (IH f1 H).
    + destruct (convert_field_cases _ _ _ _ _ _ E) as [->|[x ->]];
        [exact Hnd|now apply dict_set_NoDup].
    + destruct (convert_field_cases _ _ _ _ _ _ E) as [->|[x ->]]; [exact Hkeys|].
      intros k. rewrite dict_keys_set.
      destruct (dict_mem (clean_key key) fields); [apply Hkeys|].
      intros Hin. apply in_app_or in Hin. destruct Hin as [Hin|[<-|[]]];
        [now apply Hkeys|apply clean_key_no_prefix].
Qed.

(** The converter returns one wrapped dictionary per record, each the
    result of the field loop on that record. *)
Lemma convert_records_each (records : list dict)
    (field_type_map : option (list (string * dict))) (module_name : option string)
    (out : list pyval) :
  convert_zoho_to_airtable records field_type_map module_name = Ok out ->
  length out = length records /\
  forall r, In r out ->
    exists record fields,
      In record records /\ r = wrap fields /\
      convert_fields (match field_type_map with Some m => m | None => [] end)
        (match module_name with
         | Some m => dict_get m field_blacklists []
         | None => []
         end) [] record = Ok fields.
Proof.
  unfold convert_zoho_to_airtable.
  generalize (match field_type_map with Some m => m | None => [] end) as ftm.
  generalize (match module_name with
              | Some m => dict_get m field_blacklists []
              | None => []
              end) as bl.
  intros bl ftm. revert out.
  induction records as [|record rest IH]; intros out; cbn [mapM].
  - intros H. inversion H. split; [reflexivity|intros r []].
  - unfold convert_record at 1.
    destruct (convert_fields ftm bl [] record) as [fields|e] eqn:E;
      cbn [bind]; [|discriminate].
    destruct (mapM (convert_record ftm bl) rest) as [rs|e] eqn:Er;
      cbn [bind]; [|discriminate].
    intros H. inversion H. subst out. destruct (IH rs eq_refl) as [Hlen Hall].
    split; [simpl; now rewrite Hlen|].
    intros r [<-|Hr].
    + exists record, fields. split; [now left|]. split; [reflexivity|exact E].
    + destruct (Hall r Hr) as [rec [f [Hin [Hw Hc]]]].
      exists rec, f. split; [now right|]. split; assumption.
Qed.

(** X2.  Whenever the converter returns, every converted record is a
    [fields] dictionary whose keys are pairwise distinct and none of which
    starts with the dollar sign. *)
Theorem converted_keys_are_clean_and_distinct (records : list dict)
    (field_type_map : option (list (string * dict))) (module_name : option string)
    (out : list pyval) :
  convert_zoho_to_airtable records field_type_map module_name = Ok out ->
  forall r, In r out ->
    exists fields,
      r = wrap fields /\ NoDup (dict_keys fields) /\
      forall k, In k (dict_keys fields) -> Py.startswith "$" k = false.
Proof.
  intros H r Hr. destruct (convert_records_each _ _ _ _ H) as [_ Hall].
  destruct (Hall r Hr) as [record [fields [_ [Hw Hc]]]].
  exists fields. split; [exact Hw|].
  apply (convert_fields_keys _ _ _ _ _ Hc); [constructor|intros k []].
Qed.

Lemma convert_fields_app (ftm : list (string * dict)) (bl : list string)
    (items1 items2 fields : dict) :
  convert_fields ftm bl fields (items1 ++ items2) =
  (fields' <- convert_fields ftm bl fields items1 ;;
   convert_fields ftm bl fields' items2).
Proof.
  revert fields. induction items1 as [|kv items1 IH]; intros fields.
  - reflexivity.
  - cbn [app convert_fields].
    destruct (convert_field ftm bl fields kv); cbn [bind]; [apply IH|reflexivity].
Qed.

(** X3.  Fields are written in source order and a later write wins: when
    a further entry of the record converts to [x], its destination key
    holds [x] afterwards, whatever an earlier entry with the same
    destination key (the same name with or without dollar signs) had put
    there; every other key keeps its value, and a key that was there keeps
    its place. *)
Theorem later_entry_wins (ftm : list (string * dict)) (bl : list string)
    (items fields : dict) (key : string) (value x : pyval) :
  convert_fields ftm bl [] items = Ok fields ->
  Py.mem key bl = false ->
  value <> VNone ->
  convert_value (expected_type ftm key) value = Ok (Some x) ->
  exists out,
    convert_fields ftm bl [] (items ++ [(key, value)]) = Ok out /\
    dict_find (clean_key key) out = Some x /\
    (forall k, k <> clean_key key -> dict_find k out = dict_find k fields) /\
    (dict_mem (clean_key key) fields = true -> dict_keys out = dict_keys fields).
Proof.
  intros Hitems Hbl Hnone Hval.
  exists (dict_set (clean_key key) x fields).
  split.
  - rewrite convert_fields_app, Hitems. cbn [bind convert_fields convert_field].
    rewrite Hbl. fold (clean_key key). fold (expected_type ftm key).
    destruct value; try contradiction; rewrite Hval; reflexivity.
  - split; [apply dict_find_set_same|]. split.
    + intros k Hk. now apply dict_find_set_other.
    + intros Hmem. now rewrite dict_keys_set, Hmem.
Qed.

(** X4.  Blacklisted keys and null values are passed over: the field loop
    gives the same result as on the record without them and without a
    blacklist; and only the module Users has a blacklist. *)
Theorem skipped_entries_do_not_count (ftm : list (string * dict))
    (bl : list string) (items fields : dict) (records : list dict)
    (field_type_map : option (list (string * dict))) (module_name : string) :
  convert_fields ftm bl fields items =
  convert_fields ftm [] fields (filter (kept bl) items)
  /\ (module_name <> "Users" ->
      convert_zoho_to_airtable records field_type_map (Some module_name) =
      convert_zoho_to_airtable records field_type_map None).
Proof.
  split.
  - revert fields. induction items as [|[key value] items IH]; intros fields;
      [reflexivity|].
    cbn [filter]. unfold kept at 1. cbn [fst snd].
    destruct (Py.mem key bl) eqn:Ebl.
    + cbn [negb andb convert_fields convert_field]. rewrite Ebl. cbn [bind].
      apply IH.
    + destruct value; cbn [negb andb is_none];
        cbn [convert_fields convert_field]; rewrite Ebl; cbn [Py.mem existsb];
        try (destruct (convert_value _ _) as [[x|]|e]); cbn [bind];
        try apply IH; reflexivity.
  - intros Hne. unfold convert_zoho_to_airtable, dict_get, field_blacklists.
    cbn [dict_find]. apply String.eqb_neq in Hne. now rewrite Hne.
Qed.

Lemma convert_value_structured (e1 e2 value : pyval) :
  structured value = true -> convert_value e1 value = convert_value e2 value.
Proof.
  destruct value; try discriminate; reflexivity.
Qed.

Lemma convert_fields_structured (ftm1 ftm2 : list (string * dict))
    (bl : list string) (items fields : dict) :
  (forall k v, In (k, v) items -> structured v = true) ->
  convert_fields ftm1 bl fields items = convert_fields ftm2 bl fields items.
Proof.
  revert fields. induction items as [|[key value] items IH]; intros fields H;
    [reflexivity|].
  assert (structured value = true) as Hv by (apply (H key); now left).
  assert (convert_field ftm1 bl fields (key, value)
          = convert_field ftm2 bl fields (key, value)) as Hf.
  { unfold convert_field. destruct (Py.mem key bl); [reflexivity|].
    destruct value; try discriminate; try reflexivity. }
  cbn [convert_fields]. rewrite Hf.
  destruct (convert_field ftm2 bl fields (key, value)); cbn [bind]; [|reflexivity].
  apply IH. intros k v Hin. apply (H k). now right.
Qed.

(** X5.  Booleans, relationship objects and lists are converted without a
    look at the declared type: on records that hold nothing else, two type
    maps give the same result. *)
Theorem structured_values_ignore_the_type_map (records : list dict)
    (ftm1 ftm2 : list (string * dict)) (module_name : option string) :
  (forall record, In record records ->
                  forall k v, In (k, v) record -> structured v = true) ->
  convert_zoho_to_airtable records (Some ftm1) module_name =
  convert_zoho_to_airtable records (Some ftm2) module_name.
Proof.
  unfold convert_zoho_to_airtable.
  generalize (match module_name with
              | Some m => dict_get m field_blacklists []
              | None => []
              end) as bl.
  intros bl H. induction records as [|record rest IH]; [reflexivity|].
  cbn [mapM]. unfold convert_record at 1 3.
  rewrite (convert_fields_structured ftm1 ftm2 bl record []
             (H record (or_introl eq_refl))).
  rewrite IH; [reflexivity|]. intros r Hr. apply H. now right.
Qed.

Lemma convert_field_expected (ftm : list (string * dict)) (bl : list string)
    (fields : dict) (key : string) (value : pyval) :
  convert_field ftm bl fields (key, value) =
  convert_field_with (expected_type ftm key) bl fields key value.
Proof. reflexivity. Qed.

(** X6.  A key the type map does not declare is converted as a
    single-line text field: declaring it so changes nothing, and a whole
    number under such a key is stored as its decimal string. *)
Theorem undeclared_key_is_text (ftm : list (string * dict)) (bl : list string)
    (fields : dict) (key : string) (value : pyval) (z : Z) :
  dict_find (clean_key key) ftm = None ->
  convert_field ftm bl fields (key, value) =
  convert_field ((clean_key key, [("type", VStr "singleLineText")]) :: ftm)
    bl fields (key, value)
  /\ (Py.mem key bl = false ->
      convert_field ftm bl fields (key, VInt z) =
      Ok (dict_set (clean_key key) (VStr (Py.str_of_int z)) fields)).
Proof.
  intros Hnone.
  assert (expected_type ftm key = VStr "singleLineText") as H1.
  { unfold expected_type, dict_get. now rewrite Hnone. }
  assert (expected_type
            ((clean_key key, [("type", @VStr fm "singleLineText")]) :: ftm) key
          = VStr "singleLineText") as H2.
  { unfold expected_type, dict_get. cbn [dict_find].
    now rewrite String.eqb_refl. }
  rewrite !convert_field_expected, H1, H2. split; [reflexivity|].
  intros Hbl. unfold convert_field_with. rewrite Hbl. reflexivity.
Qed.

(** ** Type Mapper *)

Lemma mapper_needs_a_string (zoho_field config : dict) :
  map_zoho_type_to_airtable zoho_field = Ok config ->
  exists s, data_type_of zoho_field = Some s.
Proof.
  unfold map_zoho_type_to_airtable, data_type_of, dict_get.
  destruct (dict_find "data_type" zoho_field) as [[]|]; cbn [py_lower bind];
    try discriminate; eauto.
Qed.

Lemma choice_value_shape (item v : pyval) :
  choice_value item = Some v -> is_str v = true \/ truthy v = true.
Proof.
  destruct item as [| | | | s | l | d]; try discriminate; cbn [choice_value].
  - intros H. inversion H. now left.
  - destruct (dict_find "display_value" d) as [dv|].
    + destruct (truthy dv) eqn:E; [intros H; inversion H; subst; now right|].
      destruct (dict_find "actual_value" d) as [u|]; [|discriminate].
      destruct (truthy u) eqn:Eu; [intros H; inversion H; subst; now right|discriminate].
    + destruct (dict_find "actual_value" d) as [u|]; [|discriminate].
      destruct (truthy u) eqn:Eu; [intros H; inversion H; subst; now right|discriminate].
Qed.

Lemma picked_are_choices (items : list pyval) :
  Forall is_choice (flat_map pick_list_item items).
Proof.
  induction items as [|item items IH]; cbn [flat_map]; [constructor|].
  apply Forall_app. split; [|exact IH].
  rewrite pick_list_item_choice.
  destruct (choice_value item) as [v|] eqn:E; [|constructor].
  constructor; [|constructor]. exists v. split; [reflexivity|].
  now apply choice_value_shape with item.
Qed.

Lemma select_choices_iterable (zoho_field : dict) :
  returns (select_choices zoho_field) <-> choices_iterable zoho_field = true.
Proof.
  unfold select_choices, choices_iterable, dict_item, returns.
  rewrite dict_mem_find.
  destruct (dict_find "pick_list_values" zoho_field) as [[]|]; cbn [bind py_iter];
    split; intros H; try reflexivity; try discriminate; eauto;
    destruct H as [a Ha]; discriminate.
Qed.

Lemma select_choices_shape (zoho_field : dict) (choices : list pyval) :
  select_choices zoho_field = Ok choices ->
  choices <> [] /\ Forall is_choice choices.
Proof.
  unfold select_choices.
  assert (forall items : list pyval,
             Ok (match flat_map pick_list_item items with
                 | [] => [VDict [("name", @VStr fm "None")]]
                 | _ :: _ => flat_map pick_list_item items
                 end) = Ok choices ->
             choices <> [] /\ Forall is_choice choices) as Hitems.
  { intros items H. inversion H as [Hc]. clear H.
    pose proof (picked_are_choices items) as Hall.
    destruct (flat_map pick_list_item items) as [|c cs].
    - subst choices. split; [discriminate|]. constructor; [|constructor].
      exists (VStr "None"). split; [reflexivity|now left].
    - subst choices. split; [discriminate|exact Hall]. }
  destruct (dict_mem "pick_list_values" zoho_field).
  - destruct (dict_item "pick_list_values" zoho_field) as [v|e]; cbn [bind];
      [|discriminate].
    destruct (py_iter v) as [items|e]; cbn [bind]; [|discriminate].
    apply Hitems.
  - cbn [bind]. apply (Hitems []).
Qed.

Lemma find_row_type (l ty : string) (opts : option pyval) :
  find_row l known_types = Some (ty, opts) ->
  In ty ["singleLineText"; "multilineText"; "email"; "phoneNumber"; "url";
         "number"; "currency"; "date"; "dateTime"].
Proof.
  unfold known_types. cbn [find_row].
  repeat (destruct (Py.mem l _);
          [intros H; inversion H; subst; simpl; tauto|]).
  discriminate.
Qed.

(** X7.  Whatever the descriptor, a result of the mapper has a type from
    the destination's list of eleven, and a select type comes with a
    choices list that is not empty and whose entries are all of the form
    [{name: v}], [v] a string or a non-empty value. *)
Theorem mapper_output_shape (zoho_field config : dict) :
  map_zoho_type_to_airtable zoho_field = Ok config ->
  exists ty,
    dict_find "type" config = Some (VStr ty) /\
    In ty destination_types /\
    (In ty ["singleSelect"; "multipleSelects"] ->
     exists choices,
       dict_find "options" config = Some (VDict [("choices", VList choices)]) /\
       choices <> [] /\ Forall is_choice choices).
Proof.
  intros H. destruct (mapper_needs_a_string _ _ H) as [s Hs].
  rewrite (map_zoho_type_lowered _ _ Hs) in H.
  destruct (find_row (Py.lower s) known_types) as [[ty opts]|] eqn:Erow.
  - inversion H. subst config. exists ty. split; [reflexivity|].
    pose proof (find_row_type _ _ _ Erow) as Hty. split.
    + simpl in Hty. simpl. tauto.
    + intros Hsel. exfalso. simpl in Hty, Hsel.
      repeat (destruct Hty as [Hty|Hty]; [subst ty;
        repeat (destruct Hsel as [Hsel|Hsel]; [discriminate|]); contradiction|]).
      contradiction.
  - destruct (dict_find (Py.lower s) select_types) as [ty|] eqn:Esel.
    + destruct (select_choices zoho_field) as [choices|e] eqn:Ech; cbn [bind] in H;
        [|discriminate].
      inversion H. subst config. exists ty. split; [reflexivity|].
      apply dict_find_In in Esel. split.
      * destruct Esel as [E|[E|[]]]; inversion E; simpl; tauto.
      * intros _. exists choices. split; [reflexivity|].
        now apply select_choices_shape with zoho_field.
    + inversion H. subst config. exists "singleLineText".
      split; [reflexivity|]. split; [now left|].
      intros [Hs'|[Hs'|[]]]; discriminate.
Qed.

(** X8.  The mapper returns exactly when the descriptor's [data_type] is
    a string (or missing) and, for the two picklist types, its choice
    values can be looped over (or are missing); otherwise it raises. *)
Theorem mapper_returns_iff (zoho_field : dict) :
  returns (map_zoho_type_to_airtable zoho_field) <->
  exists s,
    data_type_of zoho_field = Some s /\
    (dict_mem (Py.lower s) select_types = true ->
     choices_iterable zoho_field = true).
Proof.
  split.
  - intros [config H]. destruct (mapper_needs_a_string _ _ H) as [s Hs].
    exists s. split; [exact Hs|]. intros Hsel.
    rewrite (map_zoho_type_lowered _ _ Hs) in H.
    rewrite dict_mem_find in Hsel.
    destruct (dict_find (Py.lower s) select_types) as [ty|] eqn:Esel;
      [|discriminate].
    rewrite (select_row_not_known _ _ (dict_find_In _ _ _ Esel)) in H.
    apply select_choices_iterable.
    destruct (select_choices zoho_field) as [choices|e]; [now eexists|discriminate].
  - intros [s [Hs Hsel]]. rewrite (map_zoho_type_lowered _ _ Hs).
    destruct (find_row (Py.lower s) known_types) as [[ty opts]|]; [now eexists|].
    rewrite dict_mem_find in Hsel.
    destruct (dict_find (Py.lower s) select_types) as [ty|]; [|now eexists].
    destruct (proj2 (select_choices_iterable zoho_field) (Hsel eq_refl))
      as [choices Hch].
    rewrite Hch. now eexists.
Qed.

(** ** Sync orchestrator *)

Variable sv : services fm.

Ltac open_prepare :=
  unfold prepare, table_exists, get_base_schema, create_table;
  cbn [fst snd];
  destruct (Py.mem _ (map table_name _));
  [|destruct (accepts_table sv _ _)]; cbn [negb fst snd].

Lemma mapper_raises (zoho_field : dict) :
  data_type_of zoho_field = None ->
  map_zoho_type_to_airtable zoho_field = Raise AttributeError.
Proof.
  unfold map_zoho_type_to_airtable, data_type_of, dict_get.
  destruct (dict_find "data_type" zoho_field) as [[]|]; try discriminate;
    reflexivity.
Qed.

Lemma build_field_type_map_raises (fields : list dict) (bad : dict) :
  In bad fields ->
  (forall m, raises (add_field_type m bad)) ->
  forall m, raises (build_field_type_map m fields).
Proof.
  induction fields as [|f fields IH]; intros Hin Hbad m; [contradiction|].
  cbn [build_field_type_map].
  destruct Hin as [->|Hin].
  - destruct (Hbad m) as [e He]. rewrite He. now exists e.
  - destruct (add_field_type m f) as [m'|e]; cbn [bind]; [now apply IH|now exists e].
Qed.

(** X9.  A field descriptor whose [data_type] is not a string (a null,
    say) under a usable name stops the sync of its module: the call
    returns 0, the module is not marked as synced, its records are not
    fetched and nothing is written to the destination. *)
Theorem bad_descriptor_aborts_sync (w : world fm) (module : string)
    (clear : bool) (synced_modules : list string) (fields : list dict)
    (bad : dict) (name : string) :
  Py.mem module synced_modules = false ->
  (forall w', zoho_fields sv w' module = fields) ->
  In bad fields ->
  dict_find "api_name" bad = Some (VStr name) ->
  clean_key name <> "" ->
  data_type_of bad = None ->
  let r := sync_module_recursive sv w module clear synced_modules in
  snd r = 0%nat /\ snd (fst r) = synced_modules /\
  count (is_fetch module) (fst (fst r)) = count (is_fetch module) w /\
  count is_write (fst (fst r)) = count is_write w.
Proof.
  intros Hmem Hfields Hin Hname Hclean Hty.
  assert (forall m, raises (build_field_type_map m fields)) as Hraise.
  { apply (build_field_type_map_raises fields bad Hin). intros m.
    exists AttributeError. unfold add_field_type, dict_get. rewrite Hname.
    fold (clean_key name). apply String.eqb_neq in Hclean. rewrite Hclean.
    cbn [negb]. now rewrite (mapper_raises _ Hty). }
  unfold sync_module_recursive. rewrite Hmem.
  open_prepare; rewrite ?Hfields;
    try (destruct (Hraise []) as [e He]; rewrite He);
    cbn [fst snd]; repeat split; reflexivity.
Qed.

(** X10.  When the conversion of the module's records raises, the sync
    returns 0, does not mark the module, and has written nothing to the
    destination: no field is created, nothing is cleared, no batch is
    sent. *)
Theorem failed_conversion_aborts_sync (w : world fm) (module : string)
    (clear : bool) (synced_modules : list string) (records : list dict) :
  Py.mem module synced_modules = false ->
  (forall w', zoho_records sv w' module = records) ->
  (forall ftm, raises (convert_zoho_to_airtable records (Some ftm) (Some module))) ->
  let r := sync_module_recursive sv w module clear synced_modules in
  snd r = 0%nat /\ snd (fst r) = synced_modules /\
  count is_write (fst (fst r)) = count is_write w.
Proof.
  intros Hmem Hrecords Hraise.
  assert (records <> []) as Hne.
  { intros ->. destruct (Hraise []) as [e He]. discriminate He. }
  unfold sync_module_recursive. rewrite Hmem.
  open_prepare;
    try (destruct (build_field_type_map [] _) as [ftm|e]);
    rewrite ?Hrecords; try (destruct records as [|r0 rs]; [contradiction|]);
    try (destruct (Hraise ftm) as [e He]; rewrite He);
    cbn [fst snd]; repeat split; reflexivity.
Qed.

(** X11.  A module without records leaves the destination's fields and
    records as they are, also when clearing was asked for, and the sync
    returns 0. *)
Theorem empty_module_writes_nothing (w : world fm) (module : string)
    (clear : bool) (synced_modules : list string) :
  (forall w', zoho_records sv w' module = []) ->
  let r := sync_module_recursive sv w module clear synced_modules in
  snd r = 0%nat /\ count is_write (fst (fst r)) = count is_write w.
Proof.
  intros Hrecords. unfold sync_module_recursive.
  destruct (Py.mem module synced_modules); [split; reflexivity|].
  open_prepare;
    try (destruct (build_field_type_map [] _) as [ftm|e]);
    rewrite ?Hrecords; cbn [fst snd]; split; reflexivity.
Qed.

(** X12.  When the module has no table and the destination refuses to
    create one, the sync returns 0 without a single request to the source,
    and does not mark the module. *)
Theorem missing_table_stops_before_the_source (w : world fm) (module : string)
    (clear : bool) (synced_modules : list string) :
  Py.mem module synced_modules = false ->
  Py.mem module (map table_name (schema w)) = false ->
  (forall w', accepts_table sv w' module = false) ->
  let r := sync_module_recursive sv w module clear synced_modules in
  snd r = 0%nat /\ snd (fst r) = synced_modules /\
  schema (fst (fst r)) = schema w /\
  count is_zoho_request (fst (fst r)) = count is_zoho_request w.
Proof.
  intros Hmem Htable Hrefuse. unfold sync_module_recursive. rewrite Hmem.
  unfold prepare, table_exists, get_base_schema, create_table. cbn [fst snd].
  assert (Py.mem module
            (map table_name
               (if schema_readable sv (log (Syncing module) w)
                then schema (log (Syncing module) w) else [])) = false) as Hno.
  { destruct (schema_readable sv _); [exact Htable|reflexivity]. }
  rewrite Hno, Hrefuse. cbn [negb fst snd]. repeat split; reflexivity.
Qed.

Lemma build_batch_data_length (ef : list string) (fmap : list (string * string))
    (batch : list pyval) (data : list dict) :
  build_batch_data ef fmap batch = Ok data -> (length data <= length batch)%nat.
Proof.
  revert data. induction batch as [|r batch IH]; intros data; cbn [build_batch_data].
  - intros H. inversion H. simpl. lia.
  - destruct (record_items r) as [rf|e]; cbn [bind]; [|discriminate].
    destruct (build_batch_data ef fmap batch) as [rest|e]; cbn [bind]; [|discriminate].
    intros H. inversion H. specialize (IH rest eq_refl).
    destruct (map_fields ef fmap rf); simpl; lia.
Qed.

Section OneRowPerRecord.

(** A destination that answers a successful insert with one row per
    record sent. *)
Hypothesis one_row : forall w tbl data res,
    batch_response sv w tbl data = Ok res -> length res = length data.

Lemma insert_batches_bound (tbl : string) (ef : list string)
    (fmap : list (string * string)) (batches : list (list pyval))
    (w : world fm) (acc : list pyval) :
  (length (snd (insert_batches sv tbl ef fmap batches w acc))
   <= length acc + length (concat batches))%nat.
Proof.
  revert w acc. induction batches as [|batch rest IH]; intros w acc;
    cbn [insert_batches concat].
  - simpl. lia.
  - rewrite length_app.
    destruct (build_batch_data ef fmap batch) as [[|row data]|e] eqn:E.
    + specialize (IH w acc). lia.
    + pose proof (build_batch_data_length _ _ _ _ E) as Hlen.
      destruct (batch_response sv w tbl (row :: data)) as [res|e] eqn:Er.
      * specialize (IH (log (BatchCreate tbl (row :: data)) w) (acc ++ res)).
        rewrite length_app, (one_row _ _ _ _ Er) in IH. lia.
      * specialize (IH (log (BatchCreate tbl (row :: data)) w) acc). lia.
    + specialize (IH w acc). lia.
Qed.

Lemma batch_create_records_bound (w : world fm) (tbl : string)
    (records : list pyval) :
  (length (snd (batch_create_records sv w tbl records)) <= length records)%nat.
Proof.
  unfold batch_create_records. destruct records as [|r rs]; [simpl; lia|].
  destruct (get_existing_fields sv w tbl) as [w1 ef].
  pose proof (insert_batches_bound tbl ef (lower_index ef)
                (chunks batch_size (r :: rs)) (create_or_get_table sv w1 tbl) [])
    as H.
  rewrite concat_chunks in H by (unfold batch_size; lia). exact H.
Qed.

(** X13.  With a destination that answers one row per record sent, a sync
    never reports more records than the source delivered. *)
Theorem sync_count_is_bounded (w : world fm) (module : string) (clear : bool)
    (synced_modules : list string) (n : nat) :
  (forall w', (length (zoho_records sv w' module) <= n)%nat) ->
  (snd (sync_module_recursive sv w module clear synced_modules) <= n)%nat.
Proof.
  intros Hn. unfold sync_module_recursive.
  destruct (Py.mem module synced_modules); [simpl; lia|].
  assert (forall w0,
             match snd (prepare sv w0 module clear) with
             | Ok (Ready recs) => (length recs <= n)%nat
             | _ => True
             end) as Hready.
  { intros w0. open_prepare;
      try (destruct (build_field_type_map [] _) as [ftm|e]); cbn [fst snd]; auto;
      match goal with
      | |- context [zoho_records sv ?w1 module] =>
          pose proof (Hn w1) as Hl;
          destruct (zoho_records sv w1 module) as [|r0 rs] eqn:Ez; cbn [fst snd]; auto;
          destruct (convert_zoho_to_airtable (r0 :: rs) (Some ftm) (Some module))
            as [recs|e] eqn:Ec; cbn [fst snd]; auto;
          destruct (convert_records_each _ _ _ _ Ec) as [Hlen _]; lia
      end. }
  specialize (Hready (log (Syncing module) w)).
  destruct (prepare sv (log (Syncing module) w) module clear)
    as [w1 [[| |recs]|e]]; cbn [fst snd] in *; try lia.
  pose proof (batch_create_records_bound w1 module recs) as Hb.
  destruct (batch_create_records sv w1 module recs) as [w2 created].
  cbn [fst snd] in *. lia.
Qed.

End OneRowPerRecord.

(** *** The loop of [main] *)

(** No client call prints a line of the orchestrator. *)

Lemma banners_get_existing_fields (w : world fm) (tbl : string) :
  banners (fst (get_existing_fields sv w tbl)) = banners w.
Proof.
  unfold get_existing_fields, get_base_schema.
  destruct (find_table tbl _); reflexivity.
Qed.

Lemma banners_create_table (w : world fm) (tbl : string) :
  banners (fst (create_table sv w tbl)) = banners w.
Proof.
  unfold create_table. destruct (accepts_table sv w tbl); reflexivity.
Qed.

Lemma banners_create_or_get_table (w : world fm) (tbl : string) :
  banners (create_or_get_table sv w tbl) = banners w.
Proof.
  unfold create_or_get_table, table_exists, get_base_schema.
  destruct (Py.mem tbl _); [reflexivity|].
  now rewrite banners_create_table.
Qed.

Lemma banners_create_field (w : world fm) (tbl name : string) (config : dict) :
  banners (fst (create_field_if_not_exists sv w tbl name config)) = banners w.
Proof.
  unfold create_field_if_not_exists.
  destruct (schema_readable sv w); [|reflexivity]. simpl.
  destruct (find_table tbl (schema w)) as [t|]; [|reflexivity].
  destruct (Py.mem name (table_fields t)); [reflexivity|].
  destruct (dict_mem _ _); [reflexivity|].
  destruct (field_response sv _ tbl name config); reflexivity.
Qed.

Lemma banners_create_fields (todo : list (string * dict)) (w : world fm)
    (tbl : string) :
  banners (fst (create_fields sv w tbl todo)) = banners w.
Proof.
  revert w. induction todo as [|[name config] todo IH]; intros w; simpl;
    [reflexivity|].
  pose proof (banners_create_field w tbl name config) as H1.
  destruct (create_field_if_not_exists sv w tbl name config) as [w1 ok].
  specialize (IH w1). destruct (create_fields sv w1 tbl todo) as [w2 c].
  simpl in *. congruence.
Qed.

Lemma banners_ensure_fields_exist (w : world fm) (tbl : string)
    (field_definitions : list (string * dict)) :
  banners (fst (ensure_fields_exist sv w tbl field_definitions)) = banners w.
Proof.
  unfold ensure_fields_exist.
  pose proof (banners_get_existing_fields w tbl) as H1.
  destruct (get_existing_fields sv w tbl) as [w1 ef]. simpl in H1.
  destruct (fields_to_create ef field_definitions) as [|fd todo]; [exact H1|].
  cbn [fst]. now rewrite banners_create_fields.
Qed.

Lemma banners_clear_table (w : world fm) (tbl : string) :
  banners (clear_table sv w tbl) = banners w.
Proof.
  unfold clear_table. rewrite <- (banners_create_or_get_table w tbl). reflexivity.
Qed.

Lemma banners_insert_batches (tbl : string) (ef : list string)
    (fmap : list (string * string)) (batches : list (list pyval))
    (w : world fm) (acc : list pyval) :
  banners (fst (insert_batches sv tbl ef fmap batches w acc)) = banners w.
Proof.
  revert w acc. induction batches as [|batch rest IH]; intros w acc; simpl;
    [reflexivity|].
  destruct (build_batch_data ef fmap batch) as [[|row data]|e]; try apply IH.
  destruct (batch_response sv w tbl (row :: data)); rewrite IH; reflexivity.
Qed.

Lemma banners_batch_create_records (w : world fm) (tbl : string)
    (records : list pyval) :
  banners (fst (batch_create_records sv w tbl records)) = banners w.
Proof.
  unfold batch_create_records. destruct records as [|r rs]; [reflexivity|].
  pose proof (banners_get_existing_fields w tbl) as H1.
  destruct (get_existing_fields sv w tbl) as [w1 ef]. simpl in H1.
  now rewrite banners_insert_batches, banners_create_or_get_table.
Qed.

Lemma banners_prepare (w : world fm) (module : string) (clear : bool) :
  banners (fst (prepare sv w module clear)) = banners w.
Proof.
  unfold prepare, table_exists, get_base_schema.
  set (w1 := log GetSchema w).
  assert (banners w1 = banners w) as H1 by reflexivity.
  destruct (Py.mem module _).
  - cbn [negb].
    destruct (build_field_type_map [] _) as [ftm|e]; [|exact H1].
    destruct (zoho_records sv _ module) as [|r rs]; [exact H1|].
    destruct (convert_zoho_to_airtable _ _ _) as [recs|e]; [|exact H1].
    cbn [fst].
    assert (banners
              (match ftm with
               | [] => log (GetRecords module) (log (GetFields module) w1)
               | _ :: _ =>
                   fst (ensure_fields_exist sv
                          (log (GetRecords module) (log (GetFields module) w1))
                          module ftm)
               end) = banners w) as H5.
    { destruct ftm; [exact H1|]. rewrite banners_ensure_fields_exist. exact H1. }
    destruct clear; [rewrite banners_clear_table|]; exact H5.
  - pose proof (banners_create_table w1 module) as H2.
    destruct (create_table sv w1 module) as [w2 ok]. simpl in H2.
    destruct ok; cbn [negb]; [|cbn [fst]; congruence].
    assert (banners w2 = banners w) as H3 by congruence.
    destruct (build_field_type_map [] _) as [ftm|e]; [|exact H3].
    destruct (zoho_records sv _ module) as [|r rs]; [exact H3|].
    destruct (convert_zoho_to_airtable _ _ _) as [recs|e]; [|exact H3].
    cbn [fst].
    assert (banners
              (match ftm with
               | [] => log (GetRecords module) (log (GetFields module) w2)
               | _ :: _ =>
                   fst (ensure_fields_exist sv
                          (log (GetRecords module) (log (GetFields module) w2))
                          module ftm)
               end) = banners w) as H5.
    { destruct ftm; [exact H3|]. rewrite banners_ensure_fields_exist. exact H3. }
    destruct clear; [rewrite banners_clear_table|]; exact H5.
Qed.

Lemma banners_sync_module (w : world fm) (module : string) (clear : bool) :
  banners (fst (sync_module sv w module clear)) = banners w ++ [Syncing module].
Proof.
  unfold sync_module, sync_module_recursive. cbn [Py.mem existsb].
  pose proof (banners_prepare (log (Syncing module) w) module clear) as H1.
  change (banners (log (Syncing module) w)) with (banners w ++ [Syncing module])
    in H1.
  destruct (prepare sv (log (Syncing module) w) module clear) as [w1 [[| |recs]|e]];
    cbn [fst] in H1; try exact H1.
  pose proof (banners_batch_create_records w1 module recs) as H2.
  destruct (batch_create_records sv w1 module recs) as [w2 created].
  cbn [fst] in *. congruence.
Qed.

(** X14.  The loop of [main] takes up every entry of the selection, in
    the order of the selection, and skips none: after it the lines that
    announce a module are, in the order printed, those that were there
    followed by one [Syncing] line per selected entry, and no [Skipping]
    line is added. *)
Theorem main_syncs_the_selection_in_order (modules_to_sync : list string)
    (w : world fm) (clear : bool) (total : nat) :
  banners (fst (main_sync sv w modules_to_sync clear total)) =
  banners w ++ map (fun module => Syncing module) modules_to_sync.
Proof.
  revert w total. induction modules_to_sync as [|module rest IH];
    intros w total; cbn [main_sync map].
  - cbn [fst]. now rewrite app_nil_r.
  - pose proof (banners_sync_module w module clear) as H1.
    destruct (sync_module sv w module clear) as [w1 synced]. cbn [fst] in H1.
    rewrite IH, H1, <- app_assoc. reflexivity.
Qed.

(** X15.  A module is marked as synced exactly when its sync got as far as
    the records (none found, or converted and imported); once marked, a
    further call that shares the set is skipped.  A sync that failed
    earlier leaves the module unmarked. *)
Theorem module_marked_iff_records_reached (w : world fm) (module : string)
    (clear : bool) (synced_modules : list string) :
  Py.mem module synced_modules = false ->
  let r := sync_module_recursive sv w module clear synced_modules in
  let p := snd (prepare sv (log (Syncing module) w) module clear) in
  (Py.mem module (snd (fst r)) = true <->
   p = Ok NoRecords \/ exists recs, p = Ok (Ready recs)) /\
  (Py.mem module (snd (fst r)) = true ->
   forall clear',
     sync_module_recursive sv (fst (fst r)) module clear' (snd (fst r)) =
     (log (Skipping module) (fst (fst r)), snd (fst r), 0%nat)).
Proof.
  intros Hmem r p. split.
  - subst r p. unfold sync_module_recursive. rewrite Hmem.
    destruct (prepare sv (log (Syncing module) w) module clear)
      as [w1 [[| |recs]|e]]; cbn [fst snd].
    + rewrite Hmem. split; [discriminate|].
      intros [H|[recs H]]; discriminate.
    + split; [now left|]. intros _. unfold Py.mem. cbn [existsb].
      now rewrite String.eqb_refl.
    + destruct (batch_create_records sv w1 module recs) as [w2 created].
      cbn [fst snd]. split; [right; now exists recs|].
      intros _. unfold Py.mem. cbn [existsb]. now rewrite String.eqb_refl.
    + rewrite Hmem. split; [discriminate|].
      intros [H|[recs H]]; discriminate.
  - intros Hmarked clear'. unfold sync_module_recursive at 1. now rewrite Hmarked.
Qed.

(** ** Batch loading *)

(** X16.  Whatever the destination answers, also when batches are
    refused, the rows sent by [batch_create_records], taken in the order
    of sending, are the rows of the converted records that keep a field,
    each once and in the order of the records. *)
Theorem every_kept_record_is_sent_once (w : world fm) (tbl : string)
    (converted : list dict) :
  let ef := snd (get_existing_fields sv w tbl) in
  exists new,
    batches_sent tbl (fst (batch_create_records sv w tbl (map wrap converted))) =
    batches_sent tbl w ++ new /\
    concat new = batch_rows ef (lower_index ef) converted.
Proof.
  intros ef. eexists. split; [apply batch_create_records_sends|].
  rewrite batch_rows_concat, concat_chunks by (unfold batch_size; lia).
  reflexivity.
Qed.

(** X17.  Every batch [batch_create_records] sends holds at least one
    and at most ten rows. *)
Theorem batches_are_well_sized (w : world fm) (tbl : string)
    (converted : list dict) :
  exists new,
    batches_sent tbl (fst (batch_create_records sv w tbl (map wrap converted))) =
    batches_sent tbl w ++ new /\
    Forall well_sized new.
Proof.
  eexists. split; [apply batch_create_records_sends|].
  set (ef := snd (get_existing_fields sv w tbl)).
  pose proof (chunks_fuel_sizes (length converted) batch_size converted) as Hsz.
  fold (chunks batch_size converted) in Hsz.
  induction (chunks batch_size converted) as [|c cs IH]; cbn [map filter];
    [constructor|].
  inversion Hsz as [|? ? Hc Hcs]; subst.
  pose proof (batch_rows_length ef (lower_index ef) c) as Hl.
  destruct (batch_rows ef (lower_index ef) c) as [|row data] eqn:E; cbn [nonempty].
  - now apply IH.
  - constructor; [|now apply IH]. unfold well_sized. simpl in *. lia.
Qed.

(** ** Schema Reconciler *)

Lemma has_field_lower (tables : list table) (tbl a b : string) :
  Py.lower a = Py.lower b -> has_field tables tbl a = has_field tables tbl b.
Proof.
  intros H. unfold has_field, holds. now rewrite H.
Qed.

Lemma has_field_add_field (tables : list table) (tbl field name : string) :
  has_field tables tbl name = true ->
  has_field (add_field tbl field tables) tbl name = true.
Proof.
  unfold has_field. rewrite find_table_add_field.
  destruct (find_table tbl tables); cbn [option_map]; [|discriminate].
  cbn [table_fields]. intros H. now rewrite holds_app, H.
Qed.

Section AcceptingDestination.

(** A destination that can be read and accepts every new field. *)
Hypothesis readable : forall w, schema_readable sv w = true.
Hypothesis accepted : forall w tbl name config,
    field_response sv w tbl name config = Created.

Lemma create_field_posts (w : world fm) (tbl name : string) (config : dict) :
  let w' := fst (create_field_if_not_exists sv w tbl name config) in
  (posted tbl w' = posted tbl w /\ schema w' = schema w) \/
  (posted tbl w' = name :: posted tbl w /\
   has_field (schema w) tbl name = false /\
   has_field (schema w') tbl name = true /\
   schema w' = add_field tbl name (schema w)).
Proof.
  unfold create_field_if_not_exists. rewrite readable. cbn [negb].
  unfold has_field.
  destruct (find_table tbl (schema w)) as [t|] eqn:Et; [|left; split; reflexivity].
  pose proof (already_there name (table_fields t)) as Ha.
  destruct (Py.mem name (table_fields t)); [left; split; reflexivity|].
  cbn [orb] in Ha. rewrite Ha.
  destruct (holds (table_fields t) name) eqn:Eh; [left; split; reflexivity|].
  rewrite accepted. right. cbn [fst schema trace log].
  split; [unfold posted, log; cbn [trace posted_in]; now rewrite String.eqb_refl|].
  split; [reflexivity|]. split; [|reflexivity].
  rewrite find_table_add_field, Et. cbn [option_map table_fields].
  rewrite holds_app, String.eqb_refl. apply orb_true_r.
Qed.

Lemma create_fields_posts (todo : list (string * dict)) (w : world fm)
    (tbl : string) :
  let w' := fst (create_fields sv w tbl todo) in
  exists new,
    posted tbl w' = new ++ posted tbl w /\
    NoDup (map Py.lower new) /\
    (forall n, In n new ->
               In n (map fst todo) /\ has_field (schema w) tbl n = false /\
               has_field (schema w') tbl n = true) /\
    (forall n, has_field (schema w) tbl n = true ->
               has_field (schema w') tbl n = true).
Proof.
  revert w. induction todo as [|[name config] todo IH]; intros w;
    cbn [create_fields].
  - exists []. cbn [fst]. split; [reflexivity|]. split; [constructor|].
    split; [intros n []|auto].
  - pose proof (create_field_posts w tbl name config) as Hstep.
    destruct (create_field_if_not_exists sv w tbl name config) as [w1 ok].
    specialize (IH w1).
    destruct (create_fields sv w1 tbl todo) as [w2 c]. cbn [fst] in *.
    destruct IH as [new [Hposted [Hnd [Hnew Hmono]]]].
    destruct Hstep as [[Hp Hs]|[Hp [Hbefore [Hafter Hs]]]].
    + exists new. rewrite Hposted, Hp. split; [reflexivity|].
      split; [exact Hnd|]. split.
      * intros n Hn. destruct (Hnew n Hn) as [H1 [H2 H3]].
        split; [now right|]. split; [now rewrite <- Hs|exact H3].
      * intros n Hn. apply Hmono. now rewrite Hs.
    + exists (new ++ [name]). rewrite Hposted, Hp, <- app_assoc.
      split; [reflexivity|]. split; [|split].
      * rewrite map_app. apply NoDup_app; [exact Hnd|repeat constructor; tauto|].
        intros l Hl [<-|[]]. apply in_map_iff in Hl.
        destruct Hl as [n [Hlow Hn]]. destruct (Hnew n Hn) as [_ [H2 _]].
        rewrite (has_field_lower _ tbl n name Hlow) in H2. congruence.
      * intros n Hn. apply in_app_or in Hn. destruct Hn as [Hn|[<-|[]]].
        -- destruct (Hnew n Hn) as [H1 [H2 H3]]. split; [now right|].
           split; [|exact H3].
           destruct (has_field (schema w) tbl n) eqn:E; [|reflexivity].
           rewrite Hs in H2. now rewrite (has_field_add_field _ _ _ _ E) in H2.
        -- split; [now left|]. split; [exact Hbefore|now apply Hmono].
      * intros n Hn. apply Hmono. rewrite Hs. now apply has_field_add_field.
Qed.

(** X18.  Against a destination that can be read and accepts every new
    field, one run of the reconciler asks for no field twice, not even
    under names that differ only by case, asks only for desired names the
    table did not hold, and leaves the table holding each of them. *)
Theorem reconciler_posts_no_case_variants (w : world fm) (tbl : string)
    (field_definitions : list (string * dict)) :
  let w' := fst (ensure_fields_exist sv w tbl field_definitions) in
  exists new,
    posted tbl w' = new ++ posted tbl w /\
    NoDup (map Py.lower new) /\
    forall n, In n new ->
              In n (map fst field_definitions) /\
              has_field (schema w) tbl n = false /\
              has_field (schema w') tbl n = true.
Proof.
  unfold ensure_fields_exist, get_existing_fields, get_base_schema.
  rewrite readable. set (w1 := log GetSchema w).
  assert (forall ef,
             let w' := fst (create_fields sv w1 tbl
                              (fields_to_create ef field_definitions)) in
             exists new,
               posted tbl w' = new ++ posted tbl w /\
               NoDup (map Py.lower new) /\
               forall n, In n new ->
                         In n (map fst field_definitions) /\
                         has_field (schema w) tbl n = false /\
                         has_field (schema w') tbl n = true) as Hrun.
  { intros ef.
    destruct (create_fields_posts (fields_to_create ef field_definitions) w1 tbl)
      as [new [Hp [Hnd [Hnew _]]]].
    exists new. split; [exact Hp|]. split; [exact Hnd|].
    intros n Hn. destruct (Hnew n Hn) as [H1 [H2 H3]].
    split; [now apply fields_to_create_incl with ef|]. split; assumption. }
  destruct (find_table tbl (schema w)) as [t|].
  - specialize (Hrun (table_fields t)).
    destruct (fields_to_create (table_fields t) field_definitions); exact Hrun.
  - specialize (Hrun []).
    destruct (fields_to_create [] field_definitions); exact Hrun.
Qed.

Lemma table_stays (w : world fm) (tbl : string)
    (field_definitions : list (string * dict)) :
  find_table tbl (schema w) <> None ->
  find_table tbl
    (schema (fst (ensure_fields_exist sv w tbl field_definitions))) <> None.
Proof.
  intros Ht.
  assert (forall todo w0,
             find_table tbl (schema w0) <> None ->
             find_table tbl (schema (fst (create_fields sv w0 tbl todo))) <> None)
    as Hcf.
  { induction todo as [|[name config] todo IH]; intros w0 H0; cbn [create_fields];
      [exact H0|].
    destruct (create_field_posts w0 tbl name config) as [[_ Hs]|[_ [_ [_ Hs]]]];
      destruct (create_field_if_not_exists sv w0 tbl name config) as [w1 ok];
      specialize (IH w1); destruct (create_fields sv w1 tbl todo) as [w2 c];
      cbn [fst] in *; apply IH; rewrite Hs; [exact H0|].
    rewrite find_table_add_field. destruct (find_table tbl (schema w0));
      [discriminate|contradiction]. }
  unfold ensure_fields_exist, get_existing_fields, get_base_schema.
  rewrite readable.
  destruct (find_table tbl (schema w)) as [t|] eqn:Et; [|contradiction].
  destruct (fields_to_create (table_fields t) field_definitions) as [|fd todo] eqn:E.
  - cbn [fst schema log]. rewrite Et. discriminate.
  - rewrite <- E. apply Hcf. cbn [schema log]. rewrite Et. discriminate.
Qed.

(** X19.  Against such a destination and an existing table, one run of
    the reconciler leaves every desired name held by the table, and a
    second run with the same desired set then sends no request and changes
    nothing. *)
Theorem reconciler_converges_in_one_run (w : world fm) (tbl : string)
    (field_definitions : list (string * dict)) :
  find_table tbl (schema w) <> None ->
  let w1 := fst (ensure_fields_exist sv w tbl field_definitions) in
  let w2 := fst (ensure_fields_exist sv w1 tbl field_definitions) in
  (forall name, In name (map fst field_definitions) ->
                has_field (schema w1) tbl name = true) /\
  schema w2 = schema w1 /\ field_posts w2 = field_posts w1.
Proof.
  intros Ht w1 w2.
  pose proof (ensure_fields_exist_reconciles sv readable accepted w tbl
                field_definitions) as Hrec.
  split.
  - intros name Hin. specialize (Hrec name Hin).
    pose proof (table_stays w tbl field_definitions Ht) as Hstay.
    fold w1 in Hstay. unfold settled in Hrec. fold w1 in Hrec.
    unfold has_field. destruct (find_table tbl (schema w1)); [exact Hrec|contradiction].
  - apply ensure_fields_exist_settled. exact Hrec.
Qed.

End AcceptingDestination.

(** ** Zoho client *)

Variable z : zoho fm.

Lemma fetch_pages_run (module : string) (n : nat) :
  forall (start fuel : nat) (acc : list pyval),
    (forall p, (start <= p < start + n)%nat -> continues z module p = true) ->
    continues z module (start + n) = false ->
    (n < fuel)%nat ->
    fetch_pages z module fuel start acc =
    Some (acc ++ concat (map (page_records z module) (seq start (S n)))).
Proof.
  induction n as [|n IH]; intros start fuel acc Hgo Hstop Hfuel;
    (destruct fuel as [|fuel]; [lia|]); cbn [fetch_pages seq map concat].
  - rewrite Nat.add_0_r in Hstop. revert Hstop.
    unfold continues, page_records. rewrite app_nil_r.
    destruct (get_records z module start) as [[records info]| |e];
      [|now rewrite app_nil_r|now rewrite app_nil_r].
    destruct records as [|r rs]; [now rewrite app_nil_r|].
    destruct info; cbn [py_get]; try reflexivity.
    intros ->. reflexivity.
  - pose proof (Hgo start ltac:(lia)) as Hfirst. revert Hfirst.
    unfold continues, page_records at 1.
    destruct (get_records z module start) as [[records info]| |e];
      try discriminate.
    destruct records as [|r rs]; [discriminate|].
    destruct info; try discriminate. cbn [py_get]. intros ->.
    rewrite (IH (S start) fuel (acc ++ r :: rs)).
    + now rewrite <- app_assoc.
    + intros p Hp. apply Hgo. lia.
    + now rewrite Nat.add_succ_comm.
    + lia.
Qed.

(** X20.  For a module other than Users, [get_all_records] returns the
    records of pages 1 to [k] in order, where [k] is the first page that
    fails, comes back empty, or does not announce more records; a failing
    page contributes nothing, and [k] rounds of the loop are enough. *)
Theorem pages_are_read_until_the_first_stop (module : string) (k fuel : nat) :
  module <> "Users" ->
  (forall p, (1 <= p <= k)%nat -> continues z module p = true) ->
  continues z module (S k) = false ->
  (k < fuel)%nat ->
  get_all_records z module fuel =
  Some (Reply (VList (concat (map (page_records z module) (seq 1 (S k)))))).
Proof.
  intros Hmod Hgo Hstop Hfuel. unfold get_all_records.
  apply String.eqb_neq in Hmod. rewrite Hmod.
  rewrite (fetch_pages_run module k 1 fuel []); [reflexivity| |exact Hstop|exact Hfuel].
  intros p Hp. apply Hgo. lia.
Qed.

Lemma fetch_details_all (module : string) (ids : list pyval) :
  forall (acc full : list pyval),
    fetch_details z module ids acc = Reply full ->
    forall id, In id ids -> exists d, record_detail z module id = Reply d.
Proof.
  induction ids as [|i ids IH]; intros acc full H id Hin; [contradiction|].
  cbn [fetch_details] in H.
  destruct (record_detail z module i) as [d| |e] eqn:Ed; try discriminate.
  destruct Hin as [<-|Hin]; [now exists d|].
  destruct (py_get d "data" VNone) as [found|e]; [|discriminate].
  destruct (truthy found).
  - destruct (rows <- py_item d "data" ;; py_iter rows) as [rows|e];
      [|discriminate].
    now apply (IH _ _ H).
  - now apply (IH _ _ H).
Qed.

(** X21.  A page comes whole or not at all: when the detail request of
    one of its records fails, [get_records] raises and returns none of the
    page's records, also not those already fetched. *)
Theorem page_is_all_or_nothing (module : string) (page : nat)
    (data id : pyval) (record_ids : list pyval) :
  list_page z module page = Reply data ->
  page_ids data = Ok record_ids ->
  In id record_ids ->
  (forall d, record_detail z module id <> Reply d) ->
  forall r, get_records z module page <> Reply r.
Proof.
  intros Hlist Hids Hin Hfail r. unfold get_records. rewrite Hlist.
  fold (page_ids data). rewrite Hids.
  destruct record_ids as [|i ids]; [contradiction|].
  destruct (fetch_details z module (i :: ids) []) as [full| |e] eqn:Ef;
    try discriminate.
  destruct (fetch_details_all _ _ _ _ Ef id Hin) as [d Hd].
  now destruct (Hfail d).
Qed.

(** ** The selection in [main] *)

Lemma filterM_In {A : Type} (p : A -> result bool) (l out : list A) :
  filterM p l = Ok out -> forall x, In x out -> In x l /\ p x = Ok true.
Proof.
  revert out. induction l as [|y l IH]; intros out; cbn [filterM].
  - intros H. inversion H. intros x [].
  - destruct (p y) as [keep|e] eqn:Ep; cbn [bind]; [|discriminate].
    destruct (filterM p l) as [rest|e]; cbn [bind]; [|discriminate].
    intros H. inversion H. subst out. intros x Hx.
    destruct keep.
    + destruct Hx as [<-|Hx]; [split; [now left|exact Ep]|].
      destruct (IH rest eq_refl x Hx). split; [now right|assumption].
    + destruct (IH rest eq_refl x Hx). split; [now right|assumption].
Qed.

Lemma mapM_In {A B : Type} (f : A -> result B) (l : list A) (out : list B) :
  mapM f l = Ok out -> forall y, In y out -> exists x, In x l /\ f x = Ok y.
Proof.
  revert out. induction l as [|x l IH]; intros out; cbn [mapM].
  - intros H. inversion H. intros y [].
  - destruct (f x) as [b|e] eqn:Ef; cbn [bind]; [|discriminate].
    destruct (mapM f l) as [bs|e]; cbn [bind]; [|discriminate].
    intros H. inversion H. subst out. intros y [<-|Hy].
    + exists x. split; [now left|exact Ef].
    + destruct (IH bs eq_refl y Hy) as [x' [Hin Hf]]. exists x'.
      split; [now right|exact Hf].
Qed.

Lemma select_indices_In (modules : list pyval) (indices : list string) :
  forall acc out,
    select_indices modules acc indices = Ok out ->
    forall name, In name out ->
      In name acc \/ exists m, In m modules /\ py_item m "api_name" = Ok name.
Proof.
  induction indices as [|idx indices IH]; intros acc out; cbn [select_indices].
  - intros H. inversion H. auto.
  - destruct (select_index modules acc idx) as [l|e] eqn:Es; cbn [bind];
      [|discriminate].
    intros H name Hin. destruct (IH l out H name Hin) as [Hl|Hm]; [|now right].
    revert Es. unfold select_index.
    destruct (Py.int_of_str (PyText.strip idx)) as [n|];
      [|intros E; inversion E; subst; now left].
    destruct ((0 <=? n - 1)%Z && (n - 1 <? Z.of_nat (length modules))%Z);
      [|intros E; inversion E; subst; now left].
    destruct (nth_error modules (Z.to_nat (n - 1))) as [m|] eqn:En;
      [|intros E; inversion E; subst; now left].
    destruct (py_item m "api_name") as [nm|e] eqn:Ep; cbn [bind]; [|discriminate].
    intros E. inversion E. subst l.
    apply in_app_or in Hl. destruct Hl as [Hl|[<-|[]]]; [now left|].
    right. exists m. split; [now apply nth_error_In with (Z.to_nat (n - 1))|exact Ep].
Qed.

Lemma py_item_api_name (m name : pyval) :
  py_item m "api_name" = Ok name -> api_name_of m = name.
Proof.
  destruct m; cbn [py_item]; try discriminate.
  unfold dict_item, api_name_of, dict_get.
  destruct (dict_find "api_name" _); [|discriminate].
  intros H. now inversion H.
Qed.

Lemma select_index_selected_by (modules acc out : list pyval) (idx : string) :
  select_index modules acc idx = Ok out ->
  out = acc ++ selected_by modules idx.
Proof.
  unfold select_index, selected_by.
  destruct (Py.int_of_str (PyText.strip idx)) as [n|];
    [|intros H; inversion H; now rewrite app_nil_r].
  destruct (Z.leb_spec 1 n) as [H1|H1], (Z.leb_spec n (Z.of_nat (length modules)))
    as [H2|H2];
    destruct (Z.leb_spec 0 (n - 1)) as [H3|H3],
             (Z.ltb_spec (n - 1) (Z.of_nat (length modules))) as [H4|H4];
    try lia; cbn [andb];
    try (intros H; inversion H; now rewrite app_nil_r).
  replace (Z.to_nat n - 1)%nat with (Z.to_nat (n - 1)) by lia.
  destruct (nth_error modules (Z.to_nat (n - 1))) as [m|];
    [|intros H; inversion H; now rewrite app_nil_r].
  destruct (py_item m "api_name") as [name|e] eqn:Ep; cbn [bind]; [|discriminate].
  intros H. inversion H. now rewrite (py_item_api_name _ _ Ep).
Qed.

Lemma select_indices_selected_by (modules : list pyval) (indices : list string) :
  forall acc out,
    select_indices modules acc indices = Ok out ->
    out = acc ++ flat_map (selected_by modules) indices.
Proof.
  induction indices as [|idx indices IH]; intros acc out; cbn [select_indices flat_map].
  - intros H. inversion H. now rewrite app_nil_r.
  - destruct (select_index modules acc idx) as [l|e] eqn:Es; cbn [bind];
      [|discriminate].
    intros H. rewrite (IH l out H), (select_index_selected_by _ _ _ _ Es).
    now rewrite app_assoc.
Qed.

Lemma mapM_api_names (modules out : list pyval) :
  mapM (fun m => py_item m "api_name") modules = Ok out ->
  out = map api_name_of modules.
Proof.
  revert out. induction modules as [|m modules IH]; intros out; cbn [mapM map].
  - intros H. now inversion H.
  - destruct (py_item m "api_name") as [name|e] eqn:Ep; cbn [bind]; [|discriminate].
    destruct (mapM _ modules) as [names|e]; cbn [bind]; [|discriminate].
    intros H. inversion H. now rewrite (py_item_api_name _ _ Ep), (IH names eq_refl).
Qed.

(** X22.  Whatever is typed at the two prompts, a selection [main]
    proceeds with is not empty and names only modules that the source
    listed as supported by its API.  It is made at the choice 1 or 2 only:
    at 1 it is the names of all the modules listed, in order; at 2 it is,
    entry by entry of the line typed, the name of the module with that
    number, so that entries that are no number or out of range select
    nothing. *)
Theorem selection_names_supported_modules (response : reply pyval)
    (choice line : string) (modules_to_sync : list pyval) :
  main_select response choice line = Selected modules_to_sync ->
  modules_to_sync <> [] /\
  exists modules,
    get_modules response = Reply modules /\
    (forall name, In name modules_to_sync ->
      exists d,
        In (VDict d) modules /\ dict_find "api_name" d = Some name /\
        truthy (dict_get "api_supported" d VNone) = true) /\
    (PyText.strip choice = "1" /\ modules_to_sync = map api_name_of modules
     \/ PyText.strip choice = "2" /\
        modules_to_sync =
        flat_map (selected_by modules) (PyText.split "," (PyText.strip line))).
Proof.
  unfold main_select.
  destruct (get_modules response) as [modules| |e] eqn:Eg; try discriminate.
  destruct modules as [|m0 ms]; [discriminate|].
  destruct (mapM _ (m0 :: ms)) as [labels|e]; [|discriminate].
  set (modules := m0 :: ms) in *.
  assert (forall m, In m modules ->
                    exists d, m = VDict d /\
                              truthy (dict_get "api_supported" d VNone) = true)
    as Hsupported.
  { revert Eg. unfold get_modules.
    destruct response as [data| |e]; try discriminate.
    destruct (py_get data "modules" VNone) as [found|e]; [|discriminate].
    destruct (truthy found); [|discriminate].
    destruct (py_item data "modules") as [v|e]; cbn [bind lift]; [|discriminate].
    destruct (py_iter v) as [items|e]; cbn [bind lift]; [|discriminate].
    destruct (filterM _ items) as [out|e] eqn:Ef; cbn [lift]; [|discriminate].
    intros H. inversion H. subst out. intros m Hm.
    destruct (filterM_In _ _ _ Ef m Hm) as [_ Hp]. cbv beta in Hp.
    destruct m; cbn [py_get bind] in Hp; try discriminate.
    eexists. split; [reflexivity|]. injection Hp as Hp. exact Hp. }
  assert (forall picked : list pyval,
             (forall name, In name picked ->
                exists m, In m modules /\ py_item m "api_name" = Ok name) ->
             forall name, In name picked ->
               exists d,
                 In (VDict d) modules /\ dict_find "api_name" d = Some name /\
                 truthy (dict_get "api_supported" d VNone) = true) as Hnames.
  { intros picked Hp name Hin. destruct (Hp name Hin) as [m [Hm Hitem]].
    destruct (Hsupported m Hm) as [d [-> Htr]]. exists d.
    split; [exact Hm|]. split; [|exact Htr].
    cbn [py_item] in Hitem. unfold dict_item in Hitem.
    destruct (dict_find "api_name" d); [now inversion Hitem|discriminate]. }
  destruct (PyText.strip choice =? "1")%string eqn:E1.
  - destruct (mapM (fun m => py_item m "api_name") modules) as [picked|e] eqn:Em;
      [|discriminate].
    destruct picked as [|n0 ns]; [discriminate|].
    intros H. inversion H. subst modules_to_sync.
    split; [discriminate|]. exists modules. split; [reflexivity|]. split.
    + apply Hnames. intros name Hin. now apply (mapM_In _ _ _ Em).
    + left. split; [now apply String.eqb_eq|now apply mapM_api_names].
  - destruct (PyText.strip choice =? "2")%string eqn:E2; [|discriminate].
    destruct (select_indices modules [] _) as [picked|e] eqn:Es; [|discriminate].
    destruct picked as [|n0 ns]; [discriminate|].
    intros H. inversion H. subst modules_to_sync.
    split; [discriminate|]. exists modules. split; [reflexivity|]. split.
    + apply Hnames. intros name Hin.
      destruct (select_indices_In _ _ _ _ Es name Hin) as [[]|Hm]. exact Hm.
    + right. split; [now apply String.eqb_eq|].
      exact (select_indices_selected_by _ _ _ _ Es).
Qed.

(** ** The bookkeeping of ids *)

Lemma skipn_nth_error {A : Type} (l : list A) (n : nat) (x : A) :
  nth_error l n = Some x -> skipn n l = x :: skipn (S n) l.
Proof.
  revert n. induction l as [|y l IH]; intros [|n]; cbn; try discriminate.
  - intros H. now inversion H.
  - intros H. now apply IH.
Qed.

Lemma store_ids_pairs (zoho_records : list dict) (batch_start : nat)
    (res : list pyval) :
  (forall zr, In zr zoho_records -> has_string_id zr) ->
  Forall has_id res ->
  forall (idx : nat) (assigned : list (pyval * pyval)),
    (batch_start + idx + length res <= length zoho_records)%nat ->
    store_ids zoho_records batch_start idx res assigned =
    assigned ++
    combine (map zoho_id (firstn (length res) (skipn (batch_start + idx) zoho_records)))
            (map airtable_id res).
Proof.
  intros Hz Hres. induction Hres as [|r res Hr Hres IH]; intros idx assigned Hlen.
  - cbn. now rewrite app_nil_r.
  - cbn [length] in Hlen. cbn [store_ids].
    destruct (nth_error zoho_records (batch_start + idx)) as [zr|] eqn:En.
    2:{ apply nth_error_None in En. lia. }
    destruct (Hz zr (nth_error_In _ _ En)) as [sid [Hsid Hne]].
    destruct Hr as [d [a [-> Ha]]].
    assert (dict_get "id" zr VNone = VStr sid) as Hzid.
    { unfold dict_get. now rewrite Hsid. }
    assert (truthy (@VStr fm sid) = true) as Htr.
    { cbn [truthy]. apply String.eqb_neq in Hne. now rewrite Hne. }
    assert (py_item (VDict d) "id" = Ok a) as Hitem.
    { cbn [py_item]. unfold dict_item. now rewrite Ha. }
    assert (airtable_id (VDict d) = a) as Haid.
    { cbn [airtable_id]. unfold dict_get. now rewrite Ha. }
    rewrite (skipn_nth_error _ _ _ En).
    cbn [length firstn map combine]. unfold zoho_id at 1.
    rewrite Hzid, Htr, Hitem, Haid. cbn [hashable].
    rewrite IH by lia. rewrite <- app_assoc. cbn [app].
    now rewrite Nat.add_succ_r.
Qed.

(** X23.  Ids are paired by position: when the Zoho records carry
    non-empty string ids and the created rows carry ids, the rows of a
    batch that starts at [batch_start] are stored, in order, under the ids
    of the Zoho records at [batch_start], [batch_start + 1], and so on. *)
Theorem ids_are_paired_by_position (zoho_records : list dict)
    (batch_start : nat) (res : list pyval) :
  (forall zr, In zr zoho_records -> has_string_id zr) ->
  Forall has_id res ->
  (batch_start + length res <= length zoho_records)%nat ->
  store_ids zoho_records batch_start 0 res [] =
  combine (map zoho_id (firstn (length res) (skipn batch_start zoho_records)))
          (map airtable_id res).
Proof.
  intros Hz Hres Hlen.
  rewrite (store_ids_pairs zoho_records batch_start res Hz Hres 0 []) by lia.
  now rewrite Nat.add_0_r.
Qed.

(** X24.  So a record left out of a batch shifts the ids behind it: when
    the first record of a batch keeps no field and the second does, the
    first row sent holds the second record's fields, and the row created
    for it is stored under the Zoho id of the first record. *)
Theorem left_out_record_shifts_the_ids (ef : list string)
    (dropped second : dict) (rest : list dict)
    (zoho_records : list dict) (batch_start : nat)
    (row : pyval) (rows : list pyval) (first : dict) :
  keeps ef (lower_index ef) dropped = false ->
  keeps ef (lower_index ef) second = true ->
  nth_error zoho_records batch_start = Some first ->
  has_string_id first ->
  has_id row ->
  build_batch_data ef (lower_index ef) (map wrap (dropped :: second :: rest)) =
  Ok (map_fields ef (lower_index ef) second
        :: batch_rows ef (lower_index ef) rest)
  /\ exists more,
       store_ids zoho_records batch_start 0 (row :: rows) [] =
       (zoho_id first, airtable_id row) :: more.
Proof.
  intros Hdrop Hkeep Hnth [sid [Hsid Hne]] [d [a [-> Ha]]]. split.
  - rewrite build_batch_data_wrapped. cbn [batch_rows].
    now rewrite Hdrop, Hkeep.
  - assert (forall res idx (acc : list (pyval * pyval)),
               exists more, store_ids zoho_records batch_start idx res acc
                            = acc ++ more) as Hprefix.
    { induction res as [|r res IH]; intros idx acc; cbn [store_ids].
      - exists []. now rewrite app_nil_r.
      - destruct (nth_error zoho_records (batch_start + idx)) as [zr|]; [|apply IH].
        destruct (truthy (dict_get "id" zr VNone)); [|apply IH].
        destruct (py_item r "id") as [aid|e]; [|exists []; now rewrite app_nil_r].
        destruct (hashable (dict_get "id" zr VNone));
          [|exists []; now rewrite app_nil_r].
        destruct (IH (S idx) (acc ++ [(dict_get "id" zr VNone, aid)])) as [more Hm].
        exists ((dict_get "id" zr VNone, aid) :: more).
        rewrite Hm, <- app_assoc. reflexivity. }
    assert (dict_get "id" first VNone = VStr sid) as Hzid.
    { unfold dict_get. now rewrite Hsid. }
    assert (truthy (@VStr fm sid) = true) as Htr.
    { cbn [truthy]. apply String.eqb_neq in Hne. now rewrite Hne. }
    assert (py_item (VDict d) "id" = Ok a) as Hitem.
    { cbn [py_item]. unfold dict_item. now rewrite Ha. }
    assert (airtable_id (VDict d) = a) as Haid.
    { cbn [airtable_id]. unfold dict_get. now rewrite Ha. }
    cbn [store_ids]. rewrite Nat.add_0_r, Hnth. unfold zoho_id.
    rewrite Hzid, Htr, Hitem, Haid. cbn [hashable app].
    destruct (Hprefix rows 1%nat [(VStr sid, a)]) as [more Hm].
    exists more. exact Hm.
Qed.

End Further.

(* ================================================================= *)
(** * Closed instances of the further properties *)

Ltac each_entry H :=
  simpl in H;
  repeat (destruct H as [H|H]; [inversion H; subst|]);
  try contradiction.

(** X1 at one regular record. *)
Lemma convert_regular_records_witness :
  (forall record, In record [Scenes.lead] -> regular_record record) /\
  exists out,
    convert_zoho_to_airtable [Scenes.lead] None None = Ok out /\
    length out = 1%nat /\
    forall r, In r out -> exists fields, r = wrap fields /\ scalar_fields fields.
Proof.
  assert (forall record, In record [Scenes.lead] -> regular_record record) as H.
  { intros record [<-|[]] k v Hin. each_entry Hin; reflexivity. }
  split; [exact H|].
  exact (convert_regular_records [Scenes.lead] None None H).
Defined.

(** X2 at the same record: [$approved] is stored as [approved]. *)
Lemma converted_keys_are_clean_and_distinct_witness :
  convert_zoho_to_airtable [Scenes.lead] None None =
  Ok [wrap [("id", VStr "101"); ("Owner", VStr "Ann"); ("Tags", VStr "A, B");
            ("approved", VStr "Yes"); ("Score", VStr "7")]] /\
  forall r,
    In r [wrap [("id", @VStr Scenes.fm "101"); ("Owner", VStr "Ann");
                ("Tags", VStr "A, B"); ("approved", VStr "Yes");
                ("Score", VStr "7")]] ->
    exists fields,
      r = wrap fields /\ NoDup (dict_keys fields) /\
      forall k, In k (dict_keys fields) -> Py.startswith "$" k = false.
Proof.
  split; [reflexivity|].
  exact (converted_keys_are_clean_and_distinct [Scenes.lead] None None _ eq_refl).
Defined.

(** X3 at [$state] followed by [state]: the later value is kept, under
    the place of the earlier one. *)
Lemma later_entry_wins_witness :
  let items : dict Scenes.fm := [("$state", VStr "system"); ("City", VStr "Oslo")] in
  convert_fields [] [] [] items =
    Ok [("state", VStr "system"); ("City", VStr "Oslo")] /\
  exists out,
    convert_fields [] [] [] (items ++ [("state", VStr "Norway")]) = Ok out /\
    dict_find "state" out = Some (VStr "Norway") /\
    (forall k, k <> "state" ->
               dict_find k out =
               dict_find k [("state", @VStr Scenes.fm "system"); ("City", VStr "Oslo")]) /\
    (true = true -> dict_keys out = ["state"; "City"]).
Proof.
  intros items. split; [reflexivity|].
  refine (later_entry_wins (fm := Scenes.fm) [] [] items _ "state"
            (VStr "Norway") (VStr "Norway") eq_refl eq_refl _ eq_refl).
  discriminate.
Defined.

(** X4 at the module Leads, which has no blacklist. *)
Lemma skipped_entries_do_not_count_witness :
  "Leads" <> "Users" /\
  convert_fields [] ["Score"] [] Scenes.lead =
  convert_fields [] [] []
    [("id", VStr "101"); ("Owner", Scenes.owner);
     ("Tags", VList [VDict [("name", VStr "A")]; VDict [("name", VStr "B")]]);
     ("$approved", VBool true)] /\
  convert_zoho_to_airtable [Scenes.lead] None (Some "Leads") =
  convert_zoho_to_airtable [Scenes.lead] None None.
Proof.
  assert ("Leads" <> "Users") as Hne by discriminate.
  split; [exact Hne|].
  destruct (skipped_entries_do_not_count (fm := Scenes.fm) [] ["Score"]
              Scenes.lead [] [Scenes.lead] None "Leads") as [H1 H2].
  split; [exact H1|exact (H2 Hne)].
Defined.

(** X5 at a record of a boolean, an object and a list. *)
Lemma structured_values_ignore_the_type_map_witness :
  let record : dict Scenes.fm :=
    [("Owner", Scenes.owner); ("$approved", VBool true);
     ("Tags", VList [VStr "A"; VStr "B"])] in
  (forall r, In r [record] -> forall k v, In (k, v) r -> structured v = true) /\
  convert_zoho_to_airtable [record] (Some [("Tags", [("type", VStr "multipleSelects")])])
    None =
  convert_zoho_to_airtable [record] (Some []) None.
Proof.
  intros record.
  assert (forall r, In r [record] ->
                    forall k v, In (k, v) r -> structured v = true) as H.
  { intros r [<-|[]] k v Hin. each_entry Hin; reflexivity. }
  split; [exact H|].
  exact (structured_values_ignore_the_type_map [record] _ _ None H).
Defined.

(** X6 at a whole number under a key without a declared type. *)
Lemma undeclared_key_is_text_witness :
  dict_find (clean_key "Score") ([] : list (string * dict Scenes.fm)) = None /\
  convert_field (fm := Scenes.fm) [] [] [] ("Score", VInt 7) =
  Ok [("Score", VStr "7")].
Proof.
  split; [reflexivity|].
  exact (proj2 (undeclared_key_is_text (fm := Scenes.fm) [] [] [] "Score"
                  VNone 7 eq_refl) eq_refl).
Defined.

(** X7 at a picklist descriptor. *)
Lemma mapper_output_shape_witness :
  map_zoho_type_to_airtable Scenes.stage_field =
    Ok [("type", VStr "singleSelect");
        ("options", VDict [("choices", VList [named (VStr "Open"); named (VStr "Won")])])]
  /\ exists ty,
       Some (@VStr Scenes.fm "singleSelect") = Some (VStr ty) /\
       In ty destination_types.
Proof.
  split; [reflexivity|].
  destruct (mapper_output_shape Scenes.stage_field _ eq_refl) as [ty [Hty [Hin _]]].
  exists ty. split; [exact Hty|exact Hin].
Defined.

(** X8 at a descriptor whose [data_type] is null: the mapper raises. *)
Lemma mapper_returns_iff_witness :
  data_type_of Scenes.untyped = None /\
  ~ returns (map_zoho_type_to_airtable Scenes.untyped) /\
  returns (map_zoho_type_to_airtable Scenes.stage_field).
Proof.
  split; [reflexivity|]. split.
  - intros H.
    destruct (proj1 (mapper_returns_iff Scenes.untyped) H) as [s [Hs _]].
    discriminate Hs.
  - apply (proj2 (mapper_returns_iff Scenes.stage_field)).
    exists "picklist". split; reflexivity.
Defined.

(** X9 at a module one of whose descriptors has a null [data_type]. *)
Lemma bad_descriptor_aborts_sync_witness :
  let sv := Scenes.services_of [Scenes.stage_field; Scenes.untyped] [Scenes.lead] true in
  let r := sync_module_recursive sv Scenes.leads_base "Leads" true [] in
  data_type_of Scenes.untyped = None /\
  snd r = 0%nat /\ snd (fst r) = [] /\
  count (is_fetch "Leads") (fst (fst r)) = 0%nat /\
  count is_write (fst (fst r)) = 0%nat.
Proof.
  intros sv r. split; [reflexivity|].
  refine (bad_descriptor_aborts_sync sv Scenes.leads_base "Leads" true []
            [Scenes.stage_field; Scenes.untyped] Scenes.untyped "Broken"
            eq_refl (fun _ => eq_refl) _ eq_refl _ eq_refl).
  - right. now left.
  - discriminate.
Defined.

(** X10 at a module with a record whose list mixes an object and a
    string. *)
Lemma failed_conversion_aborts_sync_witness :
  let sv := Scenes.services_of [Scenes.stage_field] [Scenes.mixed] true in
  let r := sync_module_recursive sv Scenes.leads_base "Leads" true [] in
  (forall ftm, raises (convert_zoho_to_airtable [Scenes.mixed]
                         (Some ftm) (Some "Leads"))) /\
  snd r = 0%nat /\ snd (fst r) = [] /\ count is_write (fst (fst r)) = 0%nat.
Proof.
  intros sv r.
  assert (forall ftm, raises (convert_zoho_to_airtable [Scenes.mixed]
                                (Some ftm) (Some "Leads"))) as H.
  { intros ftm. exists AttributeError. reflexivity. }
  split; [exact H|].
  exact (failed_conversion_aborts_sync sv Scenes.leads_base "Leads" true []
           [Scenes.mixed] eq_refl (fun _ => eq_refl) H).
Defined.

(** X11 at a module without records, clearing asked for. *)
Lemma empty_module_writes_nothing_witness :
  let sv := Scenes.services_of [Scenes.stage_field] [] true in
  let r := sync_module_recursive sv Scenes.leads_base "Leads" true [] in
  (forall w', zoho_records sv w' "Leads" = []) /\
  snd r = 0%nat /\ count is_write (fst (fst r)) = 0%nat.
Proof.
  intros sv r. split; [intros w'; reflexivity|].
  exact (empty_module_writes_nothing sv Scenes.leads_base "Leads" true []
           (fun _ => eq_refl)).
Defined.

(** X12 at a base without the table and a destination that refuses to
    create it. *)
Lemma missing_table_stops_before_the_source_witness :
  let sv := Scenes.services_of [Scenes.stage_field] [Scenes.lead] false in
  let r := sync_module_recursive sv Scenes.leads_base "Deals" false [] in
  Py.mem "Deals" (map table_name (schema Scenes.leads_base)) = false /\
  snd r = 0%nat /\ snd (fst r) = [] /\
  schema (fst (fst r)) = schema Scenes.leads_base /\
  count is_zoho_request (fst (fst r)) = 0%nat.
Proof.
  intros sv r. split; [reflexivity|].
  exact (missing_table_stops_before_the_source sv Scenes.leads_base "Deals"
           false [] eq_refl eq_refl (fun _ => eq_refl)).
Defined.

Lemma one_row_per_record (fields records : list (dict Scenes.fm)) (tables : bool)
    (w : world Scenes.fm) (tbl : string) (data : list (dict Scenes.fm))
    (res : list (pyval Scenes.fm)) :
  batch_response (Scenes.services_of fields records tables) w tbl data = Ok res ->
  length res = length data.
Proof.
  cbn. intros H. inversion H. apply length_map.
Qed.

(** X13 at a source of two records. *)
Lemma sync_count_is_bounded_witness :
  let sv := Scenes.services_of [Scenes.stage_field] [Scenes.lead; Scenes.lead] true in
  (forall w', (length (zoho_records sv w' "Leads") <= 2)%nat) /\
  (snd (sync_module_recursive sv Scenes.leads_base "Leads" false []) <= 2)%nat.
Proof.
  intros sv. split; [intros w'; apply le_n|].
  exact (sync_count_is_bounded sv (one_row_per_record _ _ _) Scenes.leads_base
           "Leads" false [] 2 (fun _ => le_n 2)).
Defined.

(** X15 at a module whose records are imported. *)
Lemma module_marked_iff_records_reached_witness :
  let sv := Scenes.services_of [Scenes.stage_field] [Scenes.lead] true in
  let r := sync_module_recursive sv Scenes.leads_base "Leads" false [] in
  Py.mem "Leads" [] = false /\
  Py.mem "Leads" (snd (fst r)) = true /\
  sync_module_recursive sv (fst (fst r)) "Leads" true (snd (fst r)) =
  (log (Skipping "Leads") (fst (fst r)), snd (fst r), 0%nat).
Proof.
  intros sv r. split; [reflexivity|]. split; [reflexivity|].
  exact (proj2 (module_marked_iff_records_reached sv Scenes.leads_base "Leads"
                  false [] eq_refl) eq_refl true).
Defined.

(** X18 at desired fields [State] and [state]: one request. *)
Lemma reconciler_posts_no_case_variants_witness :
  let sv := Scenes.services_of [] [] true in
  let w' := fst (ensure_fields_exist sv Scenes.leads_base "Leads" Scenes.state_fields) in
  (forall w, schema_readable sv w = true) /\
  posted "Leads" w' = ["State"] /\
  exists new,
    posted "Leads" w' = new ++ posted "Leads" Scenes.leads_base /\
    NoDup (map Py.lower new).
Proof.
  intros sv w'. split; [intros w; reflexivity|]. split; [reflexivity|].
  destruct (reconciler_posts_no_case_variants sv (fun _ => eq_refl)
              (fun _ _ _ _ => eq_refl) Scenes.leads_base "Leads"
              Scenes.state_fields) as [new [Hp [Hnd _]]].
  exists new. split; [exact Hp|exact Hnd].
Defined.

(** X19 at the same desired fields. *)
Lemma reconciler_converges_in_one_run_witness :
  let sv := Scenes.services_of [] [] true in
  let w1 := fst (ensure_fields_exist sv Scenes.leads_base "Leads" Scenes.state_fields) in
  let w2 := fst (ensure_fields_exist sv w1 "Leads" Scenes.state_fields) in
  find_table "Leads" (schema Scenes.leads_base) <> None /\
  (forall name, In name (map fst Scenes.state_fields) ->
                has_field (schema w1) "Leads" name = true) /\
  schema w2 = schema w1 /\ field_posts w2 = field_posts w1.
Proof.
  intros sv w1 w2.
  assert (find_table "Leads" (schema Scenes.leads_base) <> None) as H
      by discriminate.
  split; [exact H|].
  exact (reconciler_converges_in_one_run sv (fun _ => eq_refl)
           (fun _ _ _ _ => eq_refl) Scenes.leads_base "Leads"
           Scenes.state_fields H).
Defined.

(** X20 at two pages, the second announcing no more. *)
Lemma pages_are_read_until_the_first_stop_witness :
  "Leads" <> "Users" /\
  continues (Scenes.source "") "Leads" 1 = true /\
  continues (Scenes.source "") "Leads" 2 = false /\
  get_all_records (Scenes.source "") "Leads" 5 =
  Some (Reply (VList [VDict [("id", VStr "1"); ("Company", VStr "Acme")];
                      VDict [("id", VStr "2"); ("Company", VStr "Acme")];
                      VDict [("id", VStr "3"); ("Company", VStr "Acme")]])).
Proof.
  assert ("Leads" <> "Users") as Hne by discriminate.
  split; [exact Hne|]. split; [reflexivity|]. split; [reflexivity|].
  refine (pages_are_read_until_the_first_stop (Scenes.source "") "Leads" 1 5
            Hne _ eq_refl _).
  - intros p Hp. assert (p = 1%nat) as -> by lia. reflexivity.
  - lia.
Defined.

(** X21 at a first page whose second record cannot be fetched; the run
    over the pages then delivers nothing. *)
Lemma page_is_all_or_nothing_witness :
  page_ids (Scenes.listed ["1"; "2"] true) = Ok [VStr "1"; VStr "2"] /\
  (forall d, record_detail (Scenes.source "2") "Leads" (VStr "2") <> Reply d) /\
  (forall r, get_records (Scenes.source "2") "Leads" 1 <> Reply r) /\
  get_all_records (Scenes.source "2") "Leads" 5 = Some (Reply (VList [])).
Proof.
  split; [reflexivity|].
  assert (forall d, record_detail (Scenes.source "2") "Leads" (VStr "2") <> Reply d)
    as H by (intros d; discriminate).
  split; [exact H|]. split; [|reflexivity].
  refine (page_is_all_or_nothing (Scenes.source "2") "Leads" 1 _ (VStr "2")
            [VStr "1"; VStr "2"] eq_refl eq_refl _ H).
  right. now left.
Defined.

(** X22 at a typed line with a number out of range, a word and a
    repetition: of the five entries the second and the third select
    nothing. *)
Lemma selection_names_supported_modules_witness :
  main_select Scenes.module_list " 2 " "2, 7, x ,1,1" =
    Selected [VStr "Accounts"; VStr "Leads"; VStr "Leads"] /\
  map (selected_by [Scenes.module_entry "Leads" true;
                    Scenes.module_entry "Accounts" true])
      (PyText.split "," (PyText.strip "2, 7, x ,1,1")) =
    [[VStr "Accounts"]; []; []; [VStr "Leads"]; [VStr "Leads"]] /\
  exists modules,
    get_modules Scenes.module_list = Reply modules /\
    (forall name, In name [@VStr Scenes.fm "Accounts"; VStr "Leads"; VStr "Leads"] ->
      exists d,
        In (VDict d) modules /\ dict_find "api_name" d = Some name /\
        truthy (dict_get "api_supported" d VNone) = true) /\
    (PyText.strip " 2 " = "1" /\
     [@VStr Scenes.fm "Accounts"; VStr "Leads"; VStr "Leads"] =
     map api_name_of modules
     \/ PyText.strip " 2 " = "2" /\
        [@VStr Scenes.fm "Accounts"; VStr "Leads"; VStr "Leads"] =
        flat_map (selected_by modules)
          (PyText.split "," (PyText.strip "2, 7, x ,1,1"))).
Proof.
  split; [reflexivity|]. split; [reflexivity|].
  exact (proj2 (selection_names_supported_modules Scenes.module_list " 2 "
                  "2, 7, x ,1,1" _ eq_refl)).
Defined.

Lemma sources_have_ids (zr : dict Scenes.fm) :
  In zr Scenes.sources -> has_string_id zr.
Proof.
  intros H. each_entry H; eexists; (split; [reflexivity|discriminate]).
Qed.

(** X23 at the second batch position of three records. *)
Lemma ids_are_paired_by_position_witness :
  Forall has_id [Scenes.row "recA"; Scenes.row "recB"] /\
  store_ids Scenes.sources 1 0 [Scenes.row "recA"; Scenes.row "recB"] [] =
  [(VStr "z2", VStr "recA"); (VStr "z3", VStr "recB")].
Proof.
  assert (Forall has_id [Scenes.row "recA"; Scenes.row "recB"]) as H.
  { repeat constructor; eexists; eexists; (split; reflexivity). }
  split; [exact H|].
  exact (ids_are_paired_by_position Scenes.sources 1
           [Scenes.row "recA"; Scenes.row "recB"] sources_have_ids H
           (le_n 3)).
Defined.

(** X24 at three records of which the first has no field the table
    knows: the row of the second is stored under the id of the first. *)
Lemma left_out_record_shifts_the_ids_witness :
  let ef := ["Name"] in
  keeps ef (lower_index ef) [("id", @VStr Scenes.fm "z1"); ("zzz", VInt 1)] = false /\
  build_batch_data ef (lower_index ef) (map wrap Scenes.sources) =
    Ok [[("Name", VStr "Acme")]; [("Name", VStr "Bolt")]] /\
  exists more,
    store_ids Scenes.sources 0 0 [Scenes.row "recA"; Scenes.row "recB"] [] =
    (VStr "z1", VStr "recA") :: more.
Proof.
  intros ef. split; [reflexivity|].
  refine (left_out_record_shifts_the_ids ef
            [("id", VStr "z1"); ("zzz", VInt 1)]
            [("id", VStr "z2"); ("Name", VStr "Acme")]
            [[("id", VStr "z3"); ("Name", VStr "Bolt")]]
            Scenes.sources 0 (Scenes.row "recA") [Scenes.row "recB"]
            [("id", VStr "z1"); ("zzz", VInt 1)]
            eq_refl eq_refl eq_refl _ _).
  - eexists. split; [reflexivity|discriminate].
  - eexists. eexists. split; reflexivity.
Defined.
